(** * Budget-Analyzer: the expense ingestion, date alignment and
      categorization engine of [Code/main.py]

    A shallow embedding of the two engine classes of the program,
    [AccountExpenseHistory] and [ExpenseHistoryAnalyzer], and the properties
    their behaviour is specified by.

    Conventions of the embedding:
    - a Python [str] is a [string]; its characters are taken in the code
      point range 0..255;
    - a Python [int] is an [N] where the code only ever builds it from a run
      of decimal digits, without bound on its size;
    - a call that can raise returns a [result]: [Ok v] or [Raise e], where
      [e] names the Python exception; [sys.exit(1)] is the exception
      [SystemExit], carrying what was printed before it;
    - a [dict] is an association list in insertion order, assigning to a key
      already present keeps its position ([dict_set]);
    - a [set] is a [gset]; [list(s)] is [elements s], whose order is left
      open, as the iteration order of a Python set is. *)

From Stdlib Require Import Ascii String Floats DecimalString DecimalN.
From stdpp Require Import gmap strings list sorting.

Local Open Scope string_scope.

(** ** Exceptions and results *)

(** What the program prints before it calls [sys.exit(1)]. *)
Inductive diagnostic : Type :=
  | BadlyFormattedFiles (path : string) (bad_file : option string)
      (* "Error: files not formatted correctly in <path>",
         then "Bad filename is <file>" inside the loop, then "exiting..." *)
  | ProblemWithLine (line : list string)
      (* "Poblem with line", the line, "in file: <file>" *)
  | ReservedCategory (config_path : string).
      (* "Error: special categories Total and Misc are reserved", ...,
         "Please correct the file at:", <config_path>, "exiting..." *)

Inductive exn : Type :=
  | IndexError
  | KeyError
  | ValueError
  | StopIteration
  | ReError                       (* [re.error], from [re.compile] *)
  | SystemExit (d : diagnostic).  (* [sys.exit(1)] after the prints of [d] *)

Inductive result (A : Type) : Type :=
  | Ok (a : A)
  | Raise (e : exn).
Arguments Ok {A} a.
Arguments Raise {A} e.

Definition rbind {A B} (r : result A) (k : A → result B) : result B :=
  match r with
  | Ok a => k a
  | Raise e => Raise e
  end.

Notation "'let*' x ':=' r 'in' k" := (rbind r (λ x, k))
  (at level 10, x pattern, r at level 100, k at level 200, only parsing).

Definition is_ok {A} (r : result A) : Prop := ∃ a, r = Ok a.

(** [l[i]] for a non-negative index: [IndexError] out of range. *)
Definition py_index {A} (l : list A) (i : nat) : result A :=
  match l !! i with
  | Some a => Ok a
  | None => Raise IndexError
  end.

(** ** Ordered dictionaries *)

Section odict.
Context {K V : Type} `{EqDecision K}.

(** [d[k] = v] *)
Fixpoint dict_set (k : K) (v : V) (d : list (K * V)) : list (K * V) :=
  match d with
  | [] => [(k, v)]
  | (k', v') :: d' =>
      if decide (k = k') then (k, v) :: d' else (k', v') :: dict_set k v d'
  end.

(** [d.get(k)] *)
Fixpoint dict_get (k : K) (d : list (K * V)) : option V :=
  match d with
  | [] => None
  | (k', v') :: d' => if decide (k = k') then Some v' else dict_get k d'
  end.

(** [d[k]], [KeyError] when absent *)
Definition dict_lookup (k : K) (d : list (K * V)) : result V :=
  match dict_get k d with
  | Some v => Ok v
  | None => Raise KeyError
  end.

Definition dict_keys (d : list (K * V)) : list K := d.*1.
Definition dict_values (d : list (K * V)) : list V := d.*2.
End odict.

(** ** Characters and digit runs *)

Definition is_digit (c : ascii) : bool :=
  (48 <=? nat_of_ascii c)%nat && (nat_of_ascii c <=? 57)%nat.

Definition is_nonzero_digit (c : ascii) : bool :=
  (49 <=? nat_of_ascii c)%nat && (nat_of_ascii c <=? 57)%nat.

Fixpoint string_forall (P : ascii → bool) (s : string) : bool :=
  match s with
  | EmptyString => true
  | String c s' => P c && string_forall P s'
  end.

(** the first character, if any, satisfies [P] *)
Definition starts_with (P : ascii → bool) (s : string) : bool :=
  match s with
  | EmptyString => false
  | String c _ => P c
  end.

(** [AccountExpenseHistory.p.findall(s)] for [p = re.compile("[1-9]+[0-9]*")].

    The pattern is matched leftmost and greedily: a match starts at the first
    character in 1..9 that is not inside an earlier match and runs over every
    decimal digit that follows; the scan goes on after the match.  [cur] is
    the match being read, if any. *)
Fixpoint findall_go (cur : option string) (s : string) : list string :=
  match s with
  | EmptyString => match cur with Some r => [r] | None => [] end
  | String c s' =>
      match cur with
      | Some r =>
          if is_digit c then findall_go (Some (r +:+ String c EmptyString)) s'
          else r :: findall_go None s'
      | None =>
          if is_nonzero_digit c then findall_go (Some (String c EmptyString)) s'
          else findall_go None s'
      end
  end.

Definition p_findall (s : string) : list string := findall_go None s.

(** [int(s)], as the program uses it: on a match of [p], a non-empty run of
    decimal digits.  Any other argument is answered with [ValueError]. *)
Definition py_int (s : string) : result N :=
  match s with
  | EmptyString => Raise ValueError
  | _ =>
      match NilEmpty.uint_of_string s with
      | Some u => Ok (N.of_uint u)
      | None => Raise ValueError
      end
  end.

(** ["{}".format(n)] for an [int] that is not negative *)
Definition py_str (n : N) : string := NilEmpty.string_of_uint (N.to_uint n).

(** ["{:02d}".format(n)]: the decimal digits, filled with zeros on the left
    to a width of at least two *)
Definition py_02d (n : N) : string :=
  let s := py_str n in
  if (String.length s <? 2)%nat then "0" +:+ s else s.

(** ** AccountExpenseHistory *)

(** [y, m = map(int, self.p.findall(file))]: unpacking anything but two
    values raises [ValueError]. *)
Definition unpack_year_month (mo : list string) : result (N * N) :=
  match mo with
  | [sy; sm] => let* y := py_int sy in let* m := py_int sm in Ok (y, m)
  | _ => Raise ValueError
  end.

(** ["{}_{:02d}".format(y, m)] *)
Definition date_str (y m : N) : string := py_str y +:+ "_" +:+ py_02d m.

(** the body of the loop of [extract_dates] *)
Definition extract_date (file : string) : result string :=
  let* (y, m) := unpack_year_month (p_findall file) in Ok (date_str y m).

(** [extract_dates]: the loop stops at the first file that raises. *)
Fixpoint extract_dates (files : list string) : result (list string) :=
  match files with
  | [] => Ok []
  | file :: files' =>
      let* d := extract_date file in
      let* ds := extract_dates files' in
      Ok (d :: ds)
  end.

(** the update of [(y0, m0)] to the next month in [audit_for_missing_data] *)
Definition next_month (ym : N * N) : N * N :=
  let '(y0, m0) := ym in
  if (m0 =? 12)%N then ((y0 + 1)%N, 1%N) else (y0, (m0 + 1)%N).

(** the loop of [audit_for_missing_data] over [self.files[1:]] *)
Fixpoint audit_loop (path : string) (ym0 : N * N) (files : list string)
  : result bool :=
  match files with
  | [] => Ok false
  | file :: files' =>
      let mo := p_findall file in
      if decide (length mo ≠ 2) then
        Raise (SystemExit (BadlyFormattedFiles path (Some file)))
      else
        let* (y, m) := unpack_year_month mo in
        let '(y0, m0) := next_month ym0 in
        if negb (y =? y0)%N || negb (m =? m0)%N then Ok true
        else audit_loop path (y0, m0) files'
  end.

Definition audit_for_missing_data (path : string) (files : list string)
  : result bool :=
  match files with
  | [] => Ok true
  | file0 :: files' =>
      let mo := p_findall file0 in
      if decide (length mo ≠ 2) then
        Raise (SystemExit (BadlyFormattedFiles path None))
      else
        let* ym0 := unpack_year_month mo in audit_loop path ym0 files'
  end.


(** ** Text of the configuration file *)

(** [c.isspace()] on the code points 0..255 *)
Definition is_space (c : ascii) : bool :=
  let n := nat_of_ascii c in
  ((9 <=? n)%nat && (n <=? 13)%nat) || ((28 <=? n)%nat && (n <=? 32)%nat)
  || (n =? 133)%nat || (n =? 160)%nat.

Fixpoint lstrip (s : string) : string :=
  match s with
  | EmptyString => EmptyString
  | String c s' => if is_space c then lstrip s' else s
  end.

Fixpoint rstrip (s : string) : string :=
  match s with
  | EmptyString => EmptyString
  | String c s' =>
      match rstrip s' with
      | EmptyString => if is_space c then EmptyString else String c EmptyString
      | r => String c r
      end
  end.

(** [s.strip()] *)
Definition str_strip (s : string) : string := rstrip (lstrip s).

Definition tab : ascii := ascii_of_nat 9.
Definition newline : ascii := ascii_of_nat 10.

(** [s.split("\t")]: never empty, the empty string gives one empty field *)
Fixpoint split_tab (s : string) : list string :=
  match s with
  | EmptyString => [EmptyString]
  | String c s' =>
      if decide (c = tab) then EmptyString :: split_tab s'
      else
        match split_tab s' with
        | f :: fs => String c f :: fs
        | [] => [String c EmptyString]
        end
  end.

(** ** Numbers

    The amounts of an account are what its expense tuples hold: [float]s for
    an [AccountExpenseHistory], and whatever supports [0 + x] and [x + y] for
    the other account objects [ExpenseHistoryAnalyzer] is documented to take.
    [nzero] is the [0] the buckets start from, [nadd] is [+]. *)
Class Number (A : Type) : Type := { nzero : A; nadd : A → A → A }.

(** Python's [float]: IEEE 754 binary64 *)
#[export] Instance float_number : Number float :=
  {| nzero := 0%float; nadd := PrimFloat.add |}.

(** exact integer amounts (for instance whole cents) *)
#[export] Instance Z_number : Number Z := {| nzero := 0%Z; nadd := Z.add |}.

(** A number type whose addition is exact. *)
Class ExactNumber (A : Type) `{Number A} : Prop := {
  nadd_assoc : ∀ x y z : A, nadd x (nadd y z) = nadd (nadd x y) z;
  nadd_comm : ∀ x y : A, nadd x y = nadd y x;
  nadd_zero_l : ∀ x : A, nadd nzero x = x
}.

(** ** Accounts *)

(** The fields of an account object that the analyzer reads: [expenses] holds
    one list of [(expense, location)] tuples per entry of [dates]. *)
Record account (A : Type) : Type := Account {
  label : string;
  path : string;
  dates : list string;
  expenses : list (list (A * string))
}.
Arguments Account {A}.
Arguments label {A}.
Arguments path {A}.
Arguments dates {A}.
Arguments expenses {A}.

(** [AccountExpenseHistory.__init__], with the two steps that read the disk
    taken as given: [files] is what [extract_files] returns and [parsed] what
    [parse_and_aggregate_expenses] returns.  The flag is [is_missing_data]. *)
Definition AccountExpenseHistory_init {A} (data_path lbl : string)
    (files : list string) (parsed : list (list (A * string)))
  : result (bool * account A) :=
  let* is_missing_data := audit_for_missing_data data_path files in
  let* ds := extract_dates files in
  Ok (is_missing_data, Account lbl data_path ds parsed).

(** ** Date reconciliation

    [self.accounts] is the dictionary of the keyword arguments; the two
    functions go through its values in order. *)

Definition date_set_of {A} (a : account A) : gset string :=
  list_to_set (dates a).

(** [list(date_range)] followed by [date_range.sort()].  The list of a set
    has no duplicates and the order of Python strings is total, so every
    sorting algorithm returns the same list; merge sort stands for the sort
    of Python. *)
Definition sorted_list (date_range : gset string) : list string :=
  merge_sort String.le (elements date_range).

Definition find_date_range_intersection {A} (accounts : list (string * account A))
  : result (list string) :=
  match dict_values accounts with
  | [] => Raise StopIteration     (* [next(accounts)] on an exhausted iterator *)
  | acc :: rest =>
      let date_range :=
        foldl (λ dr a, dr ∩ date_set_of a) (date_set_of acc) rest in
      Ok (sorted_list date_range)
  end.

Definition find_date_range_union {A} (accounts : list (string * account A))
  : list string :=
  let date_range :=
    foldl (λ dr a, dr ∪ date_set_of a) (∅ : gset string) (dict_values accounts) in
  sorted_list date_range.

(** ** ExpenseHistoryAnalyzer *)

(** The two files the analyzer writes: the shared regex-collision report,
    removed when the class is loaded and appended to afterwards, and the
    uncategorized-locations report of the analyzer. *)
Record out_files : Type := OutFiles {
  regex_collisions_txt : string;
  uncategorized_txt : string
}.

(** Computations that write the files and can raise: the files keep what was
    written before an exception. *)
Definition M (A : Type) : Type := out_files → result A * out_files.

Definition mret {A} (a : A) : M A := λ fs, (Ok a, fs).

Definition mlift {A} (r : result A) : M A := λ fs, (r, fs).

Definition mbindM {A B} (m : M A) (k : A → M B) : M B :=
  λ fs,
    match m fs with
    | (Ok a, fs') => k a fs'
    | (Raise e, fs') => (Raise e, fs')
    end.

Notation "'let!' x ':=' m 'in' k" := (mbindM m (λ x, k))
  (at level 10, x pattern, m at level 100, k at level 200, only parsing).

(** [with open(self.output_path_regex_collisions, "a") as out: out.write(t)] *)
Definition append_collisions (t : string) : M unit :=
  λ fs, (Ok (), OutFiles (regex_collisions_txt fs +:+ t) (uncategorized_txt fs)).

(** [with open(self.output_path_uncategorized, "a") as out: out.write(t)] *)
Definition append_uncategorized (t : string) : M unit :=
  λ fs, (Ok (), OutFiles (regex_collisions_txt fs) (uncategorized_txt fs +:+ t)).

(** [f = open(self.output_path_uncategorized, "w"); f.write(t)] *)
Definition truncate_uncategorized (t : string) : M unit :=
  λ fs, (Ok (), OutFiles (regex_collisions_txt fs) t).

(** a [try] block whose only handler is [except ValueError] *)
Definition except_ValueError {A} (body handler : result A) : result A :=
  match body with
  | Raise ValueError => handler
  | _ => body
  end.

(** [s + "\n"] *)
Definition line_of (s : string) : string := s +:+ String newline EmptyString.

(** what the analyzer writes for one collision *)
Definition collision_entry (config_path location : string) (cats : list string)
  : string :=
  line_of ("Collision in " +:+ config_path)
  +:+ line_of ("Location: " +:+ location +:+ " matches the following categories:")
  +:+ String.concat EmptyString (line_of <$> cats)
  +:+ String newline EmptyString.

Record analyzer (A limit : Type) : Type := Analyzer {
  a_label : string;
  config_path : string;
  target_total_limit : limit;
  accounts : list (string * account A);
  regex_category_dict : list (string * string);
  category_limits : list (string * limit);
  categories : list string;
  a_dates : list string;
  data : list (string * list (string * list A))
}.
Arguments Analyzer {A limit}.
Arguments a_label {A limit}.
Arguments config_path {A limit}.
Arguments target_total_limit {A limit}.
Arguments accounts {A limit}.
Arguments regex_category_dict {A limit}.
Arguments category_limits {A limit}.
Arguments categories {A limit}.
Arguments a_dates {A limit}.
Arguments data {A limit}.

Section analyzer.
(** Python's [re] and [float] are taken as given.

    A compiled pattern is identified with its source text:
    [re.compile] answers equal sources with equal, equally hashed pattern
    objects and different sources with different ones, so the source is what
    the keys of [regex_category_dict] are compared by.
    - [re_compiles r]: [re.compile(r)] returns (else it raises [re.error]);
    - [re_search r s]: [re.compile(r).search(s)] is a match;
    - [py_float s]: [float(s)], [None] for [ValueError]. *)
Context {A : Type} `{Number A}.
Variable limit : Type.
Variable re_compiles : string → bool.
Variable re_search : string → string → bool.
Variable py_float : string → option limit.

Definition category_idx : nat := 0.
Definition limit_idx : nat := 1.
Definition regex_idx : nat := 2.

Definition re_compile (regex : string) : result string :=
  if re_compiles regex then Ok regex else Raise ReError.

Definition float_of (s : string) : result limit :=
  match py_float s with
  | Some x => Ok x
  | None => Raise ValueError
  end.

(** the body of the loop of [read_config], on one element of [lines] *)
Definition read_config_line (cfg_path : string) (raw : string)
    (st : list (string * string) * list (string * limit))
  : result (list (string * string) * list (string * limit)) :=
  let '(regex_category_dict, limits_for_categories) := st in
  let line := split_tab (str_strip raw) in
  let* (regex, category) :=
    except_ValueError
      (let* regex := py_index line regex_idx in
       let* category := py_index line category_idx in
       Ok (regex, category))
      (Raise (SystemExit (ProblemWithLine line))) in
  if decide (category = "Total" ∨ category = "Misc") then
    Raise (SystemExit (ReservedCategory cfg_path))
  else
    let* p := re_compile regex in
    let regex_category_dict := dict_set p category regex_category_dict in
    if decide (length line = 3) then
      let* lim := (let* l := py_index line limit_idx in float_of l) in
      Ok (regex_category_dict, dict_set category lim limits_for_categories)
    else Ok (regex_category_dict, limits_for_categories).

Fixpoint read_config_lines (cfg_path : string) (lines : list string)
    (st : list (string * string) * list (string * limit))
  : result (list (string * string) * list (string * limit)) :=
  match lines with
  | [] => Ok st
  | raw :: lines' =>
      let* st' := read_config_line cfg_path raw st in
      read_config_lines cfg_path lines' st'
  end.

(** [read_config]; [lines] is what [file.readlines()] returns for
    [config.txt], which is taken to be there. *)
Definition read_config (cfg_path : string) (total_limit : limit)
    (lines : list string)
  : result (list (string * string) * list (string * limit)) :=
  let* (regex_category_dict, limits_for_categories) :=
    read_config_lines cfg_path lines ([], []) in
  Ok (regex_category_dict,
      dict_set "Total" total_limit limits_for_categories).

(** the categories of the rules whose pattern is found in [location], in
    the order of the keys of [regex_category_dict] *)
Definition matched_categories (rcd : list (string * string))
    (location : string) : list string :=
  (filter (λ rc, re_search rc.1 location = true) rcd).*2.

(** [category_expenses[cat][data_idx] += expense] *)
Definition bucket_add (cat : string) (data_idx : nat) (expense : A)
    (category_expenses : list (string * list A))
  : result (list (string * list A)) :=
  let* l := dict_lookup cat category_expenses in
  let* x := py_index l data_idx in
  Ok (dict_set cat (<[data_idx := nadd x expense]> l) category_expenses).

(** the category a location is counted under, and whether it is new to the
    uncategorized locations *)
Definition choose_category (cats : list string) : string :=
  match cats with
  | [] => "Misc"
  | c :: _ => c
  end.

(** the body of the loop over the expenses of a month *)
Definition categorize_record (cfg_path : string)
    (rcd : list (string * string)) (data_idx : nat)
    (record : A * string)
    (st : list (string * list A) * gset string)
  : M (list (string * list A) * gset string) :=
  let '(expense, location) := record in
  let '(category_expenses, uncategorized_locations) := st in
  let cats := matched_categories rcd location in
  let! _ :=
    if decide (1 < length cats) then
      append_collisions (collision_entry cfg_path location cats)
    else mret () in
  let cat := choose_category cats in
  let uncategorized_locations :=
    match cats with
    | [] => {[location]} ∪ uncategorized_locations
    | _ => uncategorized_locations
    end in
  let! category_expenses :=
    mlift (bucket_add cat data_idx expense category_expenses) in
  let! category_expenses :=
    mlift (bucket_add "Total" data_idx expense category_expenses) in
  mret (category_expenses, uncategorized_locations).

Fixpoint categorize_month (cfg_path : string)
    (rcd : list (string * string)) (data_idx : nat)
    (month_data : list (A * string))
    (st : list (string * list A) * gset string)
  : M (list (string * list A) * gset string) :=
  match month_data with
  | [] => mret st
  | record :: month_data' =>
      let! st' := categorize_record cfg_path rcd data_idx record st in
      categorize_month cfg_path rcd data_idx month_data' st'
  end.

(** [while (self.dates[data_idx] != date): data_idx += 1], on
    [ds = self.dates[data_idx:]] *)
Fixpoint advance_from (ds : list string) (date : string) (data_idx : nat)
  : result nat :=
  match ds with
  | [] => Raise IndexError
  | d :: ds' =>
      if decide (d ≠ date) then advance_from ds' date (S data_idx)
      else Ok data_idx
  end.

Definition advance (self_dates : list string) (date : string)
    (data_idx : nat) : result nat :=
  advance_from (drop data_idx self_dates) date data_idx.

(** the loop [for a_idx in range(len(account.dates))], over the indices
    that are left *)
Fixpoint categorize_months (self : analyzer A limit) (acc : account A)
    (date_set : gset string) (a_idxs : list nat)
    (st : list (string * list A) * gset string) (data_idx : nat)
  : M (list (string * list A) * gset string) :=
  match a_idxs with
  | [] => mret st
  | a_idx :: a_idxs' =>
      let! date := mlift (py_index (dates acc) a_idx) in
      if decide (date ∉ date_set) then
        categorize_months self acc date_set a_idxs' st data_idx
      else
        let! data_idx := mlift (advance (a_dates self) date data_idx) in
        let! month_data := mlift (py_index (expenses acc) a_idx) in
        let! st' :=
          categorize_month (config_path self) (regex_category_dict self)
            data_idx month_data st in
        categorize_months self acc date_set a_idxs' st' data_idx
  end.

(** the buckets [categorize_history] starts from *)
Definition empty_buckets (cats : list string) (n : nat)
  : list (string * list A) :=
  foldl (λ ce category, dict_set category (replicate n nzero) ce) [] cats.

(** [categorize_history], returning with the aggregate the set of
    uncategorized locations it writes out before it returns.
    [os.chdir(account.path)] and the opening of the two reports are taken to
    succeed.  Python goes through the set in an order that depends on the
    hashes of its strings; [elements] stands for one such order, and what is
    stated of the lines of the report is stated for any order of them. *)
Definition categorize_history_with (self : analyzer A limit) (acc : account A)
  : M (list (string * list A) * gset string) :=
  let category_expenses :=
    empty_buckets (categories self) (length (a_dates self)) in
  let date_set : gset string := list_to_set (a_dates self) in
  let! (category_expenses, uncategorized_locations) :=
    categorize_months self acc date_set (seq 0 (length (dates acc)))
      (category_expenses, ∅) 0 in
  let! _ :=
    append_uncategorized
      (String.concat EmptyString (line_of <$> elements uncategorized_locations)) in
  mret (category_expenses, uncategorized_locations).

Definition categorize_history (self : analyzer A limit) (acc : account A)
  : M (list (string * list A)) :=
  let! (category_expenses, _) := categorize_history_with self acc in
  mret category_expenses.

(** the loop [for account in accounts.values()] of [__init__] *)
Fixpoint categorize_accounts (self : analyzer A limit)
    (accs : list (account A)) (dat : list (string * list (string * list A)))
  : M (list (string * list (string * list A))) :=
  match accs with
  | [] => mret dat
  | acc :: accs' =>
      let! d := categorize_history self acc in
      categorize_accounts self accs' (dict_set (label acc) d dat)
  end.

(** [ExpenseHistoryAnalyzer.__init__]; [config_lines] is the content of
    [config.txt] under [config_path], line by line. *)
Definition ExpenseHistoryAnalyzer_init (config_lines : list string)
    (cfg_path lbl : string) (total_limit : limit)
    (intersect_account_dates : bool) (accs : list (string * account A))
  : M (analyzer A limit) :=
  let! (cats, cat_limits) :=
    mlift (read_config cfg_path total_limit config_lines) in
  let cat_list := (dict_values cats ++ ["Misc"; "Total"])%list in
  let! ds :=
    mlift (if intersect_account_dates then find_date_range_intersection accs
           else Ok (find_date_range_union accs)) in
  let self :=
    Analyzer lbl cfg_path total_limit accs cats cat_limits cat_list ds [] in
  let! _ :=
    truncate_uncategorized (line_of ("Using config file: " +:+ cfg_path)) in
  let! dat := categorize_accounts self (dict_values accs) [] in
  mret (Analyzer lbl cfg_path total_limit accs cats cat_limits cat_list ds dat).
End analyzer.

(** ** A fragment of [re] and of [float], to run the analyzer on examples

    The analyzer above is stated for any regular expression engine.  The
    examples use the fragment of Python's pattern language made of literal
    characters, [.] (any character but a newline) and a postfix [*]; a
    pattern with any other metacharacter is outside the fragment and is
    answered as if it did not compile.  Limits are read from runs of decimal
    digits only. *)
Module Fragment.

Inductive atom : Type :=
  | AnyChar
  | Lit (c : ascii).

Definition is_meta (c : ascii) : bool :=
  bool_decide (c ∈ list_ascii_of_string "\^$+?{}[]()|").

(** the atoms of a pattern, each with whether a [*] follows it *)
Fixpoint parse (s : string) : option (list (atom * bool)) :=
  match s with
  | EmptyString => Some []
  | String c s' =>
      if is_meta c || bool_decide (c = "*"%char) then None
      else
        let a := if bool_decide (c = "."%char) then AnyChar else Lit c in
        match s' with
        | String "*"%char s'' => (λ re, (a, true) :: re) <$> parse s''
        | _ => (λ re, (a, false) :: re) <$> parse s'
        end
  end.

Definition atom_matches (a : atom) (c : ascii) : bool :=
  match a with
  | AnyChar => negb (bool_decide (c = newline))
  | Lit c' => bool_decide (c = c')
  end.

(** the pattern matches a prefix of [s] *)
Fixpoint match_here (re : list (atom * bool)) (s : string) : bool :=
  match re with
  | [] => true
  | (a, false) :: re' =>
      match s with
      | String c s' => atom_matches a c && match_here re' s'
      | EmptyString => false
      end
  | (a, true) :: re' =>
      (fix star (s : string) : bool :=
         match_here re' s
         || match s with
            | String c s' => atom_matches a c && star s'
            | EmptyString => false
            end) s
  end.

(** the pattern matches somewhere in [s] *)
Fixpoint search_from (re : list (atom * bool)) (s : string) : bool :=
  match_here re s
  || match s with
     | String _ s' => search_from re s'
     | EmptyString => false
     end.

Definition compiles (r : string) : bool := bool_decide (is_Some (parse r)).

Definition search (r s : string) : bool :=
  match parse r with
  | Some re => search_from re s
  | None => false
  end.

Definition float_digits (s : string) : option N :=
  match py_int s with
  | Ok n => Some n
  | Raise _ => None
  end.

Definition read_config := read_config N compiles float_digits.
Definition categorize_history_with {A} `{Number A} :=
  categorize_history_with (A:=A) N search.
Definition categorize_history {A} `{Number A} :=
  categorize_history (A:=A) N search.
Definition init {A} `{Number A} :=
  ExpenseHistoryAnalyzer_init (A:=A) N compiles search float_digits.

End Fragment.

Definition no_files : out_files := OutFiles EmptyString EmptyString.

Definition tsv (fields : list string) : string :=
  String.concat (String tab EmptyString) fields.


(** ** The rest of AccountExpenseHistory *)

(** [file.startswith(".")] *)
Definition is_hidden (file : string) : bool :=
  match file with
  | String c _ => bool_decide (c = "."%char)
  | EmptyString => false
  end.

(** [extract_files]; [listing] is what [os.listdir()] returns in the data
    directory.  Equal names are the same string, so any sort gives the list
    that [data_files.sort()] gives. *)
Definition extract_files (listing : list string) : list string :=
  merge_sort String.le (filter (λ file, is_hidden file = false) listing).

(** [re.sub(",", "", s)] *)
Fixpoint remove_commas (s : string) : string :=
  match s with
  | EmptyString => EmptyString
  | String c s' =>
      if decide (c = ","%char) then remove_commas s'
      else String c (remove_commas s')
  end.

(** [check_exclusion] of the base class *)
Definition check_exclusion_base (date : string) (expense : float)
    (location : string) : bool := false.

Section parse.
(** [str.upper], [float] and the reading of the files are taken as given:
    - [str_upper s]: [s.upper()];
    - [py_float s]: [float(s)], [None] for [ValueError];
    - [read_rows file]: the rows [csv.reader] yields for [file], an empty
      list for an empty line;
    - [check_exclusion]: the method of that name, which a subclass
      overrides. *)
Variable str_upper : string → string.
Variable py_float : string → option float.
Variable check_exclusion : string → float → string → bool.
Variable read_rows : string → list (list string).

Definition date_idx : nat := 0.
Definition expense_idx : nat := 1.
Definition location_idx : nat := 4.

(** the body of the loop over the rows, on a row that is not empty: [None]
    for a row that is excluded *)
Definition parse_row (row : list string) : result (option (float * string)) :=
  let* date := py_index row date_idx in
  let* expense := py_index row expense_idx in
  let* location := py_index row location_idx in
  let location := str_upper location in
  let expense := remove_commas expense in
  let* x := match py_float expense with
            | Some x => Ok x
            | None => Raise ValueError
            end in
  let expense := PrimFloat.mul (-1)%float x in
  if check_exclusion date expense location then Ok None
  else Ok (Some (expense, location)).

(** the loop over the rows of one file *)
Fixpoint parse_rows (rows : list (list string))
  : result (list (float * string)) :=
  match rows with
  | [] => Ok []
  | row :: rows' =>
      if decide (row = []) then parse_rows rows'
      else
        let* r := parse_row row in
        let* month := parse_rows rows' in
        Ok (match r with Some record => record :: month | None => month end)
  end.

Fixpoint parse_and_aggregate_expenses (files : list string)
  : result (list (list (float * string))) :=
  match files with
  | [] => Ok []
  | file :: files' =>
      let* month := parse_rows (read_rows file) in
      let* data := parse_and_aggregate_expenses files' in
      Ok (month :: data)
  end.

(** [AccountExpenseHistory.__init__] as a whole, from the listing of the
    data directory; the flag is [is_missing_data]. *)
Definition AccountExpenseHistory_new (data_path lbl : string)
    (listing : list string) : result (bool * account float) :=
  let files := extract_files listing in
  let* is_missing_data := audit_for_missing_data data_path files in
  let* ds := extract_dates files in
  let* parsed := parse_and_aggregate_expenses files in
  Ok (is_missing_data, Account lbl data_path ds parsed).

End parse.


(** ** The series of the graphs

    [graph_multicategory] and [graph_against_total] add the buckets of the
    accounts with [np.add] before they draw them.  Of numpy only [np.add] on
    two sequences is used: it is taken as given, [np_add x y] being its
    result or the exception it raises. *)

Section graphs.
Context {A : Type} `{Number A} {limit : Type}.
Variable np_add : list A → list A → result (list A).





End graphs.

(** [graph_against_total] adds the "Total" buckets up in an array that
    [np.zeros] makes, an array of binary64 numbers whatever is added to it:
    the totals are [float]s. *)
Section graph_totals.
Context {limit : Type}.
Variable np_add : list float → list float → result (list float).

(** the loop that adds up [totals] in [graph_against_total], over the
    accounts that are left *)
Fixpoint totals_accounts (dat : list (string * list (string * list float)))
    (accounts : list string) (totals : list float) : result (list float) :=
  match accounts with
  | [] => Ok totals
  | account :: accounts' =>
      let* ce := dict_lookup account dat in
      let* values := dict_lookup "Total" ce in
      let* totals' := np_add totals values in
      totals_accounts dat accounts' totals'
  end.

(** [totals] as [graph_against_total] draws it, from
    [np.zeros(len(self.dates))] *)
Definition graph_totals (self : analyzer float limit) : result (list float) :=
  totals_accounts (data self) (dict_keys (data self))
    (replicate (length (a_dates self)) 0%float).
End graph_totals.

(** [np.add] on two sequences of one dimension: element by element when
    they are as long as each other, a sequence of one element being added to
    every element of the other, and [ValueError] for any other lengths. *)
Definition np_add_1d {A} `{Number A} (x y : list A) : result (list A) :=
  if decide (length x = length y) then Ok (zip_with nadd x y)
  else
    match x, y with
    | [a], _ => Ok (nadd a <$> y)
    | _, [b] => Ok ((λ a, nadd a b) <$> x)
    | _, _ => Raise ValueError
    end.


(** ** Vocabulary of the specification *)

(** no match of [p] can start inside [s]: it holds no digit in 1..9 *)
Definition no_run (s : string) : bool :=
  string_forall (λ c, negb (is_nonzero_digit c)) s.

(** [s] ends the digit run before it and holds no run of its own *)
Definition gap (s : string) : bool :=
  negb (starts_with is_digit s) && no_run s.

(** a file name made of exactly two positive integer runs, [Y] then [M] *)
Definition two_runs_name (pre : string) (Y : N) (mid : string) (M : N)
    (post : string) : string :=
  pre +:+ py_str Y +:+ mid +:+ py_str M +:+ post.

(** the (year, month) a file name is read as *)
Definition year_month (file : string) : result (N * N) :=
  unpack_year_month (p_findall file).

(** every match of [p] starts with a digit in 1..9 and holds digits only *)
Definition is_run (s : string) : bool :=
  starts_with is_nonzero_digit s && string_forall is_digit s.

(** some file is not the month after the file before it *)
Definition has_gap (yms : list (N * N)) : Prop :=
  ∃ i ym ym', yms !! i = Some ym ∧ yms !! S i = Some ym'
              ∧ ym' ≠ next_month ym.

(** sorted ascending and without duplicates, for the order [<] of Python
    strings *)
Definition ascending (l : list string) : Prop :=
  ∀ i j x y, l !! i = Some x → l !! j = Some y → (i < j)%nat →
             String.ltb x y = true.

(** the amount in the bucket of category [c] at the month index [m] *)
Definition bucket_at {A} `{Number A} (ce : list (string * list A))
    (c : string) (m : nat) : A :=
  default nzero (dict_get c ce ≫= λ l, l !! m).

(** [sum(bucket[c][m] for c in bucket if c != "Total")]: the sum over the
    user categories and "Misc" at the month index [m], added from [0] in the
    order of the dictionary, as [sum] does *)
Definition sum_step {A} `{Number A} (m : nat) (acc : A)
    (cl : string * list A) : A :=
  if decide (cl.1 = "Total") then acc
  else nadd acc (default nzero (cl.2 !! m)).

Definition bucket_sum {A} `{Number A} (ce : list (string * list A))
    (m : nat) : A :=
  foldl (sum_step m) nzero ce.

(** the rules of the configuration in the order of its lines: the regex and
    the category of every line that has both fields *)
Definition config_rules (lines : list string) : list (string * string) :=
  omap (λ raw,
          let line := split_tab (str_strip raw) in
          match line !! regex_idx, line !! category_idx with
          | Some regex, Some category => Some (regex, category)
          | _, _ => None
          end) lines.

(** every pattern once, in the order in which the patterns first appear *)
Definition first_appearance (patterns : list string) : list string :=
  foldl (λ seen r, if decide (r ∈ seen) then seen else (seen ++ [r])%list)
    [] patterns.

(** the category of the first line of the configuration whose pattern is
    found in the location *)
Definition first_matching_line (re_search : string → string → bool)
    (lines : list string) (location : string) : option string :=
  head (matched_categories re_search (config_rules lines) location).

(** the category of the first rule of the collection, in the order of its
    keys, whose pattern is found in the location *)
Definition first_matching_rule (re_search : string → string → bool)
    (rcd : list (string * string)) (location : string) (cat : string) : Prop :=
  ∃ before regex after,
    rcd = (before ++ (regex, cat) :: after)%list
    ∧ re_search regex location = true
    ∧ Forall (λ rc, re_search rc.1 location = false) before.

(** a property of the buckets that every categorized record keeps *)
Definition kept_by_records {A} `{Number A}
    (re_search : string → string → bool) (rcd : list (string * string))
    (P : list (string * list A) → Prop) : Prop :=
  ∀ cfg i rec st fs st' fs',
    categorize_record re_search cfg rcd i rec st fs = (Ok st', fs') →
    P st.1 → P st'.1.

(** the aggregate of an account over [n] months: every bucket has [n]
    entries and, month by month, the buckets other than "Total" add up to
    "Total" *)
Definition aggregate_ok {A} `{Number A} (n : nat)
    (ce : list (string * list A)) : Prop :=
  Forall (λ cl, length cl.2 = n) ce
  ∧ ∀ m, bucket_sum ce m = bucket_at ce "Total" m.

(** the buckets hold, for every category of [cats], a list of [n] entries *)
Definition buckets_for {A} (cats : list string) (n : nat)
    (ce : list (string * list A)) : Prop :=
  ∀ c, c ∈ cats → ∃ l, dict_get c ce = Some l ∧ length l = n.

(** an account the analyzer is documented to take: its dates in ascending
    order, and a list of expenses for every date *)
Definition account_ok {A} (acc : account A) : Prop :=
  ascending (dates acc) ∧ (length (dates acc) ≤ length (expenses acc))%nat.

#[export] Instance Z_exact : ExactNumber Z.
Proof. split; intros; unfold nadd; simpl; lia. Qed.

(** ** Examples *)

(** two rules, [FOO.*] for "Food" and [.*BAR] for "Bar" *)
Definition food_bar_config : list string :=
  [line_of (tsv ["Food"; "50"; "FOO.*"]); line_of (tsv ["Bar"; "20"; ".*BAR"])].

(** two accounts of whole amounts that share the month 2023_02 *)
Definition two_accounts : list (string * account Z) :=
  [("a", Account "A" "pa" ["2023_01"; "2023_02"]
           [[(5, "FOOBAR"); (7, "XYZ")]; [(1, "FOOD"); (2, "XYZ")]]%Z);
   ("b", Account "B" "pb" ["2023_02"; "2023_03"]
           [[(5, "FOOBAR"); (7, "XYZ")]; [(1, "FOOD"); (2, "XYZ")]]%Z)].

(** an account of [float] amounts: 0.1 and 2.2 for "Food", 0.2 for "Bar",
    each the nearest binary64 value *)
Definition float_account : list (string * account float) :=
  [("a", Account "A" "pa" ["2023_01"]
           [[(0x1.999999999999ap-4, "FOOD"); (0x1.999999999999ap-3, "A BAR");
             (0x1.199999999999ap+1, "FOODS")]]%float)].

(** three lines, the third one with the pattern of the first *)
Definition repeated_regex_config : list string :=
  [line_of (tsv ["A"; "1"; "FOO"]); line_of (tsv ["B"; "1"; "BAR"]);
   line_of (tsv ["C"; "1"; "FOO"])].

(** the date of a (year, month) *)
Definition date_of (ym : N * N) : string := date_str ym.1 ym.2.

(** the (year, month) [n] months after [ym] *)
Definition months_after (n : nat) (ym : N * N) : N * N :=
  Nat.iter n next_month ym.

(** a file name in which [p] finds exactly two runs *)
Definition well_named (file : string) : Prop := length (p_findall file) = 2.


(** the order of two (year, month) in time *)
Definition chronological (ym ym' : N * N) : comparison :=
  match N.compare ym.1 ym'.1 with
  | Eq => N.compare ym.2 ym'.2
  | c => c
  end.


(** the character of a decimal digit *)
Definition digit_char (n : N) : ascii := ascii_of_N (48 + n).


(** the limits of the configuration in the order of its lines: the category
    and the limit of every line of exactly three fields whose limit reads as
    a number *)
Definition config_limits {limit : Type} (py_float : string → option limit)
    (lines : list string) : list (string * limit) :=
  omap (λ raw,
          match split_tab (str_strip raw) with
          | [category; l; _] => (λ v, (category, v)) <$> py_float l
          | _ => None
          end) lines.

(** the value that the last pair of key [k] gives *)
Definition last_value {K V : Type} `{EqDecision K} (k : K)
    (kvs : list (K * V)) : option V :=
  snd <$> last (filter (λ kv, kv.1 = k) kvs).


(** the category a location is counted under *)
Definition category_of (re_search : string → string → bool)
    (rcd : list (string * string)) (location : string) : string :=
  choose_category (matched_categories re_search rcd location).

(** the expenses of the months of the account at the indices [a_idxs] of its
    dates that satisfy [keep], one month after the other *)
Definition records_where {A} (keep : string → Prop) `{∀ d, Decision (keep d)}
    (acc : account A) (a_idxs : list nat) : list (A * string) :=
  flat_map (λ a_idx,
              match dates acc !! a_idx, expenses acc !! a_idx with
              | Some date, Some month => if decide (keep date) then month else []
              | _, _ => []
              end) a_idxs.

(** the expenses of the account for the date [d] *)
Definition records_of_date {A} (acc : account A) (d : string)
  : list (A * string) :=
  records_where (λ date, date = d) acc (seq 0 (length (dates acc))).

(** the expenses that the categorization goes through: those of the months
    whose date is in the date range *)
Definition processed_records {A} (axis : list string) (acc : account A)
  : list (A * string) :=
  records_where (λ date, date ∈ axis) acc (seq 0 (length (dates acc))).

(** the amounts, among some records, that are counted under the bucket [c]:
    all of them for "Total" *)
Definition bucket_amounts {A} (re_search : string → string → bool)
    (rcd : list (string * string)) (c : string) (records : list (A * string))
  : list A :=
  (filter (λ record, c = category_of re_search rcd record.2 ∨ c = "Total")
     records).*1.

(** what is written to the collision report for some records: one entry
    for every record whose location is found by more than one rule *)
Definition collision_text {A} (re_search : string → string → bool)
    (cfg : string) (rcd : list (string * string)) (records : list (A * string))
  : string :=
  foldr (λ record text,
           let cats := matched_categories re_search rcd record.2 in
           (if decide (1 < length cats)%nat
            then collision_entry cfg record.2 cats
            else EmptyString) +:+ text)
    EmptyString records.

(** the locations, among some records, that no rule finds *)
Definition unmatched_locations {A} (re_search : string → string → bool)
    (rcd : list (string * string)) (records : list (A * string))
  : gset string :=
  list_to_set
    (filter (λ location, matched_categories re_search rcd location = [])
       records.*2).

(** what the categorization of an account adds to the collision report *)
Definition account_collisions {A limit} (re_search : string → string → bool)
    (self : analyzer A limit) (acc : account A) : string :=
  collision_text re_search (config_path self) (regex_category_dict self)
    (processed_records (a_dates self) acc).

(** a list of the locations, among those of the months of an account that
    are in the date range, that no rule finds: each of them once, in some
    order *)
Definition unmatched_listing {A limit} (re_search : string → string → bool)
    (self : analyzer A limit) (acc : account A) (locations : list string)
  : Prop :=
  NoDup locations
  ∧ ∀ location,
      location ∈ locations
      ↔ location ∈ (processed_records (a_dates self) acc).*2
        ∧ matched_categories re_search (regex_category_dict self) location = [].

(** one line for every location *)
Definition location_lines (locations : list string) : string :=
  String.concat EmptyString (line_of <$> locations).


(** an analyzer of the two rules [FOO.*] for "Food" and [.*BAR] for "Bar"
    over a date range, before any account is categorized *)
Definition food_bar_analyzer {A} (accs : list (string * account A))
    (date_range : list string) : analyzer A N :=
  Analyzer "an" "cfg" 100%N accs [("FOO.*", "Food"); (".*BAR", "Bar")]
    [("Food", 50); ("Bar", 20); ("Total", 100)]%N
    ["Food"; "Bar"; "Misc"; "Total"] date_range [].

(** the account of [float_account] *)
Definition float_account_A : account float :=
  Account "A" "pa" ["2023_01"]
    [[(0x1.999999999999ap-4, "FOOD"); (0x1.999999999999ap-3, "A BAR");
      (0x1.199999999999ap+1, "FOODS")]]%float.

(** the first account of [two_accounts] *)
Definition whole_account_A : account Z :=
  Account "A" "pa" ["2023_01"; "2023_02"]
    [[(5, "FOOBAR"); (7, "XYZ")]; [(1, "FOOD"); (2, "XYZ")]]%Z.

(** an account whose months are not in ascending order *)
Definition unsorted_account : account Z :=
  Account "U" "pu" ["2023_02"; "2023_01"] [[(1, "FOOD")]; [(2, "XYZ")]]%Z.



(** two accounts that are given the same label *)
Definition same_label_accounts : list (string * account Z) :=
  [("a", whole_account_A);
   ("b", Account "A" "pb" ["2023_01"; "2023_02"] [[(3, "A BAR")]; []]%Z)].












(** the aggregate has a bucket of [n] entries for the category *)
Definition has_bucket {A} (n : nat) (c : string) (ce : list (string * list A))
  : Prop :=
  ∃ values, dict_get c ce = Some values ∧ length values = n.



(** two accounts of [float] amounts over the same month: [float_account_A]
    and an account with 1.5 for "Food" *)
Definition two_float_accounts : list (string * account float) :=
  [("a", float_account_A);
   ("b", Account "B" "pb" ["2023_01"] [[(0x1.8p+0, "FOOD")]]%float)].


(** * Properties *)

(** ** Decimal digits *)

Lemma string_of_uint_digits (u : Decimal.uint) :
  string_forall is_digit (NilEmpty.string_of_uint u) = true.
Proof. induction u; simpl; auto. Qed.

Lemma to_uint_head (n : N) :
  (0 < n)%N →
  ∃ c r, py_str n = String c r ∧ is_nonzero_digit c = true
         ∧ string_forall is_digit r = true.
Proof.
  intros Hn. unfold py_str.
  assert (Hnorm : N.to_uint n = Decimal.unorm (N.to_uint n)).
  { rewrite <- DecimalN.Unsigned.to_of, DecimalN.Unsigned.of_to. done. }
  pose proof (string_of_uint_digits (N.to_uint n)) as Hd.
  pose proof (DecimalFacts.nzhead_nonzero (N.to_uint n)) as Hnz.
  unfold Decimal.unorm in Hnorm.
  destruct (Decimal.nzhead (N.to_uint n)) eqn:Hh.
  - exfalso. apply (f_equal N.of_uint) in Hnorm.
    rewrite DecimalN.Unsigned.of_to in Hnorm. simpl in Hnorm. lia.
  - exfalso. by eapply Hnz.
  - rewrite Hnorm in *; simpl in *; eauto.
  - rewrite Hnorm in *; simpl in *; eauto.
  - rewrite Hnorm in *; simpl in *; eauto.
  - rewrite Hnorm in *; simpl in *; eauto.
  - rewrite Hnorm in *; simpl in *; eauto.
  - rewrite Hnorm in *; simpl in *; eauto.
  - rewrite Hnorm in *; simpl in *; eauto.
  - rewrite Hnorm in *; simpl in *; eauto.
  - rewrite Hnorm in *; simpl in *; eauto.
Qed.

Lemma py_int_py_str (n : N) : py_int (py_str n) = Ok n.
Proof.
  assert (Hne : ∃ c r, py_str n = String c r).
  { destruct (decide (n = 0%N)) as [->|Hn]; [by eexists _, _|].
    destruct (to_uint_head n) as (c & r & -> & _); [lia|eauto]. }
  destruct Hne as (c & r & Hs). unfold py_int. rewrite Hs, <- Hs.
  unfold py_str. by rewrite NilEmpty.usu, DecimalN.Unsigned.of_to.
Qed.

(** a match of [p] reads as a positive number *)
Lemma py_int_run_positive (c : ascii) (r : string) :
  is_nonzero_digit c = true → string_forall is_digit r = true →
  ∃ n, py_int (String c r) = Ok n ∧ (1 ≤ n)%N.
Proof.
  intros Hc Hr. unfold py_int.
  assert (Hu : ∃ u, NilEmpty.uint_of_string r = Some u).
  { clear Hc. induction r as [|d r IH]; simpl in *; [eauto|].
    apply andb_true_iff in Hr as [Hd Hr]. destruct (IH Hr) as [u ->].
    destruct d as [[] [] [] [] [] [] [] []]; try discriminate Hd; simpl; eauto. }
  destruct Hu as [u Hu]. simpl. rewrite Hu.
  destruct c as [[] [] [] [] [] [] [] []]; try discriminate Hc; simpl;
    eexists; (split; [reflexivity|]); unfold N.of_uint; simpl; lia.
Qed.

(** ** Strings *)

Lemma string_app_nil_l (s : string) : EmptyString +:+ s = s.
Proof. reflexivity. Qed.

Lemma string_app_cons (c : ascii) (s t : string) :
  String c s +:+ t = String c (s +:+ t).
Proof. reflexivity. Qed.

Lemma string_app_nil_r (s : string) : s +:+ EmptyString = s.
Proof. induction s as [|c s IH]; [done|]. by rewrite string_app_cons, IH. Qed.

Lemma string_app_assoc (s t u : string) : (s +:+ t) +:+ u = s +:+ t +:+ u.
Proof.
  induction s as [|c s IH]; [done|]. by rewrite !string_app_cons, IH.
Qed.

Lemma nonzero_digit_is_digit (c : ascii) :
  is_nonzero_digit c = true → is_digit c = true.
Proof.
  unfold is_nonzero_digit, is_digit. rewrite !andb_true_iff, !Nat.leb_le. lia.
Qed.

(** ** The pattern of the file names *)

Lemma findall_skip (pre s : string) :
  no_run pre = true → findall_go None (pre +:+ s) = findall_go None s.
Proof.
  induction pre as [|c pre IH]; [done|]. unfold no_run. simpl.
  rewrite andb_true_iff, negb_true_iff. intros [Hc Hpre].
  rewrite Hc. by apply IH.
Qed.

Lemma findall_run (r r2 s : string) :
  string_forall is_digit r2 = true →
  findall_go (Some r) (r2 +:+ s) = findall_go (Some (r +:+ r2)) s.
Proof.
  revert r. induction r2 as [|c r2 IH]; intros r; simpl.
  - intros _. by rewrite string_app_nil_l, string_app_nil_r.
  - rewrite andb_true_iff. intros [Hc Hr2].
    rewrite Hc, IH by done. by rewrite string_app_assoc.
Qed.

Lemma findall_end (r s : string) :
  starts_with is_digit s = false →
  findall_go (Some r) s = r :: findall_go None s.
Proof.
  destruct s as [|c s]; simpl; [done|]. intros Hc. rewrite Hc.
  assert (is_nonzero_digit c = false) as ->; [|done].
  destruct (is_nonzero_digit c) eqn:Hn; [|done].
  apply nonzero_digit_is_digit in Hn. congruence.
Qed.

(** a positive number is found as one match, whatever follows a gap *)
Lemma findall_number (n : N) (s : string) :
  (0 < n)%N → starts_with is_digit s = false →
  findall_go None (py_str n +:+ s) = py_str n :: findall_go None s.
Proof.
  intros Hn Hs. destruct (to_uint_head n Hn) as (c & r & -> & Hc & Hr).
  rewrite string_app_cons. simpl. rewrite Hc.
  rewrite findall_run by done. by rewrite findall_end.
Qed.

Lemma gap_spec (s : string) :
  gap s = true ↔ starts_with is_digit s = false ∧ no_run s = true.
Proof. unfold gap. rewrite andb_true_iff, negb_true_iff. done. Qed.

Lemma starts_with_app (P : ascii → bool) (s t : string) :
  s ≠ EmptyString → starts_with P (s +:+ t) = starts_with P s.
Proof. by destruct s. Qed.

Lemma findall_two_runs (pre mid post : string) (Y M : N) :
  no_run pre = true → gap mid = true → mid ≠ EmptyString → gap post = true →
  (0 < Y)%N → (0 < M)%N →
  p_findall (two_runs_name pre Y mid M post) = [py_str Y; py_str M].
Proof.
  intros Hpre [Hmid1 Hmid2]%gap_spec Hne [Hpost1 Hpost2]%gap_spec HY HM.
  unfold p_findall, two_runs_name.
  rewrite findall_skip by done.
  rewrite findall_number by (by rewrite ?starts_with_app).
  rewrite findall_skip by done.
  rewrite findall_number by done.
  rewrite <- (string_app_nil_r post), findall_skip by done. done.
Qed.

Lemma is_run_snoc (r : string) (c : ascii) :
  is_run r = true → is_digit c = true → is_run (r +:+ String c EmptyString) = true.
Proof.
  unfold is_run. destruct r as [|d r]; [done|].
  simpl. rewrite !andb_true_iff. intros (? & ? & Hr) Hc. repeat split; try done.
  clear -Hr Hc. induction r as [|e r IH]; simpl in *; [by rewrite Hc|].
  apply andb_true_iff in Hr as [-> Hr]. simpl. auto.
Qed.

Lemma findall_go_runs (cur : option string) (s : string) :
  (∀ r, cur = Some r → is_run r = true) →
  Forall (λ r, is_run r = true) (findall_go cur s).
Proof.
  revert cur. induction s as [|c s IH]; intros cur Hcur; simpl.
  - destruct cur; auto.
  - destruct cur as [r|].
    + destruct (is_digit c) eqn:Hc.
      * apply IH. intros ? [= <-]. apply is_run_snoc; auto.
      * constructor; [auto|]. by apply IH.
    + destruct (is_nonzero_digit c) eqn:Hc.
      * apply IH. intros ? [= <-]. unfold is_run. simpl.
        by rewrite Hc, (nonzero_digit_is_digit c Hc).
      * by apply IH.
Qed.

Lemma py_int_of_run (r : string) :
  is_run r = true → ∃ n, py_int r = Ok n ∧ (1 ≤ n)%N.
Proof.
  unfold is_run. destruct r as [|c r]; [done|]. simpl.
  rewrite !andb_true_iff. intros (Hc & _ & Hr). by apply py_int_run_positive.
Qed.

Lemma year_month_positive (file : string) (y m : N) :
  year_month file = Ok (y, m) → (1 ≤ y)%N ∧ (1 ≤ m)%N.
Proof.
  unfold year_month, p_findall.
  pose proof (findall_go_runs None file) as Hruns.
  destruct (findall_go None file) as [|sy [|sm [|]]]; try done.
  assert (Hall : Forall (λ r, is_run r = true) [sy; sm]) by (by apply Hruns).
  apply Forall_cons in Hall as [Hy Hall]. apply Forall_cons in Hall as [Hm _].
  destruct (py_int_of_run sy Hy) as (ny & Hny & ?).
  destruct (py_int_of_run sm Hm) as (nm & Hnm & ?).
  simpl. rewrite Hny, Hnm. simpl. by intros [= <- <-].
Qed.

Lemma year_month_two_runs (pre mid post : string) (Y M : N) :
  no_run pre = true → gap mid = true → mid ≠ EmptyString → gap post = true →
  (0 < Y)%N → (0 < M)%N →
  year_month (two_runs_name pre Y mid M post) = Ok (Y, M).
Proof.
  intros. unfold year_month. rewrite findall_two_runs by done.
  simpl. by rewrite !py_int_py_str.
Qed.

Lemma year_month_length (file : string) (ym : N * N) :
  year_month file = Ok ym → length (p_findall file) = 2.
Proof.
  unfold year_month. by destruct (p_findall file) as [|? [|? [|]]].
Qed.





(** C8, as the program has it: the month read from a file name that passes
    is a positive integer, and so is the year; the date is written from them.
    Nothing bounds the month from above. *)
Theorem derived_month_positive (file d : string) :
  extract_date file = Ok d →
  ∃ y m, year_month file = Ok (y, m) ∧ d = date_str y m
         ∧ (1 ≤ y)%N ∧ (1 ≤ m)%N.
Proof.
  unfold extract_date. fold (year_month file).
  destruct (year_month file) as [[y m]|e] eqn:Hym; [|done].
  simpl. intros [= <-]. exists y, m.
  by destruct (year_month_positive file y m Hym).
Qed.

Lemma derived_month_positive_witness :
  ∃ y m, year_month "2023_07.csv" = Ok (y, m) ∧ "2023_07" = date_str y m
         ∧ (1 ≤ y)%N ∧ (1 ≤ m)%N.
Proof. apply (derived_month_positive "2023_07.csv" "2023_07"). reflexivity. Defined.

(** C8, as stated, fails: a file of month 13 passes the audit and the date
    extraction, and its month is outside 1..12. *)
Lemma month_13_accepted :
  AccountExpenseHistory_init (A:=Z) "data" "acct" ["2023_13.csv"] [[]]
    = Ok (false, Account "acct" "data" ["2023_13"] [[]])
  ∧ year_month "2023_13.csv" = Ok (2023, 13)%N
  ∧ ¬ (∀ file y m, year_month file = Ok (y, m) → (1 ≤ m ≤ 12)%N).
Proof.
  split; [reflexivity|]. split; [reflexivity|].
  intros Hall. specialize (Hall "2023_13.csv" 2023%N 13%N eq_refl). lia.
Qed.

(** ** The audit for missing months *)

Lemma has_gap_cons (a b : N * N) (l : list (N * N)) :
  has_gap (a :: b :: l) ↔ b ≠ next_month a ∨ has_gap (b :: l).
Proof.
  split.
  - intros (i & ym & ym' & H1 & H2 & Hne). destruct i as [|i].
    + left. simpl in *. by simplify_eq.
    + right. by exists i, ym, ym'.
  - intros [Hne|(i & ym & ym' & H1 & H2 & Hne)].
    + by exists 0%nat, a, b.
    + by exists (S i), ym, ym'.
Qed.

Lemma has_gap_singleton (a : N * N) : ¬ has_gap [a].
Proof. intros (i & ym & ym' & H1 & H2 & _). by destruct i. Qed.

Lemma audit_loop_spec (path : string) (files : list string)
    (yms : list (N * N)) (ym0 : N * N) :
  Forall2 (λ f ym, year_month f = Ok ym) files yms →
  ∃ b, audit_loop path ym0 files = Ok b
       ∧ (b = true ↔ has_gap (ym0 :: yms)).
Proof.
  intros Hall. revert ym0.
  induction Hall as [|file [y m] files yms Hym _ IH]; intros ym0; simpl.
  - exists false. split; [done|]. split; [done|].
    by intros ?%has_gap_singleton.
  - rewrite decide_False by (by rewrite (year_month_length _ _ Hym); auto).
    fold (year_month file). rewrite Hym. simpl.
    destruct (next_month ym0) as [y0 m0] eqn:Hnext.
    destruct (negb (y =? y0)%N || negb (m =? m0)%N) eqn:Hcmp.
    + exists true. split; [done|]. split; [|done]. intros _.
      apply has_gap_cons. left. rewrite Hnext.
      intros [= -> ->]. by rewrite !N.eqb_refl in Hcmp.
    + apply orb_false_iff in Hcmp as [Hy%negb_false_iff Hm%negb_false_iff].
      apply N.eqb_eq in Hy as ->. apply N.eqb_eq in Hm as ->.
      destruct (IH (y0, m0)) as (b & -> & Hb). exists b. split; [done|].
      rewrite Hb, has_gap_cons, Hnext. split; [by right | by intros [?|?]].
Qed.

(** C5: the audit answers [True] for an empty list of files; for a list
    whose names all read as a (year, month), it answers [True] exactly when
    some file is not the month after the file before it, December being
    followed by January of the next year.  So 2023_01, 2023_02, 2023_04 gives
    [True] and 2023_01, 2023_02, 2023_03 gives [False]. *)
Theorem audit_for_missing_data_spec (path : string) (files : list string)
    (yms : list (N * N)) :
  Forall2 (λ f ym, year_month f = Ok ym) files yms →
  audit_for_missing_data path [] = Ok true
  ∧ (files ≠ [] →
     ∃ b, audit_for_missing_data path files = Ok b ∧ (b = true ↔ has_gap yms))
  ∧ next_month (2023, 12)%N = (2024, 1)%N
  ∧ audit_for_missing_data path ["2023_01.csv"; "2023_02.csv"; "2023_04.csv"]
    = Ok true
  ∧ audit_for_missing_data path ["2023_01.csv"; "2023_02.csv"; "2023_03.csv"]
    = Ok false.
Proof.
  intros Hall. split; [done|]. split; [|done].
  intros Hne. destruct Hall as [|file0 ym0 files yms Hym Hall]; [done|].
  simpl.
  rewrite decide_False by (by rewrite (year_month_length _ _ Hym); auto).
  fold (year_month file0). rewrite Hym. simpl.
  by apply audit_loop_spec.
Qed.

Lemma audit_for_missing_data_spec_witness :
  ∃ b, audit_for_missing_data "data"
         ["2023_11.csv"; "2023_12.csv"; "2024_01.csv"; "2024_03.csv"] = Ok b
       ∧ (b = true ↔ has_gap [(2023, 11); (2023, 12); (2024, 1); (2024, 3)]%N).
Proof.
  apply (audit_for_missing_data_spec "data"
           ["2023_11.csv"; "2023_12.csv"; "2024_01.csv"; "2024_03.csv"]
           [(2023, 11); (2023, 12); (2024, 1); (2024, 3)]%N).
  - repeat constructor.
  - done.
Defined.

(** ** Date reconciliation *)

Lemma StronglySorted_lookup_le {B} (R : relation B) (l : list B) i j x y :
  StronglySorted R l → l !! i = Some x → l !! j = Some y → (i < j)%nat →
  R x y.
Proof.
  intros Hs. revert i j. induction Hs as [|a l Hs IH Hall]; intros i j Hi Hj Hlt.
  - done.
  - destruct j as [|j]; [lia|]. destruct i as [|i]; simpl in *.
    + simplify_eq. rewrite Forall_forall in Hall. apply Hall.
      by eapply list_elem_of_lookup_2.
    + eapply IH; eauto. lia.
Qed.

Lemma str_le_neq_ltb (x y : string) :
  String.le x y → x ≠ y → String.ltb x y = true.
Proof.
  unfold String.le, String.leb, String.ltb. intros Hle Hne.
  destruct (String.compare x y) eqn:Hc; try done.
  by apply String.compare_eq_iff in Hc.
Qed.

Lemma sorted_list_ascending (S : gset string) : ascending (sorted_list S).
Proof.
  intros i j x y Hi Hj Hlt. apply str_le_neq_ltb.
  - eapply (StronglySorted_lookup_le String.le); eauto.
    apply StronglySorted_merge_sort; apply _.
  - intros <-.
    assert (Hnd : NoDup (sorted_list S)).
    { unfold sorted_list. rewrite merge_sort_Permutation. apply NoDup_elements. }
    pose proof (NoDup_lookup _ _ _ _ Hnd Hi Hj). lia.
Qed.

Lemma elem_of_sorted_list (S : gset string) (d : string) :
  d ∈ sorted_list S ↔ d ∈ S.
Proof.
  unfold sorted_list. by rewrite merge_sort_Permutation, elem_of_elements.
Qed.

Lemma elem_of_foldl_intersection {A} (rest : list (account A))
    (S : gset string) (d : string) :
  d ∈ foldl (λ dr a, dr ∩ date_set_of a) S rest
  ↔ d ∈ S ∧ ∀ a, a ∈ rest → d ∈ dates a.
Proof.
  revert S. induction rest as [|a rest IH]; intros S; simpl.
  - split; [|by intros [? _]]. intros ?. split; [done|]. by intros ? ?%elem_of_nil.
  - rewrite IH, elem_of_intersection. unfold date_set_of at 1.
    rewrite elem_of_list_to_set. split.
    + intros [[? ?] Hall]. split; [done|].
      intros a' [->|?]%elem_of_cons; auto.
    + intros [? Hall]. split; [split; [done|]|].
      * apply Hall. by left.
      * intros a' ?. apply Hall. by right.
Qed.

Lemma elem_of_foldl_union {A} (accs : list (account A))
    (S : gset string) (d : string) :
  d ∈ foldl (λ dr a, dr ∪ date_set_of a) S accs
  ↔ d ∈ S ∨ ∃ a, a ∈ accs ∧ d ∈ dates a.
Proof.
  revert S. induction accs as [|a accs IH]; intros S; simpl.
  - split; [by left|]. intros [?|(a & ?%elem_of_nil & _)]; done.
  - rewrite IH, elem_of_union. unfold date_set_of at 1.
    rewrite elem_of_list_to_set. split.
    + intros [[?|?]|(a' & ? & ?)]; [by left| |].
      * right. exists a. split; [by left|done].
      * right. exists a'. split; [by right|done].
    + intros [?|(a' & [->|?]%elem_of_cons & ?)]; [by left; left|by left; right|].
      right. by exists a'.
Qed.

(** C6: for one or more accounts, the intersection holds a month exactly
    when every account has it, the union exactly when some account has it;
    both are sorted ascending and without duplicates. *)
Theorem date_range_reconciled {A} (accs : list (string * account A)) :
  accs ≠ [] →
  (∃ l, find_date_range_intersection accs = Ok l
        ∧ ascending l
        ∧ ∀ d, d ∈ l ↔ ∀ a, a ∈ dict_values accs → d ∈ dates a)
  ∧ ascending (find_date_range_union accs)
  ∧ ∀ d, d ∈ find_date_range_union accs
         ↔ ∃ a, a ∈ dict_values accs ∧ d ∈ dates a.
Proof.
  intros Hne. split; [|split].
  - unfold find_date_range_intersection.
    destruct accs as [|[k acc] rest]; [done|]. simpl.
    eexists. split; [done|]. split; [apply sorted_list_ascending|].
    intros d. rewrite elem_of_sorted_list, elem_of_foldl_intersection.
    unfold date_set_of at 1. rewrite elem_of_list_to_set. split.
    + intros [? Hall] a [->|?]%elem_of_cons; auto.
    + intros Hall. split; [apply Hall; by left|].
      intros a ?. apply Hall. by right.
  - apply sorted_list_ascending.
  - intros d. unfold find_date_range_union.
    rewrite elem_of_sorted_list, elem_of_foldl_union.
    split; [intros [?%elem_of_empty|?]; done|by right].
Qed.

Lemma date_range_reconciled_witness :
  find_date_range_intersection (A:=Z)
    [("a", Account "A" "pa" ["2023_01"; "2023_02"] [[]; []]);
     ("b", Account "B" "pb" ["2023_02"; "2023_03"] [[]; []])]
  = Ok ["2023_02"]
  ∧ ascending
      (find_date_range_union (A:=Z)
         [("a", Account "A" "pa" ["2023_01"; "2023_02"] [[]; []]);
          ("b", Account "B" "pb" ["2023_02"; "2023_03"] [[]; []])]).
Proof.
  split; [vm_compute; reflexivity|].
  apply (date_range_reconciled (A:=Z)
           [("a", Account "A" "pa" ["2023_01"; "2023_02"] [[]; []]);
            ("b", Account "B" "pb" ["2023_02"; "2023_03"] [[]; []])]).
  done.
Defined.

(** the example of the specification *)
Example intersection_vs_union :
  let accs : list (string * account Z) :=
    [("a", Account "A" "pa" ["2023_01"; "2023_02"] [[]; []]);
     ("b", Account "B" "pb" ["2023_02"; "2023_03"] [[]; []])] in
  find_date_range_intersection accs = Ok ["2023_02"]
  ∧ find_date_range_union accs = ["2023_01"; "2023_02"; "2023_03"].
Proof. split; vm_compute; reflexivity. Qed.

(** ** Loading the configuration *)

Section read_config_facts.
Context {limit : Type}.
Variable re_compiles : string → bool.
Variable py_float : string → option limit.

Let rules : Type := list (string * string) * list (string * limit).

Lemma read_config_line_short (cfg raw : string) (st : rules) :
  (length (split_tab (str_strip raw)) < 3)%nat →
  read_config_line limit re_compiles py_float cfg raw st = Raise IndexError.
Proof.
  intros Hlen. unfold read_config_line. destruct st as [d lims].
  unfold py_index, regex_idx.
  by rewrite (lookup_ge_None_2 _ 2) by lia.
Qed.

Lemma read_config_line_reserved (cfg raw : string) (st : rules)
    (category : string) :
  (3 ≤ length (split_tab (str_strip raw)))%nat →
  split_tab (str_strip raw) !! 0 = Some category →
  category = "Total" ∨ category = "Misc" →
  read_config_line limit re_compiles py_float cfg raw st
  = Raise (SystemExit (ReservedCategory cfg)).
Proof.
  intros Hlen Hcat Hres. unfold read_config_line. destruct st as [d lims].
  unfold py_index, regex_idx, category_idx.
  destruct (lookup_lt_is_Some_2 (split_tab (str_strip raw)) 2) as [regex Hr];
    [lia|].
  rewrite Hr, Hcat. simpl. by rewrite decide_True.
Qed.

Lemma read_config_line_three (cfg raw : string) (d : list (string * string))
    (lims : list (string * limit)) (category l regex : string) (v : limit) :
  split_tab (str_strip raw) = [category; l; regex] →
  category ≠ "Total" → category ≠ "Misc" →
  re_compiles regex = true → py_float l = Some v →
  read_config_line limit re_compiles py_float cfg raw (d, lims)
  = Ok (dict_set regex category d, dict_set category v lims).
Proof.
  intros Hline H1 H2 Hre Hfl. unfold read_config_line. rewrite Hline. simpl.
  rewrite decide_False by (by intros [?|?]).
  unfold re_compile, float_of. rewrite Hre. simpl. by rewrite Hfl.
Qed.

Lemma read_config_line_more (cfg raw : string) (d : list (string * string))
    (lims : list (string * limit)) (category regex : string) :
  (3 < length (split_tab (str_strip raw)))%nat →
  split_tab (str_strip raw) !! 0 = Some category →
  split_tab (str_strip raw) !! 2 = Some regex →
  category ≠ "Total" → category ≠ "Misc" → re_compiles regex = true →
  read_config_line limit re_compiles py_float cfg raw (d, lims)
  = Ok (dict_set regex category d, lims).
Proof.
  intros Hlen Hc Hr H1 H2 Hre. unfold read_config_line.
  unfold py_index, regex_idx, category_idx. rewrite Hr, Hc. simpl.
  rewrite decide_False by (by intros [?|?]).
  unfold re_compile. rewrite Hre. simpl.
  rewrite decide_False by lia. done.
Qed.

Lemma read_config_line_limits (cfg raw : string) (d d' : list (string * string))
    (lims lims' : list (string * limit)) :
  read_config_line limit re_compiles py_float cfg raw (d, lims) = Ok (d', lims') →
  length (split_tab (str_strip raw)) ≠ 3 → lims' = lims.
Proof.
  unfold read_config_line. intros Hok Hlen.
  destruct (except_ValueError _ _) as [[regex category]|]; [|done].
  simpl in Hok. destruct (decide _); [done|].
  destruct (re_compile re_compiles regex); [|done]. simpl in Hok.
  rewrite decide_False in Hok by done. by simplify_eq.
Qed.

Lemma read_config_lines_app (cfg : string) (l1 l2 : list string) (st : rules) :
  read_config_lines limit re_compiles py_float cfg (l1 ++ l2) st
  = rbind (read_config_lines limit re_compiles py_float cfg l1 st)
      (read_config_lines limit re_compiles py_float cfg l2).
Proof.
  revert st. induction l1 as [|raw l1 IH]; intros st; simpl; [done|].
  destruct (read_config_line _ _ _ _ _ _) as [st'|e]; simpl; [apply IH|done].
Qed.

(** a line whose category is reserved is never loaded *)
Lemma read_config_line_reserved_fails (cfg raw : string) (st : rules)
    (category : string) :
  split_tab (str_strip raw) !! 0 = Some category →
  category = "Total" ∨ category = "Misc" →
  ∃ e, read_config_line limit re_compiles py_float cfg raw st = Raise e.
Proof.
  intros Hcat Hres.
  destruct (decide (length (split_tab (str_strip raw)) < 3)%nat).
  - eexists. by apply read_config_line_short.
  - eexists. eapply read_config_line_reserved; eauto. lia.
Qed.

Lemma read_config_lines_reserved_fails (cfg raw : string) (lines : list string)
    (st : rules) (category : string) :
  raw ∈ lines →
  split_tab (str_strip raw) !! 0 = Some category →
  category = "Total" ∨ category = "Misc" →
  ∃ e, read_config_lines limit re_compiles py_float cfg lines st = Raise e.
Proof.
  intros Hin Hcat Hres. revert st.
  induction lines as [|raw' lines IH]; intros st; [by apply elem_of_nil in Hin|].
  simpl. apply elem_of_cons in Hin as [<-|Hin].
  - destruct (read_config_line_reserved_fails cfg raw st category) as [e ->];
      eauto.
  - destruct (read_config_line _ _ _ _ _ _) as [st'|e]; simpl; eauto.
Qed.

End read_config_facts.

(** C3, as stated, fails: a line with the two fields category and regex is
    not accepted, reading its third field raises. *)
Lemma two_field_line_not_accepted :
  split_tab (str_strip (line_of (tsv ["Food"; "FOO.*"]))) = ["Food"; "FOO.*"]
  ∧ Fragment.read_config "cfg" 100%N [line_of (tsv ["Food"; "FOO.*"])]
    = Raise IndexError.
Proof. split; reflexivity. Qed.

(** C3, as the program has it: a line is accepted only with at least three
    fields, the category first and the regex third.  With exactly three
    fields it registers the rule and the limit read from the second field;
    with more than three it registers the rule and no limit; with fewer than
    three it is not accepted.  Only a line of exactly three fields changes
    the limits. *)
Theorem read_config_line_fields {limit : Type} (re_compiles : string → bool)
    (py_float : string → option limit) (cfg raw : string)
    (d : list (string * string)) (lims : list (string * limit)) :
  let line := split_tab (str_strip raw) in
  let step := read_config_line limit re_compiles py_float cfg raw (d, lims) in
  ((length line < 3)%nat → ¬ is_ok step)
  ∧ (∀ category l regex v,
       line = [category; l; regex] →
       category ≠ "Total" → category ≠ "Misc" →
       re_compiles regex = true → py_float l = Some v →
       step = Ok (dict_set regex category d, dict_set category v lims))
  ∧ (∀ category regex,
       (3 < length line)%nat →
       line !! 0 = Some category → line !! 2 = Some regex →
       category ≠ "Total" → category ≠ "Misc" → re_compiles regex = true →
       step = Ok (dict_set regex category d, lims))
  ∧ (∀ d' lims', step = Ok (d', lims') → length line ≠ 3 → lims' = lims).
Proof.
  intros line step. subst line step. repeat split.
  - intros Hlen [st Hst].
    by rewrite read_config_line_short in Hst.
  - intros. by eapply read_config_line_three.
  - intros. by eapply read_config_line_more.
  - intros. by eapply read_config_line_limits.
Qed.

Lemma read_config_line_fields_witness :
  read_config_line N Fragment.compiles Fragment.float_digits "cfg"
    (line_of (tsv ["Food"; "50"; "FOO.*"])) ([], [])
  = Ok ([("FOO.*", "Food")], [("Food", 50%N)]).
Proof.
  destruct (read_config_line_fields Fragment.compiles Fragment.float_digits
              "cfg" (line_of (tsv ["Food"; "50"; "FOO.*"])) [] [])
    as (_ & H3 & _ & _).
  apply (H3 "Food" "50" "FOO.*" 50%N); done.
Defined.

(** C4: what the program does on a line that cannot be split into three
    fields.  Reading the regex field raises [IndexError]; the handler of the
    [try] block only takes [ValueError], so the message naming the line and
    the file and the exit are never reached. *)
Theorem short_config_line_uncaught {limit : Type} (re_compiles : string → bool)
    (py_float : string → option limit) (cfg raw : string) (total : limit)
    (lines : list string) :
  (length (split_tab (str_strip raw)) < 3)%nat →
  read_config limit re_compiles py_float cfg total (raw :: lines)
  = Raise IndexError
  ∧ read_config limit re_compiles py_float cfg total (raw :: lines)
    ≠ Raise (SystemExit (ProblemWithLine (split_tab (str_strip raw)))).
Proof.
  intros Hlen.
  assert (read_config limit re_compiles py_float cfg total (raw :: lines)
          = Raise IndexError) as ->; [|done].
  unfold read_config.
  change (read_config_lines limit re_compiles py_float cfg (raw :: lines) ([], []))
    with (rbind (read_config_line limit re_compiles py_float cfg raw ([], []))
            (read_config_lines limit re_compiles py_float cfg lines)).
  by rewrite read_config_line_short.
Qed.

Lemma short_config_line_uncaught_witness :
  Fragment.read_config "cfg" 100%N [line_of "Food"] = Raise IndexError.
Proof.
  apply (short_config_line_uncaught Fragment.compiles Fragment.float_digits
           "cfg" (line_of "Food") 100%N []).
  vm_compute. lia.
Defined.

(** ** Construction of the analyzer *)

Section init_facts.
Context {A : Type} `{Number A} {limit : Type}.
Variable re_compiles : string → bool.
Variable re_search : string → string → bool.
Variable py_float : string → option limit.

Lemma init_read_config_raises (lines : list string) (cfg lbl : string)
    (total : limit) (intersect : bool) (accs : list (string * account A))
    (fs : out_files) (e : exn) :
  read_config limit re_compiles py_float cfg total lines = Raise e →
  ExpenseHistoryAnalyzer_init limit re_compiles re_search py_float
    lines cfg lbl total intersect accs fs = (Raise e, fs).
Proof.
  intros Hrc. unfold ExpenseHistoryAnalyzer_init, mbindM, mlift.
  by rewrite Hrc.
Qed.

End init_facts.

(** C9: what the program does on a line whose category is [Total] or
    [Misc].  With such a line in the configuration the construction of the
    analyzer never succeeds: it ends in [read_config], before the date range
    is computed and before any account is categorized, and nothing is
    written.  When the lines before it load and the line has three fields or
    more, it ends with the message on reserved categories and [sys.exit(1)].
    When the line has the category and fewer than three fields, as
    [Total<TAB>X], the index read before the test of the category raises
    [IndexError], which [except ValueError] does not catch: the construction
    ends with this exception and not with the message. *)
Theorem reserved_category_rejected {A : Type} `{Number A} {limit : Type}
    (re_compiles : string → bool) (re_search : string → string → bool)
    (py_float : string → option limit)
    (pre post : list string) (raw category cfg lbl : string) (total : limit)
    (intersect : bool) (accs : list (string * account A)) (fs : out_files) :
  split_tab (str_strip raw) !! 0 = Some category →
  category = "Total" ∨ category = "Misc" →
  (∃ e, read_config limit re_compiles py_float cfg total (pre ++ raw :: post)
        = Raise e
        ∧ ExpenseHistoryAnalyzer_init limit re_compiles re_search py_float
            (pre ++ raw :: post) cfg lbl total intersect accs fs
          = (Raise e, fs))
  ∧ (is_ok (read_config_lines limit re_compiles py_float cfg pre ([], [])) →
     ((3 ≤ length (split_tab (str_strip raw)))%nat →
      ExpenseHistoryAnalyzer_init limit re_compiles re_search py_float
        (pre ++ raw :: post) cfg lbl total intersect accs fs
      = (Raise (SystemExit (ReservedCategory cfg)), fs))
     ∧ ((length (split_tab (str_strip raw)) < 3)%nat →
        ExpenseHistoryAnalyzer_init limit re_compiles re_search py_float
          (pre ++ raw :: post) cfg lbl total intersect accs fs
        = (Raise IndexError, fs))).
Proof.
  intros Hcat Hres. split.
  - destruct (read_config_lines_reserved_fails re_compiles py_float cfg raw
                (pre ++ raw :: post) ([], []) category) as [e He]; [|done..|].
    { apply elem_of_app. right. by left. }
    exists e.
    assert (Hrc : read_config limit re_compiles py_float cfg total
                    (pre ++ raw :: post) = Raise e)
      by (unfold read_config; by rewrite He).
    split; [done|]. by apply init_read_config_raises.
  - intros [st Hpre].
    assert (Hline : ∀ e,
              read_config_line limit re_compiles py_float cfg raw st = Raise e →
              ExpenseHistoryAnalyzer_init limit re_compiles re_search py_float
                (pre ++ raw :: post) cfg lbl total intersect accs fs
              = (Raise e, fs)).
    { intros e He. apply init_read_config_raises.
      unfold read_config. rewrite read_config_lines_app, Hpre.
      change (rbind (Ok st) ?k) with (k st).
      change (read_config_lines limit re_compiles py_float cfg (raw :: post) st)
        with (rbind (read_config_line limit re_compiles py_float cfg raw st)
                (read_config_lines limit re_compiles py_float cfg post)).
      by rewrite He. }
    split; intros Hlen; apply Hline.
    + by apply (read_config_line_reserved _ _ _ _ _ category).
    + by apply read_config_line_short.
Qed.

Lemma reserved_category_rejected_witness :
  Fragment.init (A:=Z)
    [line_of (tsv ["Food"; "50"; "FOO.*"]); line_of (tsv ["Total"; "X"])]
    "cfg" "an" 100%N true
    [("a", Account "A" "pa" ["2023_01"] [[(5%Z, "FOOBAR")]])] no_files
  = (Raise IndexError, no_files).
Proof.
  destruct (reserved_category_rejected (A:=Z) Fragment.compiles Fragment.search
              Fragment.float_digits
              [line_of (tsv ["Food"; "50"; "FOO.*"])] []
              (line_of (tsv ["Total"; "X"])) "Total" "cfg" "an" 100%N true
              [("a", Account "A" "pa" ["2023_01"] [[(5%Z, "FOOBAR")]])]
              no_files) as [_ Hends].
  - reflexivity.
  - by left.
  - destruct Hends as [_ Hshort].
    + eexists. reflexivity.
    + apply Hshort. vm_compute. lia.
Defined.

(** C10: with one account or more the intersection always returns, its
    [StopIteration] only stands for no account at all; with no account the
    intersection raises where the union returns the empty list of dates, and
    so does the construction of an analyzer for a configuration that loads. *)
Theorem reconciliation_without_accounts {A : Type} `{Number A} {limit : Type}
    (re_compiles : string → bool) (re_search : string → string → bool)
    (py_float : string → option limit) :
  (∀ accs : list (string * account A),
     accs ≠ [] → is_ok (find_date_range_intersection accs))
  ∧ (∀ (accs : list (string * account A)) e,
       find_date_range_intersection accs = Raise e →
       accs = [] ∧ e = StopIteration)
  ∧ find_date_range_intersection (A:=A) [] = Raise StopIteration
  ∧ find_date_range_union (A:=A) [] = []
  ∧ (∀ lines cfg lbl total fs rules,
       read_config limit re_compiles py_float cfg total lines = Ok rules →
       ExpenseHistoryAnalyzer_init (A:=A) limit re_compiles re_search py_float
         lines cfg lbl total true [] fs = (Raise StopIteration, fs)
       ∧ ∃ self fs',
           ExpenseHistoryAnalyzer_init (A:=A) limit re_compiles re_search
             py_float lines cfg lbl total false [] fs = (Ok self, fs')
           ∧ a_dates self = []).
Proof.
  split; [|split; [|split; [|split]]].
  - intros [|[k acc] rest] Hne; [done|]. by eexists.
  - intros [|[k acc] rest] e; [by intros [= <-]|done].
  - done.
  - done.
  - intros lines cfg lbl total fs [cats lims] Hrc. split.
    + unfold ExpenseHistoryAnalyzer_init, mbindM, mlift. by rewrite Hrc.
    + unfold ExpenseHistoryAnalyzer_init, mbindM, mlift. rewrite Hrc.
      eexists _, _. split; [reflexivity|]. reflexivity.
Qed.

Lemma reconciliation_without_accounts_witness :
  is_ok (find_date_range_intersection (A:=Z)
           [("a", Account "A" "pa" ["2023_01"; "2023_02"] [[]; []])])
  ∧ Fragment.init (A:=Z) [line_of (tsv ["Food"; "50"; "FOO.*"])]
      "cfg" "an" 100%N true [] no_files = (Raise StopIteration, no_files).
Proof.
  destruct (reconciliation_without_accounts (A:=Z) Fragment.compiles
              Fragment.search Fragment.float_digits)
    as (Hne & _ & _ & _ & Hinit).
  split.
  - by apply Hne.
  - eapply Hinit. reflexivity.
Defined.

(** ** Dictionaries *)

Section dict_facts.
Context {K V : Type} `{EqDecision K}.
Implicit Types (d : list (K * V)) (k : K) (v : V).

Lemma dict_get_set_eq d k v : dict_get k (dict_set k v d) = Some v.
Proof.
  induction d as [|[k' v'] d IH]; simpl.
  - by rewrite decide_True.
  - destruct (decide (k = k')); simpl.
    + by rewrite decide_True.
    + by rewrite decide_False.
Qed.

Lemma dict_get_set_ne d k k' v :
  k' ≠ k → dict_get k' (dict_set k v d) = dict_get k' d.
Proof.
  intros Hne. induction d as [|[k'' v''] d IH]; simpl.
  - by rewrite decide_False.
  - destruct (decide (k = k'')) as [->|]; simpl.
    + by rewrite !decide_False.
    + destruct (decide (k' = k'')); [done|apply IH].
Qed.

Lemma dict_set_Forall (P : K * V → Prop) d k v :
  Forall P d → P (k, v) → Forall P (dict_set k v d).
Proof.
  intros Hd Hkv. induction Hd as [|[k' v'] d Hx Hd IH]; simpl.
  - by constructor.
  - destruct (decide (k = k')); constructor; auto.
Qed.

Lemma dict_get_Forall (P : K * V → Prop) d k v :
  Forall P d → dict_get k d = Some v → P (k, v).
Proof.
  intros Hd. induction Hd as [|[k' v'] d Hx Hd IH]; simpl; [done|].
  destruct (decide (k = k')) as [->|]; [by intros [= <-]|done].
Qed.

Lemma dict_set_fresh d k v :
  k ∉ dict_keys d → dict_set k v d = (d ++ [(k, v)])%list.
Proof.
  unfold dict_keys. induction d as [|[k' v'] d IH]; simpl; [done|].
  intros Hk. rewrite not_elem_of_cons in Hk. destruct Hk as [Hne Hk].
  rewrite decide_False by done. by rewrite IH.
Qed.

Lemma dict_set_elem_of d k v (x : K * V) :
  x ∈ dict_set k v d → x = (k, v) ∨ x ∈ d.
Proof.
  induction d as [|[k' v'] d IH]; simpl.
  - intros ?%list_elem_of_singleton. by left.
  - destruct (decide (k = k')).
    + intros [->|?]%elem_of_cons; [by left|]. right. by right.
    + intros [->|?]%elem_of_cons; [right; by left|].
      destruct IH as [?|?]; [done|by left|]. right. by right.
Qed.

Lemma dict_set_keys d k v :
  is_Some (dict_get k d) → dict_keys (dict_set k v d) = dict_keys d.
Proof.
  unfold dict_keys. induction d as [|[k' v'] d IH]; simpl; [by intros [? ?]|].
  destruct (decide (k = k')) as [->|]; [done|].
  intros Hk. simpl. f_equal. by apply IH.
Qed.

Lemma dict_get_is_Some d k : is_Some (dict_get k d) ↔ k ∈ dict_keys d.
Proof.
  unfold dict_keys. induction d as [|[k' v'] d IH]; simpl.
  - split; [by intros [? ?]|by intros ?%elem_of_nil].
  - destruct (decide (k = k')) as [->|Hne].
    + split; [intros _; by left|by eauto].
    + rewrite IH. split; [by right|].
      by intros [?|?]%elem_of_cons.
Qed.

Lemma dict_set_keys_step d k v :
  dict_keys (dict_set k v d)
  = if decide (k ∈ dict_keys d) then dict_keys d else (dict_keys d ++ [k])%list.
Proof.
  destruct (decide (k ∈ dict_keys d)) as [Hin|Hnin].
  - apply dict_set_keys. by apply dict_get_is_Some.
  - rewrite dict_set_fresh by done. unfold dict_keys. by rewrite fmap_app.
Qed.

End dict_facts.

(** ** Computations that write the files *)

Lemma mbindM_ok {A B} (m : M A) (k : A → M B) (fs fs' : out_files) (b : B) :
  mbindM m k fs = (Ok b, fs') →
  ∃ a fs1, m fs = (Ok a, fs1) ∧ k a fs1 = (Ok b, fs').
Proof.
  unfold mbindM. destruct (m fs) as [[a|e] fs1]; [eauto|done].
Qed.

Lemma mlift_ok {A} (r : result A) (fs fs' : out_files) (a : A) :
  mlift r fs = (Ok a, fs') → r = Ok a ∧ fs' = fs.
Proof. unfold mlift. by intros [= -> ->]. Qed.

(** ** Buckets *)

Section bucket_facts.
Context {A : Type} `{Number A}.
Implicit Types (ce : list (string * list A)) (e : A).

Lemma bucket_add_ok cat i e ce ce' :
  bucket_add cat i e ce = Ok ce' →
  ∃ l x, dict_get cat ce = Some l ∧ l !! i = Some x
         ∧ ce' = dict_set cat (<[i := nadd x e]> l) ce.
Proof.
  unfold bucket_add, dict_lookup, py_index.
  destruct (dict_get cat ce) as [l|] eqn:Hl; [|done]. simpl.
  destruct (l !! i) as [x|] eqn:Hx; [|done]. simpl. intros [= <-].
  by exists l, x.
Qed.

Lemma bucket_at_add cat i e ce ce' c m :
  bucket_add cat i e ce = Ok ce' →
  bucket_at ce' c m
  = if decide (c = cat ∧ m = i) then nadd (bucket_at ce c m) e
    else bucket_at ce c m.
Proof.
  intros (l & x & Hl & Hx & ->)%bucket_add_ok. unfold bucket_at.
  destruct (decide (c = cat)) as [->|Hc].
  - rewrite dict_get_set_eq, Hl. simpl.
    destruct (decide (m = i)) as [->|Hm].
    + rewrite decide_True by done.
      rewrite list_lookup_insert_eq by (by eapply lookup_lt_Some).
      by rewrite Hx.
    + rewrite decide_False by (by intros [_ ?]).
      by rewrite list_lookup_insert_ne.
  - rewrite decide_False by (by intros [? _]).
    by rewrite dict_get_set_ne.
Qed.

Lemma bucket_add_lengths cat i e ce ce' (n : nat) :
  bucket_add cat i e ce = Ok ce' →
  Forall (λ cl, length cl.2 = n) ce → Forall (λ cl, length cl.2 = n) ce'.
Proof.
  intros (l & x & Hl & Hx & ->)%bucket_add_ok Hall.
  apply dict_set_Forall; [done|]. simpl. rewrite length_insert.
  by apply (dict_get_Forall _ _ _ _ Hall Hl).
Qed.

Lemma bucket_add_keys cat i e ce ce' :
  bucket_add cat i e ce = Ok ce' → dict_keys ce' = dict_keys ce.
Proof.
  intros (l & x & Hl & Hx & ->)%bucket_add_ok.
  apply dict_set_keys. by rewrite Hl.
Qed.

Lemma bucket_sum_add_total i e ce ce' m :
  bucket_add "Total" i e ce = Ok ce' → bucket_sum ce' m = bucket_sum ce m.
Proof.
  intros (l & x & Hl & Hx & ->)%bucket_add_ok. unfold bucket_sum.
  generalize (nzero : A) as acc. clear Hl Hx.
  generalize (<[i:=nadd x e]> l) as l'. intros l'.
  induction ce as [|[k v] ce IH]; intros acc; simpl.
  - done.
  - destruct (decide ("Total" = k)) as [<-|Hk]; simpl; [done|apply IH].
Qed.

Context `{!ExactNumber A}.

Lemma sum_step_cat m (acc : A) (c : string) (v : list A) :
  c ≠ "Total" → sum_step m acc (c, v) = nadd acc (default nzero (v !! m)).
Proof. intros Hc. unfold sum_step. simpl. by rewrite decide_False. Qed.

Lemma foldl_sum_step_acc m (a b : A) ce :
  foldl (sum_step m) (nadd a b) ce = nadd a (foldl (sum_step m) b ce).
Proof.
  revert b. induction ce as [|[k v] ce IH]; intros b; simpl; [done|].
  unfold sum_step at 2 4. simpl. destruct (decide (k = "Total")); [apply IH|].
  rewrite <- nadd_assoc. apply IH.
Qed.

Lemma bucket_sum_add_cat cat i e ce ce' m :
  bucket_add cat i e ce = Ok ce' → cat ≠ "Total" →
  bucket_sum ce' m
  = if decide (m = i) then nadd (bucket_sum ce m) e else bucket_sum ce m.
Proof.
  intros (l & x & Hl & Hx & ->)%bucket_add_ok Hcat. unfold bucket_sum.
  generalize (nzero : A) as acc.
  induction ce as [|[k v] ce IH]; intros acc; simpl in *; [done|].
  destruct (decide (cat = k)) as [<-|Hk]; simpl.
  - injection Hl as ->. rewrite !sum_step_cat by done.
    destruct (decide (m = i)) as [->|Hm].
    + rewrite list_lookup_insert_eq by (by eapply lookup_lt_Some).
      rewrite Hx. simpl.
      rewrite (nadd_comm x e), (nadd_comm acc (nadd e x)).
      rewrite <- nadd_assoc, foldl_sum_step_acc.
      by rewrite (nadd_comm x acc), (nadd_comm e).
    + by rewrite list_lookup_insert_ne.
  - apply IH. done.
Qed.

Lemma bucket_sum_zero ce m :
  Forall (λ cl, ∀ j, default nzero (cl.2 !! j) = nzero) ce →
  bucket_sum ce m = nzero.
Proof.
  unfold bucket_sum. intros Hall.
  induction Hall as [|[k v] ce Hv Hall IH]; simpl; [done|].
  unfold sum_step at 2. simpl. destruct (decide (k = "Total")); [done|].
  by rewrite Hv, nadd_zero_l.
Qed.

End bucket_facts.

(** ** Categorization *)

Section categorize_facts.
Context {A : Type} `{Number A} {limit : Type}.
Variable re_search : string → string → bool.
Implicit Types (ce : list (string * list A)) (uncat : gset string).

Lemma categorize_record_ok cfg rcd i e loc ce uncat fs ce' uncat' fs' :
  categorize_record re_search cfg rcd i (e, loc) (ce, uncat) fs
  = (Ok (ce', uncat'), fs') →
  let cats := matched_categories re_search rcd loc in
  ∃ ce1,
    bucket_add (choose_category cats) i e ce = Ok ce1
    ∧ bucket_add "Total" i e ce1 = Ok ce'
    ∧ uncat' = match cats with [] => {[loc]} ∪ uncat | _ => uncat end
    ∧ fs' = if decide (1 < length cats)%nat
            then OutFiles
                   (regex_collisions_txt fs +:+ collision_entry cfg loc cats)
                   (uncategorized_txt fs)
            else fs.
Proof.
  intros Hstep cats. unfold categorize_record in Hstep. fold cats in Hstep.
  apply mbindM_ok in Hstep as ([] & fs1 & Hlog & Hstep).
  apply mbindM_ok in Hstep as (ce1 & fs2 & [Hadd1 ->]%mlift_ok & Hstep).
  apply mbindM_ok in Hstep as (ce2 & fs3 & [Hadd2 ->]%mlift_ok & Hstep).
  unfold mret in Hstep. injection Hstep as <- <- <-.
  exists ce1. repeat split; [done..|].
  destruct (decide (1 < length cats)%nat).
  - unfold append_collisions in Hlog. by injection Hlog as <-.
  - unfold mret in Hlog. by injection Hlog as <-.
Qed.

Lemma choose_category_elem rcd loc :
  choose_category (matched_categories re_search rcd loc) = "Misc"
  ∨ choose_category (matched_categories re_search rcd loc) ∈ dict_values rcd.
Proof.
  unfold matched_categories, dict_values.
  destruct ((filter _ rcd).*2) as [|c cats] eqn:Hf; [by left|]. right. simpl.
  assert (Hc : c ∈ (filter (λ rc, re_search rc.1 loc = true) rcd).*2)
    by (rewrite Hf; by left).
  apply list_elem_of_fmap in Hc as (rc & -> & Hrc).
  apply list_elem_of_filter in Hrc as [_ Hrc].
  apply list_elem_of_fmap. by exists rc.
Qed.

Lemma choose_category_not_total rcd loc :
  "Total" ∉ dict_values rcd →
  choose_category (matched_categories re_search rcd loc) ≠ "Total".
Proof.
  intros Hrcd Heq. destruct (choose_category_elem rcd loc) as [Hm|Hin].
  - by rewrite Hm in Heq.
  - by rewrite Heq in Hin.
Qed.

Lemma categorize_month_kept cfg rcd P i month st fs st' fs' :
  kept_by_records re_search rcd P →
  categorize_month re_search cfg rcd i month st fs = (Ok st', fs') →
  P st.1 → P st'.1.
Proof.
  intros Hkept. revert st fs.
  induction month as [|rec month IH]; intros st fs; simpl.
  - unfold mret. by intros [= <- <-].
  - intros (st1 & fs1 & Hrec & Hrest)%mbindM_ok HP.
    eapply IH; [done|]. by eapply Hkept.
Qed.

Lemma categorize_months_kept self acc date_set P a_idxs st i fs st' fs' :
  kept_by_records re_search (regex_category_dict self) P →
  categorize_months limit re_search self acc date_set a_idxs st i fs
  = (Ok st', fs') →
  P st.1 → P st'.1.
Proof.
  intros Hkept. revert st i fs.
  induction a_idxs as [|a_idx a_idxs IH]; intros st i fs; simpl.
  - unfold mret. by intros [= <- <-].
  - intros (date & fs1 & [Hd ->]%mlift_ok & Hrest)%mbindM_ok HP.
    destruct (decide (date ∉ date_set)); [by eapply IH|].
    apply mbindM_ok in Hrest as (i' & fs2 & [Hi ->]%mlift_ok & Hrest).
    apply mbindM_ok in Hrest as (month & fs3 & [Hm ->]%mlift_ok & Hrest).
    apply mbindM_ok in Hrest as (st1 & fs4 & Hmonth & Hrest).
    eapply IH; [done|]. by eapply categorize_month_kept.
Qed.

Lemma categorize_history_kept self acc P fs ce fs' :
  kept_by_records re_search (regex_category_dict self) P →
  P (empty_buckets (categories self) (length (a_dates self))) →
  categorize_history limit re_search self acc fs = (Ok ce, fs') →
  P ce.
Proof.
  intros Hkept Hinit Hrun. unfold categorize_history in Hrun.
  apply mbindM_ok in Hrun as ([ce1 uncat1] & fs1 & Hwith & Hret).
  unfold mret in Hret. injection Hret as <- <-.
  unfold categorize_history_with in Hwith.
  apply mbindM_ok in Hwith as ([ce2 uncat2] & fs2 & Hmonths & Hrest).
  apply mbindM_ok in Hrest as ([] & fs3 & _ & Hret).
  unfold mret in Hret. injection Hret as <- <- <-.
  by apply (categorize_months_kept _ _ _ P _ _ _ _ _ _ Hkept Hmonths).
Qed.

Lemma categorize_accounts_kept self accs P dat fs dat' fs' :
  kept_by_records re_search (regex_category_dict self) P →
  P (empty_buckets (categories self) (length (a_dates self))) →
  categorize_accounts limit re_search self accs dat fs = (Ok dat', fs') →
  Forall (λ x, P x.2) dat → Forall (λ x, P x.2) dat'.
Proof.
  intros Hkept Hinit. revert dat fs.
  induction accs as [|acc accs IH]; intros dat fs; simpl.
  - unfold mret. by intros [= <- <-].
  - intros (ce & fs1 & Hhist & Hrest)%mbindM_ok Hdat.
    eapply IH; [done|]. apply dict_set_Forall; [done|]. simpl.
    by eapply categorize_history_kept.
Qed.

End categorize_facts.

(** ** The rules that a configuration loads *)

Section loaded_rules.
Context {limit : Type}.
Variable re_compiles : string → bool.
Variable py_float : string → option limit.

Lemma read_config_line_ok cfg raw d lims d' lims' :
  read_config_line limit re_compiles py_float cfg raw (d, lims) = Ok (d', lims') →
  ∃ regex category,
    split_tab (str_strip raw) !! regex_idx = Some regex
    ∧ split_tab (str_strip raw) !! category_idx = Some category
    ∧ category ≠ "Total" ∧ category ≠ "Misc"
    ∧ d' = dict_set regex category d.
Proof.
  unfold read_config_line, py_index.
  destruct (split_tab (str_strip raw) !! regex_idx) as [regex|] eqn:Hr; [|done].
  destruct (split_tab (str_strip raw) !! category_idx) as [category|] eqn:Hc;
    [|done].
  simpl. destruct (decide _) as [|Hres]; [done|].
  unfold re_compile. destruct (re_compiles regex); [|done]. simpl.
  intros Hok. exists regex, category.
  repeat split; [by intros -> ; apply Hres; left
                |by intros -> ; apply Hres; right|].
  destruct (decide _); [|by injection Hok as <- _].
  destruct (split_tab (str_strip raw) !! limit_idx) as [l|]; [|done].
  simpl in Hok. destruct (float_of limit py_float l); [|done].
  simpl in Hok. by injection Hok as <- _.
Qed.

Lemma read_config_lines_cons cfg raw lines
    (st : list (string * string) * list (string * limit)) :
  read_config_lines limit re_compiles py_float cfg (raw :: lines) st
  = rbind (read_config_line limit re_compiles py_float cfg raw st)
      (read_config_lines limit re_compiles py_float cfg lines).
Proof. reflexivity. Qed.

Lemma read_config_lines_rules cfg lines d lims d' lims' :
  read_config_lines limit re_compiles py_float cfg lines (d, lims)
  = Ok (d', lims') →
  d' = foldl (λ d rc, dict_set rc.1 rc.2 d) d (config_rules lines)
  ∧ Forall (λ rc, rc.2 ≠ "Total" ∧ rc.2 ≠ "Misc") (config_rules lines).
Proof.
  revert d lims. induction lines as [|raw lines IH]; intros d lims.
  - by intros [= <- <-].
  - rewrite read_config_lines_cons.
    destruct (read_config_line limit re_compiles py_float cfg raw (d, lims))
      as [[d1 lims1]|] eqn:Hline; [|done].
    simpl. intros Hrest.
    apply read_config_line_ok in Hline
      as (regex & category & Hr & Hc & H1 & H2 & ->).
    rewrite Hr, Hc. simpl. destruct (IH _ _ Hrest) as [-> Hall].
    split; [done|]. by constructor.
Qed.

Lemma foldl_dict_set_Forall (P : string * string → Prop)
    (rules d : list (string * string)) :
  Forall P rules → Forall P d →
  Forall P (foldl (λ d rc, dict_set rc.1 rc.2 d) d rules).
Proof.
  intros Hrules. revert d.
  induction Hrules as [|[r c] rules Hrc Hrules IH]; intros d Hd; simpl; [done|].
  apply IH. by apply dict_set_Forall.
Qed.

Lemma foldl_dict_set_fresh (rules d : list (string * string)) :
  NoDup (dict_keys d ++ dict_keys rules) →
  foldl (λ d rc, dict_set rc.1 rc.2 d) d rules = (d ++ rules)%list.
Proof.
  revert d. induction rules as [|[r c] rules IH]; intros d Hnd; simpl.
  - by rewrite app_nil_r.
  - unfold dict_keys in *. simpl in Hnd.
    rewrite dict_set_fresh.
    + rewrite IH; [by rewrite <- app_assoc|].
      rewrite fmap_app. simpl. rewrite <- app_assoc. done.
    + apply NoDup_app in Hnd as (_ & Hdis & _). intros Hin.
      apply (Hdis r Hin). by left.
Qed.

Lemma foldl_dict_set_keys (rules d : list (string * string)) :
  dict_keys (foldl (λ d rc, dict_set rc.1 rc.2 d) d rules)
  = foldl (λ seen r, if decide (r ∈ seen) then seen else (seen ++ [r])%list)
      (dict_keys d) (dict_keys rules).
Proof.
  revert d. induction rules as [|[r c] rules IH]; intros d; simpl; [done|].
  by rewrite IH, dict_set_keys_step.
Qed.

Lemma read_config_keys cfg total lines rcd lims :
  read_config limit re_compiles py_float cfg total lines = Ok (rcd, lims) →
  dict_keys rcd = first_appearance (dict_keys (config_rules lines)).
Proof.
  unfold read_config.
  destruct (read_config_lines _ _ _ _ _ _) as [[d l]|] eqn:Hlines; [|done].
  simpl. intros [= <- <-].
  apply read_config_lines_rules in Hlines as [-> _].
  apply foldl_dict_set_keys.
Qed.

Lemma read_config_rules cfg total lines rcd lims :
  read_config limit re_compiles py_float cfg total lines = Ok (rcd, lims) →
  ("Total" ∉ dict_values rcd) ∧ ("Misc" ∉ dict_values rcd)
  ∧ (NoDup (dict_keys (config_rules lines)) → rcd = config_rules lines).
Proof.
  unfold read_config.
  destruct (read_config_lines _ _ _ _ _ _) as [[d l]|] eqn:Hlines; [|done].
  simpl. intros [= <- <-].
  apply read_config_lines_rules in Hlines as [-> Hall].
  assert (Hres : Forall (λ rc : string * string, rc.2 ≠ "Total" ∧ rc.2 ≠ "Misc")
                   (foldl (λ d rc, dict_set rc.1 rc.2 d) [] (config_rules lines)))
    by (by apply foldl_dict_set_Forall).
  rewrite Forall_forall in Hres. unfold dict_values. repeat split.
  - intros (rc & Heq & Hin)%list_elem_of_fmap.
    destruct (Hres rc Hin) as [? _]. congruence.
  - intros (rc & Heq & Hin)%list_elem_of_fmap.
    destruct (Hres rc Hin) as [_ ?]. congruence.
  - intros Hnd. by rewrite foldl_dict_set_fresh.
Qed.

End loaded_rules.

(** ** The aggregate of an account *)

Section aggregate_facts.
Context {A : Type} `{Number A}.
Variable re_search : string → string → bool.

Lemma categorize_record_buckets cfg rcd i e loc ce uncat fs ce' uncat' fs' :
  categorize_record re_search cfg rcd i (e, loc) (ce, uncat) fs
  = (Ok (ce', uncat'), fs') →
  "Total" ∉ dict_values rcd →
  ∃ cat,
    cat = choose_category (matched_categories re_search rcd loc)
    ∧ cat ≠ "Total"
    ∧ (cat = "Misc" ∨ cat ∈ dict_values rcd)
    ∧ ∀ c m,
        bucket_at ce' c m
        = if decide ((c = cat ∨ c = "Total") ∧ m = i)
          then nadd (bucket_at ce c m) e
          else bucket_at ce c m.
Proof.
  intros (ce1 & Hadd1 & Hadd2 & _ & _)%categorize_record_ok Hrcd.
  pose proof (choose_category_not_total re_search rcd loc Hrcd) as Hcat.
  eexists. split; [done|]. split; [done|].
  split; [apply choose_category_elem|].
  intros c m.
  rewrite (bucket_at_add _ _ _ _ _ c m Hadd2),
          (bucket_at_add _ _ _ _ _ c m Hadd1).
  repeat case_decide; try done; exfalso; intuition (subst; congruence).
Qed.

Lemma record_keeps_lengths rcd (n : nat) :
  kept_by_records re_search rcd (λ ce, Forall (λ cl, length cl.2 = n) ce).
Proof.
  intros cfg i [e loc] [ce uncat] fs [ce' uncat'] fs' Hstep Hlen.
  simpl in Hlen |- *.
  apply categorize_record_ok in Hstep as (ce1 & Hadd1 & Hadd2 & _ & _).
  eapply bucket_add_lengths; [done|]. by eapply bucket_add_lengths.
Qed.

Context `{!ExactNumber A}.

Lemma record_keeps_aggregate rcd (n : nat) :
  "Total" ∉ dict_values rcd →
  kept_by_records re_search rcd (aggregate_ok n).
Proof.
  intros Hrcd cfg i [e loc] [ce uncat] fs [ce' uncat'] fs' Hstep [Hlen Hsum].
  simpl in Hlen, Hsum |- *. split.
  - by eapply (record_keeps_lengths rcd n _ _ _ (ce, uncat) _ (ce', uncat')).
  - apply categorize_record_ok in Hstep as (ce1 & Hadd1 & Hadd2 & _ & _).
    pose proof (choose_category_not_total re_search rcd loc Hrcd) as Hcat.
    intros m.
    rewrite (bucket_sum_add_total _ _ _ _ m Hadd2).
    rewrite (bucket_sum_add_cat _ _ _ _ _ m Hadd1 Hcat).
    rewrite (bucket_at_add _ _ _ _ _ "Total" m Hadd2).
    rewrite (bucket_at_add _ _ _ _ _ "Total" m Hadd1).
    rewrite Hsum.
    repeat case_decide; try done; exfalso; intuition (subst; congruence).
Qed.

Lemma empty_buckets_replicate (cats : list string) (n : nat) :
  Forall (λ cl : string * list A, cl.2 = replicate n nzero)
    (empty_buckets cats n).
Proof.
  unfold empty_buckets.
  assert (Hgen : ∀ d : list (string * list A),
            Forall (λ cl, cl.2 = replicate n nzero) d →
            Forall (λ cl, cl.2 = replicate n nzero)
              (foldl (λ ce c, dict_set c (replicate n nzero) ce) d cats)).
  { induction cats as [|c cats IH]; intros d Hd; simpl; [done|].
    apply IH. by apply dict_set_Forall. }
  by apply Hgen.
Qed.

Lemma replicate_zero_lookup (n j : nat) :
  default nzero (replicate n (nzero : A) !! j) = nzero.
Proof.
  destruct (replicate n nzero !! j) as [x|] eqn:Hj; [|done].
  by apply lookup_replicate in Hj as [-> _].
Qed.

Lemma empty_buckets_ok (cats : list string) (n : nat) :
  aggregate_ok n (empty_buckets cats n).
Proof.
  pose proof (empty_buckets_replicate cats n) as Hall. split.
  - eapply Forall_impl; [done|]. intros [c l] ->. simpl.
    by rewrite length_replicate.
  - intros m. rewrite bucket_sum_zero.
    + unfold bucket_at.
      destruct (dict_get "Total" (empty_buckets cats n)) as [l|] eqn:Hl; [|done].
      apply (dict_get_Forall _ _ _ _ Hall) in Hl. simpl in Hl. subst l.
      simpl. by rewrite replicate_zero_lookup.
    + eapply Forall_impl; [done|]. intros [c l] -> j. simpl.
      apply replicate_zero_lookup.
Qed.

End aggregate_facts.

Section init_ok.
Context {A : Type} `{Number A} {limit : Type}.
Variable re_compiles : string → bool.
Variable re_search : string → string → bool.
Variable py_float : string → option limit.

(** what a construction that returns has gone through *)
Lemma init_ok lines cfg lbl total intersect
    (accs : list (string * account A)) fs self fs' :
  ExpenseHistoryAnalyzer_init limit re_compiles re_search py_float
    lines cfg lbl total intersect accs fs = (Ok self, fs') →
  ∃ cats lims ds dat fs1,
    read_config limit re_compiles py_float cfg total lines = Ok (cats, lims)
    ∧ self = Analyzer lbl cfg total accs cats lims
               (dict_values cats ++ ["Misc"; "Total"])%list ds dat
    ∧ categorize_accounts limit re_search
        (Analyzer lbl cfg total accs cats lims
           (dict_values cats ++ ["Misc"; "Total"])%list ds [])
        (dict_values accs) [] fs1 = (Ok dat, fs').
Proof.
  unfold ExpenseHistoryAnalyzer_init. intros Hinit.
  apply mbindM_ok in Hinit as ([cats lims] & fs0 & [Hrc ->]%mlift_ok & Hinit).
  apply mbindM_ok in Hinit as (ds & fs1 & [Hds ->]%mlift_ok & Hinit).
  apply mbindM_ok in Hinit as ([] & fs2 & _ & Hinit).
  apply mbindM_ok in Hinit as (dat & fs3 & Hdat & Hret).
  unfold mret in Hret. injection Hret as <- <-.
  by exists cats, lims, ds, dat, fs2.
Qed.

End init_ok.

(** C1, as stated, fails for the amounts of an [AccountExpenseHistory],
    which are [float]s: with 0.1 and 2.2 under "Food" and 0.2 under "Bar" in
    one month, "Total" is (0.1 + 0.2) + 2.2 = 2.5 while the buckets add up to
    (0.1 + 2.2) + 0.2 = 2.5000000000000004. *)
Lemma float_total_differs :
  ∃ self fs' ce,
    Fragment.init (A:=float) food_bar_config "cfg" "an" 100%N true
      float_account no_files = (Ok self, fs')
    ∧ dict_get "A" (data self) = Some ce
    ∧ bucket_at ce "Total" 0 = 0x1.4p+1%float
    ∧ bucket_sum ce 0 = 0x1.4000000000001p+1%float
    ∧ PrimFloat.eqb (bucket_sum ce 0) (bucket_at ce "Total" 0) = false.
Proof.
  eexists _, _, _. split; [vm_compute; reflexivity|].
  split; [vm_compute; reflexivity|].
  repeat split; vm_compute; reflexivity.
Qed.

(** C1, as the program has it: every record that is categorized is added
    to exactly one bucket other than "Total", that of a user category or of
    "Misc", and to "Total", both at the same month index; and when the
    amounts add up exactly (whole amounts, decimals), every bucket of a
    returned aggregate has one entry per month of the date range and at every
    month index the buckets other than "Total" add up to "Total". *)
Theorem total_is_sum_of_buckets {A : Type} `{Number A} {limit : Type}
    (re_compiles : string → bool) (re_search : string → string → bool)
    (py_float : string → option limit)
    (lines : list string) (cfg lbl : string) (total : limit) (intersect : bool)
    (accs : list (string * account A)) (fs fs' : out_files)
    (self : analyzer A limit) :
  ExpenseHistoryAnalyzer_init limit re_compiles re_search py_float
    lines cfg lbl total intersect accs fs = (Ok self, fs') →
  (∀ i e loc ce uncat fs1 ce' uncat' fs1',
     categorize_record re_search (config_path self) (regex_category_dict self)
       i (e, loc) (ce, uncat) fs1 = (Ok (ce', uncat'), fs1') →
     ∃ cat,
       cat ≠ "Total"
       ∧ (cat = "Misc" ∨ cat ∈ dict_values (regex_category_dict self))
       ∧ ∀ c m,
           bucket_at ce' c m
           = if decide ((c = cat ∨ c = "Total") ∧ m = i)
             then nadd (bucket_at ce c m) e
             else bucket_at ce c m)
  ∧ (ExactNumber A →
     ∀ account_label ce,
       (account_label, ce) ∈ data self →
       aggregate_ok (length (a_dates self)) ce).
Proof.
  intros (cats & lims & ds & dat & fs1 & Hrc & -> & Hdat)%init_ok.
  destruct (read_config_rules _ _ _ _ _ _ _ Hrc) as (Htotal & _ & _).
  simpl. split.
  - intros i e loc ce uncat fs2 ce' uncat' fs2' Hstep.
    destruct (categorize_record_buckets _ _ _ _ _ _ _ _ _ _ _ _ Hstep Htotal)
      as (cat & _ & ? & ? & ?).
    by exists cat.
  - intros Hexact account_label ce Hin.
    eapply categorize_accounts_kept in Hdat.
    + rewrite Forall_forall in Hdat. apply (Hdat _ Hin).
    + simpl. by apply record_keeps_aggregate.
    + simpl. apply empty_buckets_ok.
    + constructor.
Qed.

Lemma total_is_sum_of_buckets_witness :
  aggregate_ok 1
    [("Food", [1%Z]); ("Bar", [0%Z]); ("Misc", [2%Z]); ("Total", [3%Z])].
Proof.
  destruct (total_is_sum_of_buckets (A:=Z) Fragment.compiles Fragment.search
              Fragment.float_digits food_bar_config "cfg" "an" 100%N true
              two_accounts no_files _ _ eq_refl) as [_ Hsum].
  apply (Hsum _ "A"). vm_compute. set_solver.
Defined.

(** ** Collisions and uncategorized locations *)

Lemma filter_head_split {B} (P : B → Prop) `{∀ x, Decision (P x)}
    (l : list B) (x : B) (rest : list B) :
  filter P l = x :: rest →
  ∃ before after,
    l = (before ++ x :: after)%list ∧ P x ∧ Forall (λ y, ¬ P y) before.
Proof.
  induction l as [|y l IH]; [done|]. rewrite filter_cons.
  destruct (decide (P y)) as [Hy|Hy].
  - intros [= -> <-]. by exists [], l.
  - intros (before & after & -> & Hx & Hb)%IH.
    exists (y :: before), after. repeat split; [done|]. by constructor.
Qed.

Lemma first_matching_rule_head (re_search : string → string → bool)
    (rcd : list (string * string)) (loc c : string) (cats : list string) :
  matched_categories re_search rcd loc = c :: cats →
  first_matching_rule re_search rcd loc c.
Proof.
  unfold matched_categories. intros Hm.
  destruct (filter _ rcd) as [|[r c'] rest] eqn:Hf; [done|].
  simpl in Hm. injection Hm as -> _.
  apply filter_head_split in Hf as (before & after & -> & Hr & Hb).
  exists before, r, after. repeat split; [done|].
  eapply Forall_impl; [done|]. intros rc Hrc. simpl in Hrc.
  by destruct (re_search rc.1 loc).
Qed.

(** C2, as stated, fails when a pattern is repeated in the configuration:
    the rule keeps the place of its first line and takes the category of its
    last.  With the lines A/FOO, B/BAR, C/FOO the location FOOBAR is counted
    under "C", the category of the third line, although the first line and
    the second line match it too. *)
Lemma repeated_regex_first_match :
  Fragment.read_config "cfg" 100%N repeated_regex_config
  = Ok ([("FOO", "C"); ("BAR", "B")], [("A", 1); ("B", 1); ("C", 1); ("Total", 100)]%N)
  ∧ first_matching_line Fragment.search repeated_regex_config "FOOBAR"
    = Some "A"
  ∧ ∃ self fs',
      Fragment.init (A:=Z) repeated_regex_config "cfg" "an" 100%N true
        [("a", Account "A" "pa" ["2023_01"] [[(5%Z, "FOOBAR")]])] no_files
      = (Ok self, fs')
      ∧ data self
        = [("A", [("C", [5%Z]); ("B", [0%Z]); ("Misc", [0%Z]); ("Total", [5%Z])])]
      ∧ regex_collisions_txt fs' = collision_entry "cfg" "FOOBAR" ["C"; "B"].
Proof.
  split; [vm_compute; reflexivity|]. split; [vm_compute; reflexivity|].
  eexists _, _. split; [vm_compute; reflexivity|].
  split; vm_compute; reflexivity.
Qed.

(** C2, as the program has it: a location found by more than one rule is
    counted under exactly one bucket, that of the first matching rule in the
    order of the rule collection (the order in which the patterns first
    appear in the configuration: the order of its lines when no pattern is
    repeated), and one entry is appended to the collision report with the
    configuration path, the location and every matched category; a location
    found by no rule is counted under "Misc" and joins the set of
    uncategorized locations of the account. *)
Theorem collision_and_uncategorized {A : Type} `{Number A} {limit : Type}
    (re_compiles : string → bool) (re_search : string → string → bool)
    (py_float : string → option limit)
    (lines : list string) (cfg : string) (total : limit)
    (rcd : list (string * string)) (lims : list (string * limit))
    (i : nat) (e : A) (loc : string)
    (ce ce' : list (string * list A)) (uncat uncat' : gset string)
    (fs fs' : out_files) :
  read_config limit re_compiles py_float cfg total lines = Ok (rcd, lims) →
  categorize_record re_search cfg rcd i (e, loc) (ce, uncat) fs
  = (Ok (ce', uncat'), fs') →
  let cats := matched_categories re_search rcd loc in
  let cat := choose_category cats in
  dict_keys rcd = first_appearance (dict_keys (config_rules lines))
  ∧ (cat ≠ "Total"
     ∧ ∀ c m,
         bucket_at ce' c m
         = if decide ((c = cat ∨ c = "Total") ∧ m = i)
           then nadd (bucket_at ce c m) e
           else bucket_at ce c m)
  ∧ ((1 < length cats)%nat →
     first_matching_rule re_search rcd loc cat
     ∧ (NoDup (dict_keys (config_rules lines)) →
        first_matching_line re_search lines loc = Some cat)
     ∧ regex_collisions_txt fs'
       = regex_collisions_txt fs +:+ collision_entry cfg loc cats
     ∧ uncategorized_txt fs' = uncategorized_txt fs
     ∧ uncat' = uncat)
  ∧ (cats = [] →
     cat = "Misc" ∧ uncat' = {[loc]} ∪ uncat ∧ loc ∈ uncat'
     ∧ NoDup (elements uncat') ∧ fs' = fs).
Proof.
  intros Hrc Hstep cats cat.
  destruct (read_config_rules _ _ _ _ _ _ _ Hrc) as (Htotal & _ & Hlines).
  split; [by eapply read_config_keys|]. split; [|split].
  - destruct (categorize_record_buckets _ _ _ _ _ _ _ _ _ _ _ _ Hstep Htotal)
      as (cat' & -> & ? & _ & ?).
    done.
  - intros Hlen.
    apply categorize_record_ok in Hstep as (ce1 & _ & _ & -> & ->).
    fold cats. rewrite decide_True by done. simpl.
    subst cat. destruct cats as [|c cats'] eqn:Hcats; [simpl in Hlen; lia|].
    simpl. repeat split.
    + by eapply first_matching_rule_head.
    + intros Hnd. unfold first_matching_line.
      rewrite <- (Hlines Hnd). fold cats. by rewrite Hcats.
  - intros Hnil.
    apply categorize_record_ok in Hstep as (ce1 & _ & _ & -> & ->).
    fold cats. subst cat. rewrite Hnil. simpl.
    repeat split; [set_solver|apply NoDup_elements].
Qed.

Lemma collision_and_uncategorized_witness :
  first_matching_rule Fragment.search [("FOO.*", "Food"); (".*BAR", "Bar")]
    "FOOBAR" "Food"
  ∧ first_matching_line Fragment.search food_bar_config "FOOBAR" = Some "Food".
Proof.
  destruct (collision_and_uncategorized (A:=Z) Fragment.compiles
              Fragment.search Fragment.float_digits food_bar_config "cfg" 100%N
              [("FOO.*", "Food"); (".*BAR", "Bar")]
              [("Food", 50); ("Bar", 20); ("Total", 100)]%N
              0 5%Z "FOOBAR"
              [("Food", [0%Z]); ("Bar", [0%Z]); ("Misc", [0%Z]); ("Total", [0%Z])]
              [("Food", [5%Z]); ("Bar", [0%Z]); ("Misc", [0%Z]); ("Total", [5%Z])]
              ∅ ∅ no_files
              (OutFiles (collision_entry "cfg" "FOOBAR" ["Food"; "Bar"]) EmptyString))
    as (_ & _ & Hcollision & _).
  - reflexivity.
  - reflexivity.
  - destruct Hcollision as (Hrule & Hline & _).
    + vm_compute. lia.
    + split; [exact Hrule|]. apply Hline. vm_compute.
      apply NoDup_cons. split; [|apply NoDup_singleton].
      intros Heq%list_elem_of_singleton. discriminate Heq.
Defined.

(** ** The categorization returns *)

Lemma mbindM_run {A B} (m : M A) (k : A → M B) (fs fs1 : out_files) (a : A) :
  m fs = (Ok a, fs1) → mbindM m k fs = k a fs1.
Proof. unfold mbindM. by intros ->. Qed.

Lemma ltb_asym (x y : string) :
  String.ltb x y = true → String.ltb y x = true → False.
Proof.
  unfold String.ltb. rewrite (String.compare_antisym x y).
  by destruct (String.compare y x).
Qed.

Lemma advance_from_returns (ds : list string) (date : string) (i : nat) :
  date ∈ ds →
  ∃ j, advance_from ds date i = Ok j ∧ (i ≤ j)%nat
       ∧ ds !! (j - i)%nat = Some date.
Proof.
  revert i. induction ds as [|d ds IH]; intros i Hin; [by apply elem_of_nil in Hin|].
  simpl. destruct (decide (d ≠ date)) as [Hne|Heq].
  - apply elem_of_cons in Hin as [->|Hin]; [done|].
    destruct (IH (S i) Hin) as (j & -> & Hle & Hj). exists j.
    split; [done|]. split; [lia|].
    replace (j - i)%nat with (S (j - S i)) by lia. done.
  - apply dec_stable in Heq as ->. exists i. rewrite Nat.sub_diag. by repeat split.
Qed.

Lemma advance_returns (self_dates : list string) (date : string) (i j0 : nat) :
  self_dates !! j0 = Some date → (i ≤ j0)%nat →
  ∃ j, advance self_dates date i = Ok j ∧ (i ≤ j)%nat
       ∧ self_dates !! j = Some date.
Proof.
  intros Hj0 Hle. unfold advance.
  destruct (advance_from_returns (drop i self_dates) date i)
    as (j & Hadv & Hij & Hj).
  - apply list_elem_of_lookup. exists (j0 - i)%nat.
    rewrite lookup_drop. by replace (i + (j0 - i))%nat with j0 by lia.
  - exists j. split; [done|]. split; [done|].
    rewrite lookup_drop in Hj. by replace (i + (j - i))%nat with j in Hj by lia.
Qed.

Section returns.
Context {A : Type} `{Number A} {limit : Type}.
Variable re_search : string → string → bool.
Implicit Types (ce : list (string * list A)) (uncat : gset string).

Lemma bucket_add_returns cats n cat i e ce :
  buckets_for cats n ce → cat ∈ cats → (i < n)%nat →
  ∃ ce', bucket_add cat i e ce = Ok ce' ∧ buckets_for cats n ce'.
Proof.
  intros Hce Hcat Hi. destruct (Hce cat Hcat) as (l & Hl & Hlen).
  destruct (lookup_lt_is_Some_2 l i) as [x Hx]; [lia|].
  unfold bucket_add, dict_lookup, py_index. rewrite Hl. simpl. rewrite Hx. simpl.
  eexists. split; [done|]. intros c Hc.
  destruct (decide (c = cat)) as [->|Hne].
  - rewrite dict_get_set_eq. eexists. split; [done|]. by rewrite length_insert.
  - rewrite dict_get_set_ne by done. by apply Hce.
Qed.

Lemma categorize_record_returns cfg rcd cats n i rec ce uncat fs :
  buckets_for cats n ce → (i < n)%nat →
  "Total" ∈ cats → "Misc" ∈ cats → dict_values rcd ⊆ cats →
  ∃ ce' uncat' fs',
    categorize_record re_search cfg rcd i rec (ce, uncat) fs
    = (Ok (ce', uncat'), fs')
    ∧ buckets_for cats n ce'.
Proof.
  intros Hce Hi Htotal Hmisc Hrcd. destruct rec as [e loc].
  assert (Hcat : choose_category (matched_categories re_search rcd loc) ∈ cats).
  { destruct (choose_category_elem re_search rcd loc) as [->|Hin]; auto. }
  destruct (bucket_add_returns cats n _ i e ce Hce Hcat Hi) as (ce1 & Hadd1 & Hce1).
  destruct (bucket_add_returns cats n _ i e ce1 Hce1 Htotal Hi)
    as (ce2 & Hadd2 & Hce2).
  unfold categorize_record.
  destruct (decide (1 < length (matched_categories re_search rcd loc))%nat).
  - eexists _, _, _. split; [|done].
    unfold mbindM, append_collisions, mlift, mret. by rewrite Hadd1, Hadd2.
  - eexists _, _, _. split; [|done].
    unfold mbindM, mlift, mret. by rewrite Hadd1, Hadd2.
Qed.

Lemma categorize_month_returns cfg rcd cats n i month ce uncat fs :
  buckets_for cats n ce → (i < n)%nat →
  "Total" ∈ cats → "Misc" ∈ cats → dict_values rcd ⊆ cats →
  ∃ ce' uncat' fs',
    categorize_month re_search cfg rcd i month (ce, uncat) fs
    = (Ok (ce', uncat'), fs')
    ∧ buckets_for cats n ce'.
Proof.
  intros Hce Hi Htotal Hmisc Hrcd. revert ce uncat fs Hce.
  induction month as [|rec month IH]; intros ce uncat fs Hce; simpl.
  - by eexists _, _, _.
  - destruct (categorize_record_returns cfg rcd cats n i rec ce uncat fs)
      as (ce1 & uncat1 & fs1 & Hrec & Hce1); [done..|].
    rewrite (mbindM_run _ _ _ _ _ Hrec). by apply IH.
Qed.

Lemma categorize_months_returns (self : analyzer A limit) (acc : account A)
    (k len i : nat) ce uncat fs :
  let cats := categories self in
  let n := length (a_dates self) in
  buckets_for cats n ce →
  "Total" ∈ cats → "Misc" ∈ cats →
  dict_values (regex_category_dict self) ⊆ cats →
  ascending (a_dates self) → account_ok acc →
  (k + len = length (dates acc))%nat →
  (∀ a j d, (k ≤ a)%nat → dates acc !! a = Some d →
            a_dates self !! j = Some d → (i ≤ j)%nat) →
  ∃ st' fs',
    categorize_months limit re_search self acc (list_to_set (a_dates self))
      (seq k len) (ce, uncat) i fs = (Ok st', fs').
Proof.
  intros cats n Hce Htotal Hmisc Hrcd Hself [Hacc Hexp].
  revert k i ce uncat fs Hce.
  induction len as [|len IH]; intros k i ce uncat fs Hce Hk Hpos; simpl.
  - by eexists _, _.
  - destruct (lookup_lt_is_Some_2 (dates acc) k) as [d Hd]; [lia|].
    unfold py_index at 1. rewrite Hd.
    rewrite (mbindM_run _ _ fs fs d) by done.
    destruct (decide (d ∉ (list_to_set (a_dates self) : gset string)))
      as [Hnin|Hin].
    + apply IH; [done|lia|]. intros a j d' Ha. apply Hpos. lia.
    + apply dec_stable in Hin. apply elem_of_list_to_set in Hin.
      apply list_elem_of_lookup in Hin as [j0 Hj0].
      destruct (advance_returns (a_dates self) d i j0 Hj0) as (j & Hadv & Hij & Hj).
      { by eapply (Hpos k). }
      rewrite (mbindM_run _ _ fs fs j) by (unfold mlift; by rewrite Hadv).
      destruct (lookup_lt_is_Some_2 (expenses acc) k) as [month Hmonth]; [lia|].
      rewrite (mbindM_run _ _ fs fs month)
        by (unfold mlift, py_index; by rewrite Hmonth).
      destruct (categorize_month_returns (config_path self)
                  (regex_category_dict self) cats n j month ce uncat fs)
        as (ce1 & uncat1 & fs1 & Hrun & Hce1); [done| |done..|].
      { by eapply lookup_lt_Some. }
      rewrite (mbindM_run _ _ _ _ _ Hrun).
      apply IH; [done|lia|].
      intros a j' d' Ha Hd' Hj'.
      destruct (decide (j ≤ j')%nat) as [|Hlt]; [done|]. exfalso.
      assert (Hdd' : String.ltb d d' = true) by (eapply (Hacc k a); [done..|lia]).
      assert (Hd'd : String.ltb d' d = true) by (eapply (Hself j' j); [done..|lia]).
      by eapply ltb_asym.
Qed.

End returns.

Section init_returns.
Context {A : Type} `{Number A} {limit : Type}.
Variable re_compiles : string → bool.
Variable re_search : string → string → bool.
Variable py_float : string → option limit.

Lemma foldl_dict_set_get (v : list A) (cats : list string) (c : string)
    (d : list (string * list A)) :
  c ∈ cats ∨ is_Some (dict_get c d) →
  is_Some (dict_get c (foldl (λ ce c, dict_set c v ce) d cats)).
Proof.
  revert d. induction cats as [|c0 cats IH]; intros d; simpl.
  - by intros [?%elem_of_nil|?].
  - intros Hc. apply IH. destruct (decide (c = c0)) as [->|Hne].
    + right. by rewrite dict_get_set_eq.
    + destruct Hc as [[->|?]%elem_of_cons|?]; [done|by left|].
      right. by rewrite dict_get_set_ne.
Qed.

Lemma empty_buckets_for (cats : list string) (n : nat) :
  buckets_for (A:=A) cats n (empty_buckets cats n).
Proof.
  intros c Hc.
  destruct (foldl_dict_set_get (replicate n nzero) cats c []) as [l Hl];
    [by left|].
  exists l. split; [done|].
  pose proof (empty_buckets_replicate cats n) as Hall.
  apply (dict_get_Forall _ _ _ _ Hall) in Hl. simpl in Hl. subst l.
  by rewrite length_replicate.
Qed.

Lemma categorize_history_returns (self : analyzer A limit) (acc : account A)
    (fs : out_files) :
  "Total" ∈ categories self → "Misc" ∈ categories self →
  dict_values (regex_category_dict self) ⊆ categories self →
  ascending (a_dates self) → account_ok acc →
  ∃ ce fs', categorize_history limit re_search self acc fs = (Ok ce, fs').
Proof.
  intros Htotal Hmisc Hrcd Hself Hacc.
  destruct (categorize_months_returns re_search self acc 0
              (length (dates acc)) 0
              (empty_buckets (categories self) (length (a_dates self))) ∅ fs)
    as ([ce uncat] & fs1 & Hrun); [apply empty_buckets_for|done..|lia|].
  unfold categorize_history, categorize_history_with, mbindM.
  rewrite Hrun. by eexists _, _.
Qed.

Lemma categorize_accounts_returns (self : analyzer A limit)
    (accs : list (account A)) dat (fs : out_files) :
  "Total" ∈ categories self → "Misc" ∈ categories self →
  dict_values (regex_category_dict self) ⊆ categories self →
  ascending (a_dates self) → Forall account_ok accs →
  ∃ dat' fs',
    categorize_accounts limit re_search self accs dat fs = (Ok dat', fs').
Proof.
  intros Htotal Hmisc Hrcd Hself Haccs. revert dat fs.
  induction Haccs as [|acc accs Hacc _ IH]; intros dat fs; simpl.
  - by eexists _, _.
  - destruct (categorize_history_returns self acc fs) as (ce & fs1 & Hrun);
      [done..|].
    rewrite (mbindM_run _ _ _ _ _ Hrun). apply IH.
Qed.

(** the construction returns an analyzer for a configuration that loads and
    accounts as documented, at least one of them when their dates are
    intersected *)
Lemma init_returns lines cfg lbl total intersect
    (accs : list (string * account A)) rules fs :
  read_config limit re_compiles py_float cfg total lines = Ok rules →
  (intersect = true → accs ≠ []) →
  Forall account_ok (dict_values accs) →
  ∃ self fs',
    ExpenseHistoryAnalyzer_init limit re_compiles re_search py_float
      lines cfg lbl total intersect accs fs = (Ok self, fs').
Proof.
  intros Hrc Hne Haccs. destruct rules as [cats lims].
  assert (Hds : ∃ ds,
            (if intersect then find_date_range_intersection accs
             else Ok (find_date_range_union accs)) = Ok ds
            ∧ ascending ds).
  { destruct intersect.
    - destruct accs as [|[k acc] rest]; [by destruct Hne|].
      eexists. split; [done|]. apply sorted_list_ascending.
    - eexists. split; [done|]. apply sorted_list_ascending. }
  destruct Hds as (ds & Hds & Hasc).
  unfold ExpenseHistoryAnalyzer_init.
  rewrite (mbindM_run _ _ fs fs (cats, lims)) by (unfold mlift; by rewrite Hrc).
  rewrite (mbindM_run _ _ fs fs ds) by (unfold mlift; by rewrite Hds).
  rewrite (mbindM_run _ _ fs _ ()) by reflexivity.
  match goal with
  | |- context [categorize_accounts _ _ ?self ?accs ?dat] =>
      destruct (categorize_accounts_returns self accs dat
                  (OutFiles (regex_collisions_txt fs)
                     (line_of ("Using config file: " +:+ cfg))))
        as (dat' & fs' & Hrun)
  end; simpl.
  - apply elem_of_app. right. set_solver.
  - apply elem_of_app. right. set_solver.
  - intros c Hc. apply elem_of_app. by left.
  - done.
  - done.
  - rewrite (mbindM_run _ _ _ _ _ Hrun). by eexists _, _.
Qed.

End init_returns.

(** * Further properties of the program *)

(** ** The files of an account *)

Lemma sorted_nodup_ascending (l : list string) :
  StronglySorted String.le l → NoDup l → ascending l.
Proof.
  intros Hs Hnd i j x y Hi Hj Hlt. apply str_le_neq_ltb.
  - by eapply (StronglySorted_lookup_le String.le).
  - intros <-. pose proof (NoDup_lookup _ _ _ _ Hnd Hi Hj). lia.
Qed.

(** X1: [extract_files] returns the entries of the directory that do not
    start with a dot, each as often as it is listed, in ascending order; for
    a listing without repeated names the order is strict. *)
Theorem extract_files_sorted_visible (listing : list string) :
  Sorted String.le (extract_files listing)
  ∧ extract_files listing ≡ₚ filter (λ file, is_hidden file = false) listing
  ∧ (∀ file, file ∈ extract_files listing
             ↔ file ∈ listing ∧ is_hidden file = false)
  ∧ (NoDup listing → ascending (extract_files listing)).
Proof.
  unfold extract_files. split; [|split; [|split]].
  - apply Sorted_merge_sort. apply _.
  - apply merge_sort_Permutation.
  - intros file. by rewrite merge_sort_Permutation, list_elem_of_filter, (comm and).
  - intros Hnd. apply sorted_nodup_ascending.
    + apply StronglySorted_merge_sort; apply _.
    + rewrite merge_sort_Permutation. by apply NoDup_filter.
Qed.

Lemma extract_files_sorted_visible_witness :
  ascending (extract_files ["2023_02.csv"; ".DS_Store"; "2023_01.csv"]).
Proof.
  apply (extract_files_sorted_visible ["2023_02.csv"; ".DS_Store"; "2023_01.csv"]).
  apply (bool_decide_unpack _). vm_compute. exact I.
Defined.

(** ** File names, audit and dates together *)

Lemma well_named_year_month (file : string) :
  well_named file ↔ ∃ ym, year_month file = Ok ym.
Proof.
  split; [|intros [ym Hym]; by eapply year_month_length].
  unfold well_named, year_month, p_findall.
  pose proof (findall_go_runs None file) as Hruns.
  destruct (findall_go None file) as [|sy [|sm [|]]]; try done.
  assert (Hall : Forall (λ r, is_run r = true) [sy; sm]) by (by apply Hruns).
  apply Forall_cons in Hall as [Hy Hall]. apply Forall_cons in Hall as [Hm _].
  destruct (py_int_of_run sy Hy) as (ny & Hny & _).
  destruct (py_int_of_run sm Hm) as (nm & Hnm & _).
  intros _. exists (ny, nm). simpl. by rewrite Hny, Hnm.
Qed.

Lemma extract_date_year_month (file : string) :
  extract_date file
  = match year_month file with
    | Ok ym => Ok (date_of ym)
    | Raise _ => Raise ValueError
    end.
Proof.
  unfold extract_date, year_month, unpack_year_month, date_of.
  destruct (p_findall file) as [|sy [|sm [|]]]; try done. simpl.
  unfold py_int.
  destruct sy; [done|]. destruct (NilEmpty.uint_of_string _); [|done]. simpl.
  destruct sm; [done|]. by destruct (NilEmpty.uint_of_string _).
Qed.

Lemma extract_dates_imap (files : list string) (g : nat → N * N) :
  (∀ i file, files !! i = Some file → year_month file = Ok (g i)) →
  extract_dates files = Ok (imap (λ i _, date_of (g i)) files).
Proof.
  revert g. induction files as [|file files IH]; intros g Hg; [done|].
  simpl. rewrite extract_date_year_month, (Hg 0%nat file) by done. simpl.
  rewrite (IH (g ∘ S)); [done|]. intros i f Hi. by apply (Hg (S i)).
Qed.

Lemma extract_dates_raises (files : list string) (file : string) :
  file ∈ files → ¬ well_named file → extract_dates files = Raise ValueError.
Proof.
  intros Hin Hbad. induction files as [|f files IH]; [by apply elem_of_nil in Hin|].
  simpl. rewrite extract_date_year_month.
  destruct (year_month f) as [ym|e] eqn:Hf; [|done]. simpl.
  apply elem_of_cons in Hin as [->|Hin].
  - exfalso. apply Hbad. apply well_named_year_month. eauto.
  - by rewrite IH.
Qed.

(** X2: [extract_dates] returns exactly when [p] finds two runs in every
    file name, with one date per file, that of the year and month its name
    reads as; otherwise it raises [ValueError]. *)
Theorem extract_dates_well_named (files : list string) :
  (Forall well_named files →
   ∃ ds, extract_dates files = Ok ds
         ∧ length ds = length files
         ∧ ∀ i file, files !! i = Some file →
                     ∃ ym, year_month file = Ok ym ∧ ds !! i = Some (date_of ym))
  ∧ (¬ Forall well_named files → extract_dates files = Raise ValueError).
Proof.
  split.
  - intros Hall.
    assert (Hg : ∃ g : nat → N * N,
              ∀ i file, files !! i = Some file → year_month file = Ok (g i)).
    { induction Hall as [|file files [ym Hym]%well_named_year_month _ [g Hg]].
      - by exists (λ _, (0, 0)%N).
      - exists (λ i, match i with O => ym | S i' => g i' end).
        intros [|i] f; simpl; [by intros [= <-]|apply Hg]. }
    destruct Hg as [g Hg]. rewrite (extract_dates_imap files g Hg).
    eexists. split; [done|]. split; [by rewrite length_imap|].
    intros i file Hi. exists (g i). split; [by apply Hg|].
    by rewrite list_lookup_imap, Hi.
  - intros Hbad. apply not_Forall_Exists in Hbad; [|intros f; apply _].
    apply Exists_exists in Hbad as (file & Hin & Hfile).
    by eapply extract_dates_raises.
Qed.

Lemma extract_dates_well_named_witness :
  ∃ ds, extract_dates ["2023_01.csv"; "2023_02.csv"] = Ok ds
        ∧ length ds = 2%nat
        ∧ ∀ i file, ["2023_01.csv"; "2023_02.csv"] !! i = Some file →
                    ∃ ym, year_month file = Ok ym ∧ ds !! i = Some (date_of ym).
Proof.
  apply (extract_dates_well_named ["2023_01.csv"; "2023_02.csv"]).
  repeat constructor.
Defined.

Lemma audit_loop_step (path : string) (ym0 : N * N) (file : string)
    (files : list string) :
  audit_loop path ym0 (file :: files)
  = match year_month file with
    | Ok ym =>
        if decide (ym = next_month ym0) then audit_loop path ym files
        else Ok true
    | Raise _ => Raise (SystemExit (BadlyFormattedFiles path (Some file)))
    end.
Proof.
  simpl. destruct (year_month file) as [[y m]|e] eqn:Hym.
  - rewrite decide_False by (by rewrite (year_month_length _ _ Hym); auto).
    fold (year_month file). rewrite Hym. simpl.
    destruct (next_month ym0) as [y0 m0].
    destruct (decide ((y, m) = (y0, m0))) as [[= -> ->]|Hne].
    + by rewrite !N.eqb_refl.
    + destruct (N.eqb_spec y y0) as [->|]; [|done].
      destruct (N.eqb_spec m m0) as [->|]; done.
  - rewrite decide_True; [done|]. intros Hlen.
    apply (proj1 (well_named_year_month file)) in Hlen as [ym Hym'].
    congruence.
Qed.

Lemma audit_first_step (path : string) (file0 : string) (files : list string) :
  audit_for_missing_data path (file0 :: files)
  = match year_month file0 with
    | Ok ym0 => audit_loop path ym0 files
    | Raise _ => Raise (SystemExit (BadlyFormattedFiles path None))
    end.
Proof.
  simpl. destruct (year_month file0) as [ym|e] eqn:Hym.
  - rewrite decide_False by (by rewrite (year_month_length _ _ Hym); auto).
    fold (year_month file0). by rewrite Hym.
  - rewrite decide_True; [done|]. intros Hlen.
    apply (proj1 (well_named_year_month file0)) in Hlen as [ym Hym'].
    congruence.
Qed.

Lemma audit_loop_raises (path : string) (ym0 : N * N) (files : list string)
    (e : exn) :
  audit_loop path ym0 files = Raise e →
  ∃ file, e = SystemExit (BadlyFormattedFiles path (Some file))
          ∧ file ∈ files ∧ ¬ well_named file.
Proof.
  revert ym0. induction files as [|f files IH]; intros ym0; [done|].
  rewrite audit_loop_step. destruct (year_month f) as [ym|e'] eqn:Hym.
  - destruct (decide _); [|done].
    intros (file & -> & Hin & Hbad)%IH. exists file.
    split; [done|]. split; [by right|done].
  - intros [= <-]. exists f. split; [done|]. split; [by left|].
    intros [ym Hym']%well_named_year_month. congruence.
Qed.

(** X3: the audit only ever fails by [sys.exit(1)] after the message on
    badly formatted files of the account's path, and only because of a file
    name in which [p] does not find two runs: the first name, or the later
    name that the message gives. *)
Theorem audit_exits_on_bad_name (path : string) (files : list string)
    (e : exn) :
  audit_for_missing_data path files = Raise e →
  ∃ bad,
    e = SystemExit (BadlyFormattedFiles path bad)
    ∧ match bad with
      | None => ∃ file0, head files = Some file0 ∧ ¬ well_named file0
      | Some file => file ∈ tail files ∧ ¬ well_named file
      end.
Proof.
  destruct files as [|file0 files]; [done|]. rewrite audit_first_step.
  destruct (year_month file0) as [ym0|e'] eqn:Hym.
  - intros (file & -> & Hin & Hbad)%audit_loop_raises. by exists (Some file).
  - intros [= <-]. exists None. split; [done|]. exists file0. split; [done|].
    intros [ym Hym']%well_named_year_month. congruence.
Qed.

Lemma audit_exits_on_bad_name_witness :
  ∃ bad,
    SystemExit (BadlyFormattedFiles "data" (Some "notes.txt"))
    = SystemExit (BadlyFormattedFiles "data" bad)
    ∧ match bad with
      | None => ∃ file0, head ["2023_01.csv"; "notes.txt"] = Some file0
                         ∧ ¬ well_named file0
      | Some file => file ∈ tail ["2023_01.csv"; "notes.txt"]
                     ∧ ¬ well_named file
      end.
Proof.
  apply (audit_exits_on_bad_name "data" ["2023_01.csv"; "notes.txt"]).
  reflexivity.
Defined.

Lemma audit_loop_false (path : string) (ym0 : N * N) (files : list string) :
  audit_loop path ym0 files = Ok false →
  ∀ i file, files !! i = Some file →
            year_month file = Ok (months_after (S i) ym0).
Proof.
  revert ym0. induction files as [|f files IH]; intros ym0 Hrun i file Hi;
    [done|].
  rewrite audit_loop_step in Hrun.
  destruct (year_month f) as [ym|e] eqn:Hym; [|done].
  destruct (decide (ym = next_month ym0)) as [->|]; [|done].
  destruct i as [|i]; simpl in Hi.
  - injection Hi as <-. done.
  - rewrite (IH _ Hrun i file Hi). unfold months_after.
    by rewrite <- Nat.iter_succ_r.
Qed.

(** X4: when the audit answers [False], every file name reads as a year
    and a month, the [i]-th file is [i] months after the first, and
    [extract_dates] returns the dates of these consecutive months. *)
Theorem audit_false_consecutive (path : string) (files : list string) :
  audit_for_missing_data path files = Ok false →
  ∃ file0 ym0,
    head files = Some file0 ∧ year_month file0 = Ok ym0
    ∧ (∀ i file, files !! i = Some file →
                 year_month file = Ok (months_after i ym0))
    ∧ extract_dates files
      = Ok (imap (λ i _, date_of (months_after i ym0)) files).
Proof.
  destruct files as [|file0 files]; [done|]. rewrite audit_first_step.
  destruct (year_month file0) as [ym0|e] eqn:Hym; [|done].
  intros Hloop. exists file0, ym0. split; [done|]. split; [done|].
  assert (Hall : ∀ i file, (file0 :: files) !! i = Some file →
                           year_month file = Ok (months_after i ym0)).
  { intros [|i] file; simpl; [by intros [= <-]|].
    by apply (audit_loop_false path). }
  split; [done|]. by apply extract_dates_imap.
Qed.

Lemma audit_false_consecutive_witness :
  ∃ file0 ym0,
    head ["2023_12.csv"; "2024_01.csv"] = Some file0
    ∧ year_month file0 = Ok ym0
    ∧ (∀ i file, ["2023_12.csv"; "2024_01.csv"] !! i = Some file →
                 year_month file = Ok (months_after i ym0))
    ∧ extract_dates ["2023_12.csv"; "2024_01.csv"]
      = Ok (imap (λ i _, date_of (months_after i ym0))
              ["2023_12.csv"; "2024_01.csv"]).
Proof.
  apply (audit_false_consecutive "data" ["2023_12.csv"; "2024_01.csv"]).
  reflexivity.
Defined.

Lemma audit_loop_true_app (path : string) (ym0 : N * N)
    (files rest : list string) :
  audit_loop path ym0 files = Ok true →
  audit_loop path ym0 (files ++ rest) = Ok true.
Proof.
  revert ym0. induction files as [|f files IH]; intros ym0; [done|].
  rewrite <- app_comm_cons, !audit_loop_step.
  destruct (year_month f) as [ym|e]; [|done].
  destruct (decide _); [apply IH|done].
Qed.

(** X5: the audit stops at the first gap.  Once some files make it answer
    [True], it answers [True] whatever files follow, without looking at their
    names; a name after the gap in which [p] does not find two runs is then
    met by [extract_dates], and the construction of the account ends with
    [ValueError] instead of the message and [sys.exit(1)]. *)
Theorem audit_stops_at_first_gap {A : Type} (path lbl : string)
    (files rest : list string) (bad : string)
    (parsed : list (list (A * string))) :
  files ≠ [] →
  audit_for_missing_data path files = Ok true →
  audit_for_missing_data path (files ++ rest) = Ok true
  ∧ (¬ well_named bad →
     AccountExpenseHistory_init path lbl (files ++ bad :: rest) parsed
     = Raise ValueError).
Proof.
  intros Hne Haudit.
  assert (Happ : ∀ more, audit_for_missing_data path (files ++ more) = Ok true).
  { intros more. destruct files as [|file0 files]; [done|].
    rewrite <- app_comm_cons, audit_first_step.
    rewrite audit_first_step in Haudit.
    destruct (year_month file0) as [ym0|e]; [|done].
    by apply audit_loop_true_app. }
  split; [apply Happ|].
  intros Hbad. unfold AccountExpenseHistory_init. rewrite Happ. simpl.
  rewrite (extract_dates_raises _ bad); [done| |done].
  apply elem_of_app. right. by left.
Qed.

Lemma audit_stops_at_first_gap_witness :
  AccountExpenseHistory_init (A:=Z) "data" "acct"
    ["2023_01.csv"; "2023_03.csv"; "notes.txt"] [] = Raise ValueError.
Proof.
  apply (audit_stops_at_first_gap (A:=Z) "data" "acct"
           ["2023_01.csv"; "2023_03.csv"] [] "notes.txt" []).
  - done.
  - reflexivity.
  - vm_compute. lia.
Defined.

(** ** Dates as strings *)

Lemma year_month_date_str (y m : N) :
  (1 ≤ y)%N → (1 ≤ m)%N → year_month (date_str y m) = Ok (y, m).
Proof.
  intros Hy Hm. unfold date_str, py_02d.
  destruct (String.length (py_str m) <? 2)%nat.
  - replace (py_str y +:+ "_" +:+ "0" +:+ py_str m)
      with (two_runs_name EmptyString y "_0" m EmptyString).
    + apply year_month_two_runs; (done || lia).
    + unfold two_runs_name. by rewrite string_app_nil_r.
  - replace (py_str y +:+ "_" +:+ py_str m)
      with (two_runs_name EmptyString y "_" m EmptyString).
    + apply year_month_two_runs; (done || lia).
    + unfold two_runs_name. by rewrite string_app_nil_r.
Qed.

(** X6: a date written by [extract_dates] reads back as the year and the
    month it was written from, so two dates are equal only for the same year
    and month; and a file named by its date is given that date. *)
Theorem date_str_round_trip (y m : N) :
  (1 ≤ y)%N → (1 ≤ m)%N →
  year_month (date_str y m) = Ok (y, m)
  ∧ extract_dates [date_str y m] = Ok [date_str y m]
  ∧ ∀ y' m', (1 ≤ y')%N → (1 ≤ m')%N →
             date_str y m = date_str y' m' → y = y' ∧ m = m'.
Proof.
  intros Hy Hm. pose proof (year_month_date_str y m Hy Hm) as Hback.
  split; [done|]. split.
  - simpl. by rewrite extract_date_year_month, Hback.
  - intros y' m' Hy' Hm' Heq.
    pose proof (year_month_date_str y' m' Hy' Hm') as Hback'.
    rewrite <- Heq, Hback in Hback'. by injection Hback' as -> ->.
Qed.

Lemma date_str_round_trip_witness :
  year_month (date_str 2023 7) = Ok (2023, 7)%N.
Proof. apply (date_str_round_trip 2023 7); lia. Defined.

Lemma of_uint_hd_tl (d : Decimal.uint) :
  d ≠ Decimal.Nil →
  N.of_uint d
  = (DecimalPos.Unsigned.hd d * 10 ^ DecimalPos.Unsigned.usize (DecimalPos.Unsigned.tl d)
     + N.of_uint (DecimalPos.Unsigned.tl d))%N.
Proof.
  intros Hd. unfold N.of_uint.
  rewrite !DecimalPos.Unsigned.of_uint_alt.
  destruct d; [done|..]; unfold Decimal.rev; simpl Decimal.revapp;
    rewrite DecimalPos.Unsigned.of_lu_revapp; simpl;
    change (Decimal.revapp d Decimal.Nil) with (Decimal.rev d);
    generalize (10 ^ DecimalPos.Unsigned.usize d)%N; intros P; lia.
Qed.

Lemma of_uint_bound (d : Decimal.uint) :
  (N.of_uint d < 10 ^ DecimalPos.Unsigned.usize d)%N.
Proof.
  induction d; [simpl; lia|..];
    rewrite of_uint_hd_tl by done; simpl DecimalPos.Unsigned.hd;
    simpl DecimalPos.Unsigned.tl; simpl DecimalPos.Unsigned.usize;
    rewrite N.pow_succ_r';
    revert IHd; generalize (10 ^ DecimalPos.Unsigned.usize d)%N; intros P; lia.
Qed.

Lemma length_string_of_uint (d : Decimal.uint) :
  String.length (NilEmpty.string_of_uint d)
  = N.to_nat (DecimalPos.Unsigned.usize d).
Proof. induction d; simpl; [done|..]; rewrite IHd; lia. Qed.

Lemma string_of_uint_cons (d : Decimal.uint) :
  d ≠ Decimal.Nil →
  NilEmpty.string_of_uint d
  = String (digit_char (DecimalPos.Unsigned.hd d))
      (NilEmpty.string_of_uint (DecimalPos.Unsigned.tl d)).
Proof. by destruct d. Qed.

Lemma usize_cons (d : Decimal.uint) :
  d ≠ Decimal.Nil →
  DecimalPos.Unsigned.usize d
  = N.succ (DecimalPos.Unsigned.usize (DecimalPos.Unsigned.tl d)).
Proof. by destruct d. Qed.

Lemma hd_lt_10 (d : Decimal.uint) : (DecimalPos.Unsigned.hd d < 10)%N.
Proof. destruct d; simpl; lia. Qed.

Lemma N_compare_add_l (p n m : N) :
  N.compare (p + n) (p + m) = N.compare n m.
Proof.
  destruct (N.compare_spec n m) as [->|Hlt|Hgt].
  - apply N.compare_refl.
  - apply N.compare_lt_iff. lia.
  - apply N.compare_gt_iff. lia.
Qed.

Lemma digit_char_compare (a b : N) :
  (a < 10)%N → (b < 10)%N →
  Ascii.compare (digit_char a) (digit_char b) = N.compare a b.
Proof.
  intros Ha Hb. unfold Ascii.compare, digit_char.
  rewrite !N_ascii_embedding by lia. apply N_compare_add_l.
Qed.

Lemma uint_compare_step (d d' : Decimal.uint) :
  d ≠ Decimal.Nil →
  DecimalPos.Unsigned.usize d = DecimalPos.Unsigned.usize d' →
  (DecimalPos.Unsigned.usize (DecimalPos.Unsigned.tl d)
   = DecimalPos.Unsigned.usize (DecimalPos.Unsigned.tl d') →
   String.compare (NilEmpty.string_of_uint (DecimalPos.Unsigned.tl d))
     (NilEmpty.string_of_uint (DecimalPos.Unsigned.tl d'))
   = N.compare (N.of_uint (DecimalPos.Unsigned.tl d))
       (N.of_uint (DecimalPos.Unsigned.tl d'))) →
  String.compare (NilEmpty.string_of_uint d) (NilEmpty.string_of_uint d')
  = N.compare (N.of_uint d) (N.of_uint d').
Proof.
  intros Hd Hsz IH.
  assert (Hd' : d' ≠ Decimal.Nil).
  { intros ->. rewrite (usize_cons d Hd) in Hsz. simpl in Hsz. lia. }
  assert (Htl : DecimalPos.Unsigned.usize (DecimalPos.Unsigned.tl d)
                = DecimalPos.Unsigned.usize (DecimalPos.Unsigned.tl d')).
  { rewrite (usize_cons d Hd), (usize_cons d' Hd') in Hsz. lia. }
  specialize (IH Htl).
  rewrite (string_of_uint_cons d Hd), (string_of_uint_cons d' Hd').
  rewrite (of_uint_hd_tl d Hd), (of_uint_hd_tl d' Hd'), <- Htl.
  pose proof (of_uint_bound (DecimalPos.Unsigned.tl d)) as Hb.
  pose proof (of_uint_bound (DecimalPos.Unsigned.tl d')) as Hb'.
  rewrite <- Htl in Hb'.
  pose proof (hd_lt_10 d) as Hh. pose proof (hd_lt_10 d') as Hh'.
  simpl String.compare. rewrite digit_char_compare by done.
  revert IH Hb Hb'.
  generalize (10 ^ DecimalPos.Unsigned.usize (DecimalPos.Unsigned.tl d))%N.
  generalize (N.of_uint (DecimalPos.Unsigned.tl d)).
  generalize (N.of_uint (DecimalPos.Unsigned.tl d')).
  generalize (DecimalPos.Unsigned.hd d) (DecimalPos.Unsigned.hd d') Hh Hh'.
  clear. intros h h' Hh Hh' v' v P IH Hb Hb'.
  destruct (N.compare_spec h h') as [->|Hlt|Hgt].
  - rewrite IH. symmetry. apply N_compare_add_l.
  - symmetry. apply N.compare_lt_iff. nia.
  - symmetry. apply N.compare_gt_iff. nia.
Qed.

Lemma uint_compare (d d' : Decimal.uint) :
  DecimalPos.Unsigned.usize d = DecimalPos.Unsigned.usize d' →
  String.compare (NilEmpty.string_of_uint d) (NilEmpty.string_of_uint d')
  = N.compare (N.of_uint d) (N.of_uint d').
Proof.
  revert d'. induction d as [|d IH|d IH|d IH|d IH|d IH|d IH|d IH|d IH|d IH|d IH];
    intros d' Hsz.
  1: { destruct d'; simpl in Hsz; (done || lia). }
  all: apply uint_compare_step; [done|done|]; simpl DecimalPos.Unsigned.tl;
       intros Htl; by apply IH.
Qed.

Lemma py_str_compare (y y' : N) :
  String.length (py_str y) = String.length (py_str y') →
  String.compare (py_str y) (py_str y') = N.compare y y'.
Proof.
  unfold py_str. rewrite !length_string_of_uint. intros Hlen.
  rewrite uint_compare by lia. by rewrite !DecimalN.Unsigned.of_to.
Qed.

Lemma string_compare_app (a a' s s' : string) :
  String.length a = String.length a' →
  String.compare (a +:+ s) (a' +:+ s')
  = match String.compare a a' with
    | Eq => String.compare s s'
    | c => c
    end.
Proof.
  revert a'. induction a as [|c a IH]; intros [|c' a'] Hlen; try done.
  simpl in *. destruct (Ascii.compare c c'); [|done..].
  apply IH. lia.
Qed.

Lemma py_02d_compare (m m' : N) :
  (1 ≤ m ≤ 99)%N → (1 ≤ m' ≤ 99)%N →
  String.compare (py_02d m) (py_02d m') = N.compare m m'.
Proof.
  intros Hm Hm'.
  assert (Hall : Forall (λ a, Forall (λ b,
              String.compare (py_02d a) (py_02d b) = N.compare a b)
            (N.of_nat <$> seq 1 99)) (N.of_nat <$> seq 1 99)).
  { apply (bool_decide_unpack _). vm_compute. exact I. }
  rewrite Forall_forall in Hall.
  assert (Hin : ∀ k, (1 ≤ k ≤ 99)%N → k ∈ N.of_nat <$> seq 1 99).
  { intros k Hk. apply list_elem_of_fmap. exists (N.to_nat k).
    split; [lia|]. apply elem_of_seq. lia. }
  specialize (Hall m (Hin m Hm)). rewrite Forall_forall in Hall.
  apply Hall. by apply Hin.
Qed.

(** X7: the assertion of the two reconcilers, that sorting the dates puts
    them in the order of time.  For two years written on the same number of
    digits and months up to 99, the order of the dates as strings is the
    order of the (year, month) in time; between years of different widths it
    is not: the date of December 999 sorts after that of January 1000. *)
Theorem date_str_order (y m y' m' : N) :
  String.length (py_str y) = String.length (py_str y') →
  (1 ≤ m ≤ 99)%N → (1 ≤ m' ≤ 99)%N →
  String.compare (date_str y m) (date_str y' m') = chronological (y, m) (y', m')
  ∧ (String.ltb (date_str y m) (date_str y' m') = true
     ↔ (y < y')%N ∨ (y = y' ∧ (m < m')%N))
  ∧ String.ltb (date_str 1000 1) (date_str 999 12) = true.
Proof.
  intros Hlen Hm Hm'.
  assert (Hcmp : String.compare (date_str y m) (date_str y' m')
                 = chronological (y, m) (y', m')).
  { unfold date_str, chronological. simpl.
    rewrite string_compare_app, py_str_compare by done.
    destruct (N.compare y y'); [|done..].
    simpl. by apply py_02d_compare. }
  split; [done|]. split; [|reflexivity].
  unfold String.ltb. rewrite Hcmp. unfold chronological. simpl.
  destruct (N.compare_spec y y') as [->|Hlt|Hgt];
    [destruct (N.compare_spec m m')|..];
    (split; intros Hc; try done; try lia; try (by left); try (by right)).
Qed.

Lemma date_str_order_witness :
  String.ltb (date_str 2023 12) (date_str 2024 1) = true
  ↔ (2023 < 2024)%N ∨ (2023 = 2024 ∧ (12 < 1)%N)%N.
Proof.
  apply (date_str_order 2023 12 2024 1); [reflexivity|lia|lia].
Defined.

(** ** Parsing the expenses of an account *)

Section parse_facts.
Variable str_upper : string → string.
Variable py_float : string → option float.
Variable check_exclusion : string → float → string → bool.
Variable read_rows : string → list (list string).

Lemma parse_rows_cons_nonempty (row : list string) (rows : list (list string)) :
  row ≠ [] →
  parse_rows str_upper py_float check_exclusion (row :: rows)
  = rbind (parse_row str_upper py_float check_exclusion row)
      (λ r, rbind (parse_rows str_upper py_float check_exclusion rows)
              (λ month, Ok (match r with
                            | Some record => record :: month
                            | None => month
                            end))).
Proof. intros Hrow. simpl. by rewrite decide_False. Qed.

Lemma parse_row_short (row : list string) :
  (length row < 5)%nat →
  parse_row str_upper py_float check_exclusion row = Raise IndexError.
Proof.
  intros Hlen. unfold parse_row, py_index, date_idx, expense_idx, location_idx.
  destruct (row !! 0%nat) as [date|]; [|done]. simpl.
  destruct (row !! 1%nat) as [field|]; [|done]. simpl.
  by rewrite (lookup_ge_None_2 row 4) by lia.
Qed.

Lemma parse_row_ok (row : list string) (r : option (float * string)) :
  parse_row str_upper py_float check_exclusion row = Ok r →
  ∃ date field loc x,
    row !! 0%nat = Some date ∧ row !! 1%nat = Some field
    ∧ row !! 4%nat = Some loc ∧ py_float (remove_commas field) = Some x
    ∧ r = if check_exclusion date (PrimFloat.mul (-1)%float x) (str_upper loc)
          then None
          else Some (PrimFloat.mul (-1)%float x, str_upper loc).
Proof.
  unfold parse_row, py_index, date_idx, expense_idx, location_idx.
  destruct (row !! 0%nat) as [date|]; [|done]. simpl.
  destruct (row !! 1%nat) as [field|]; [|done]. simpl.
  destruct (row !! 4%nat) as [loc|]; [|done]. simpl.
  destruct (py_float (remove_commas field)) as [x|] eqn:Hx; [|done]. simpl.
  intros Hr. exists date, field, loc, x. repeat split; try done.
  destruct (check_exclusion _ _ _); by injection Hr as <-.
Qed.

Lemma parse_rows_app_raise (pre post : list (list string))
    (row : list string) (month : list (float * string)) (e : exn) :
  parse_rows str_upper py_float check_exclusion pre = Ok month →
  row ≠ [] →
  parse_row str_upper py_float check_exclusion row = Raise e →
  parse_rows str_upper py_float check_exclusion (pre ++ row :: post) = Raise e.
Proof.
  intros Hpre Hrow Herr. revert month Hpre.
  induction pre as [|r pre IH]; intros month Hpre.
  - simpl app. rewrite parse_rows_cons_nonempty by done. by rewrite Herr.
  - rewrite <- app_comm_cons. simpl in *.
    destruct (decide (r = [])); [by eapply IH|].
    destruct (parse_row _ _ _ r) as [rec|]; [|done]. simpl in *.
    destruct (parse_rows _ _ _ pre) as [month'|]; [|done].
    by rewrite (IH month').
Qed.

End parse_facts.

(** X8: with the [check_exclusion] of the base class, the expenses of a
    file are one record for every row that is not empty, in the order of the
    rows: the amount is [-1] times the number read from the second field
    once its commas are removed, the location is the fifth field in upper
    case.  A row of fewer than five fields that is not empty makes the file
    raise [IndexError], whatever its amount. *)
Theorem parse_rows_base (str_upper : string → string)
    (py_float : string → option float) (rows : list (list string))
    (month : list (float * string)) :
  parse_rows str_upper py_float check_exclusion_base rows = Ok month →
  Forall2
    (λ row record,
       ∃ field loc x,
         row !! 1%nat = Some field ∧ row !! 4%nat = Some loc
         ∧ py_float (remove_commas field) = Some x
         ∧ record = (PrimFloat.mul (-1)%float x, str_upper loc))
    (filter (λ row, row ≠ []) rows) month
  ∧ ∀ row post,
      row ≠ [] → (length row < 5)%nat →
      parse_rows str_upper py_float check_exclusion_base (rows ++ row :: post)
      = Raise IndexError.
Proof.
  intros Hrows. split.
  - revert month Hrows. induction rows as [|row rows IH]; intros month.
    + intros [= <-]. constructor.
    + rewrite filter_cons. destruct (decide (row ≠ [])) as [Hrow|Hrow].
      * rewrite parse_rows_cons_nonempty by done.
        destruct (parse_row _ _ _ row) as [r|] eqn:Hr; [|done]. simpl.
        destruct (parse_rows _ _ _ rows) as [month'|]; [|done]. simpl.
        apply parse_row_ok in Hr as (date & field & loc & x & _ & ? & ? & ? & ->).
        unfold check_exclusion_base. intros [= <-].
        constructor; [by exists field, loc, x|by apply IH].
      * apply dec_stable in Hrow as ->. simpl. apply IH.
  - intros row post Hrow Hlen. eapply parse_rows_app_raise; [done..|].
    by apply parse_row_short.
Qed.

Lemma parse_rows_base_witness :
  parse_rows (λ s, s) (λ s, Some 1%float) check_exclusion_base
    ([["d"; "-1,0"; "x"; "y"; "SHOP"]; []] ++ ["d"; "-1,0"] :: [])
  = Raise IndexError.
Proof.
  eapply (parse_rows_base (λ s, s) (λ s, Some 1%float)
            [["d"; "-1,0"; "x"; "y"; "SHOP"]; []]).
  - reflexivity.
  - done.
  - simpl. lia.
Defined.

(** X9: whatever [check_exclusion] a subclass has, a file that it parses
    is parsed by the base class too, and its expenses are records that the
    base class gives, in the same order: the method only drops records. *)
Theorem parse_rows_exclusion (str_upper : string → string)
    (py_float : string → option float)
    (check_exclusion : string → float → string → bool)
    (rows : list (list string)) (month : list (float * string)) :
  parse_rows str_upper py_float check_exclusion rows = Ok month →
  ∃ base,
    parse_rows str_upper py_float check_exclusion_base rows = Ok base
    ∧ sublist month base.
Proof.
  revert month. induction rows as [|row rows IH]; intros month.
  - intros [= <-]. by exists [].
  - destruct (decide (row = [])) as [->|Hrow]; [apply IH|].
    rewrite !parse_rows_cons_nonempty by done.
    destruct (parse_row _ _ check_exclusion row) as [r|] eqn:Hr; [|done].
    simpl.
    destruct (parse_rows _ _ check_exclusion rows) as [month'|]; [|done].
    simpl. intros [= <-]. destruct (IH month' eq_refl) as (base & -> & Hsub).
    apply parse_row_ok in Hr as (date & field & loc & x & H0 & H1 & H4 & Hx & ->).
    unfold parse_row, py_index, date_idx, expense_idx, location_idx.
    rewrite H0, H1, H4. simpl. rewrite Hx. simpl.
    eexists. split; [done|].
    destruct (check_exclusion _ _ _); by constructor.
Qed.

Lemma parse_rows_exclusion_witness :
  ∃ base,
    parse_rows (λ s, s) (λ s, Some 1%float) check_exclusion_base
      [["d"; "-1,0"; "x"; "y"; "SHOP"]; []] = Ok base
    ∧ sublist [] base.
Proof.
  apply (parse_rows_exclusion (λ s, s) (λ s, Some 1%float) (λ _ _ _, true)).
  reflexivity.
Defined.

Lemma parse_and_aggregate_expenses_facts (str_upper : string → string)
    (py_float : string → option float)
    (check_exclusion : string → float → string → bool)
    (read_rows : string → list (list string)) (files : list string)
    (data : list (list (float * string))) :
  parse_and_aggregate_expenses str_upper py_float check_exclusion read_rows
    files = Ok data →
  Forall2
    (λ file month,
       parse_rows str_upper py_float check_exclusion (read_rows file)
       = Ok month)
    files data
  ∧ length data = length files.
Proof.
  intros Hdata.
  assert (Hall : Forall2
            (λ file month,
               parse_rows str_upper py_float check_exclusion (read_rows file)
               = Ok month) files data).
  { revert data Hdata. induction files as [|file files IH]; intros data.
    - intros [= <-]. constructor.
    - simpl.
      destruct (parse_rows _ _ _ (read_rows file)) as [month|] eqn:Hm; [|done].
      simpl. destruct (parse_and_aggregate_expenses _ _ _ _ files)
        as [data'|]; [|done].
      simpl. intros [= <-]. constructor; [done|by apply IH]. }
  split; [done|]. symmetry. by eapply Forall2_length.
Qed.

(** X10: [parse_and_aggregate_expenses] returns one list of expenses per
    file, in the order of the files, each the expenses of its file; it
    returns nothing when a file raises. *)
Theorem parse_and_aggregate_expenses_by_file (str_upper : string → string)
    (py_float : string → option float)
    (check_exclusion : string → float → string → bool)
    (read_rows : string → list (list string)) (files : list string) :
  (∀ data,
     parse_and_aggregate_expenses str_upper py_float check_exclusion read_rows
       files = Ok data →
     Forall2
       (λ file month,
          parse_rows str_upper py_float check_exclusion (read_rows file)
          = Ok month)
       files data
     ∧ length data = length files)
  ∧ (∀ file e,
       file ∈ files →
       parse_rows str_upper py_float check_exclusion (read_rows file) = Raise e →
       ∃ e', parse_and_aggregate_expenses str_upper py_float check_exclusion
               read_rows files = Raise e').
Proof.
  split.
  - intros data. apply parse_and_aggregate_expenses_facts.
  - intros file e Hin Hfile.
    induction files as [|f files IH]; [by apply elem_of_nil in Hin|].
    simpl. apply elem_of_cons in Hin as [<-|Hin].
    + rewrite Hfile. by eexists.
    + destruct (parse_rows _ _ _ (read_rows f)); simpl; [|by eexists].
      destruct (IH Hin) as [e' ->]. by eexists.
Qed.

Lemma parse_and_aggregate_expenses_by_file_witness :
  length [[(PrimFloat.mul (-1) 1, "SHOP")]; []]%float = 2%nat.
Proof.
  apply (parse_and_aggregate_expenses_by_file (λ s, s) (λ s, Some 1%float)
           check_exclusion_base
           (λ file, if decide (file = "2023_01.csv")
                    then [["d"; "-1,0"; "x"; "y"; "SHOP"]] else [])
           ["2023_01.csv"; "2023_02.csv"]).
  reflexivity.
Defined.

(** X11: an account that [AccountExpenseHistory.__init__] builds has one
    date and one list of expenses for every entry of its directory that does
    not start with a dot, the dates being those of these entries in ascending
    order of their names: its dates and its expenses are aligned. *)
Theorem AccountExpenseHistory_aligned (str_upper : string → string)
    (py_float : string → option float)
    (check_exclusion : string → float → string → bool)
    (read_rows : string → list (list string))
    (data_path lbl : string) (listing : list string)
    (is_missing_data : bool) (acc : account float) :
  AccountExpenseHistory_new str_upper py_float check_exclusion read_rows
    data_path lbl listing = Ok (is_missing_data, acc) →
  label acc = lbl ∧ path acc = data_path
  ∧ audit_for_missing_data data_path (extract_files listing)
    = Ok is_missing_data
  ∧ extract_dates (extract_files listing) = Ok (dates acc)
  ∧ length (dates acc) = length (extract_files listing)
  ∧ length (expenses acc) = length (dates acc)
  ∧ Forall2
      (λ file month,
         parse_rows str_upper py_float check_exclusion (read_rows file)
         = Ok month)
      (extract_files listing) (expenses acc).
Proof.
  unfold AccountExpenseHistory_new.
  destruct (audit_for_missing_data _ _) as [b|]; [|done]. simpl.
  destruct (extract_dates _) as [ds|] eqn:Hds; [|done]. simpl.
  destruct (parse_and_aggregate_expenses _ _ _ _ _) as [parsed|] eqn:Hp;
    [|done].
  simpl. intros [= <- <-]. simpl.
  destruct (parse_and_aggregate_expenses_facts str_upper py_float
              check_exclusion read_rows _ _ Hp) as [Hall Hlen].
  assert (Hdl : length ds = length (extract_files listing)).
  { clear Hp Hall Hlen. revert ds Hds.
    induction (extract_files listing) as [|f fs IH]; intros ds.
    - by intros [= <-].
    - simpl. destruct (extract_date f); [|done]. simpl.
      destruct (extract_dates fs) as [ds'|]; [|done]. simpl.
      intros [= <-]. simpl. by rewrite (IH ds'). }
  repeat split; try done. by rewrite Hlen, Hdl.
Qed.

Lemma AccountExpenseHistory_aligned_witness :
  extract_dates (extract_files ["2023_02.csv"; ".hidden"; "2023_01.csv"])
  = Ok ["2023_01"; "2023_02"].
Proof.
  destruct (AccountExpenseHistory_aligned (λ s, s) (λ s, Some 1%float)
              check_exclusion_base (λ _, []) "data" "acct"
              ["2023_02.csv"; ".hidden"; "2023_01.csv"] false
              (Account "acct" "data" ["2023_01"; "2023_02"] [[]; []]))
    as (_ & _ & _ & Hdates & _).
  - vm_compute. reflexivity.
  - exact Hdates.
Defined.

(** ** What a configuration registers *)

Section dict_fold_facts.
Context {K V : Type} `{EqDecision K}.
Implicit Types (d : list (K * V)) (kvs : list (K * V)).

Lemma dict_set_NoDup d k v :
  NoDup (dict_keys d) → NoDup (dict_keys (dict_set k v d)).
Proof.
  intros Hnd. rewrite dict_set_keys_step. case_decide; [done|].
  apply NoDup_app. split; [done|]. split; [|apply NoDup_singleton].
  intros x Hx ?%list_elem_of_singleton. by subst.
Qed.

Lemma foldl_dict_set_NoDup d kvs :
  NoDup (dict_keys d) →
  NoDup (dict_keys (foldl (λ d kv, dict_set kv.1 kv.2 d) d kvs)).
Proof.
  revert d. induction kvs as [|[k v] kvs IH]; intros d Hd; simpl; [done|].
  apply IH. by apply dict_set_NoDup.
Qed.

Lemma foldl_dict_set_get_last d kvs k :
  dict_get k (foldl (λ d kv, dict_set kv.1 kv.2 d) d kvs)
  = match last_value k kvs with
    | Some v => Some v
    | None => dict_get k d
    end.
Proof.
  unfold last_value. revert d. induction kvs as [|[k' v'] kvs IH]; intros d.
  - done.
  - simpl foldl. rewrite IH, filter_cons. simpl.
    destruct (decide (k' = k)) as [->|Hne].
    + destruct (filter (λ kv, kv.1 = k) kvs) as [|kv rest] eqn:Hf.
      * simpl. by rewrite dict_get_set_eq.
      * change (last ((k, v') :: kv :: rest)) with (last (kv :: rest)).
        destruct (last (kv :: rest)) as [x|] eqn:Hl; [done|].
        by apply last_None in Hl.
    + destruct (last (filter (λ kv, kv.1 = k) kvs)); simpl; [done|].
      by rewrite dict_get_set_ne.
Qed.

End dict_fold_facts.

Section registered.
Context {limit : Type}.
Variable re_compiles : string → bool.
Variable py_float : string → option limit.

Lemma read_config_line_ok_limits cfg raw d lims d' lims' :
  read_config_line limit re_compiles py_float cfg raw (d, lims) = Ok (d', lims') →
  lims' = foldl (λ d kv, dict_set kv.1 kv.2 d) lims (config_limits py_float [raw]).
Proof.
  unfold read_config_line, py_index, config_limits. simpl.
  destruct (split_tab (str_strip raw) !! regex_idx) as [regex|] eqn:Hr; [|done].
  destruct (split_tab (str_strip raw) !! category_idx) as [category|] eqn:Hc;
    [|done].
  simpl. destruct (decide _) as [|Hres]; [done|].
  unfold re_compile. destruct (re_compiles regex); [|done]. simpl.
  destruct (split_tab (str_strip raw)) as [|f0 [|f1 [|f2 [|f3 fs]]]];
    simpl in *; try done.
  - injection Hc as ->. unfold float_of.
    destruct (py_float f1); [|done]. simpl. by intros [= _ <-].
  - by intros [= _ <-].
Qed.

Lemma config_limits_cons (raw : string) (lines : list string) :
  config_limits py_float (raw :: lines)
  = (config_limits py_float [raw] ++ config_limits py_float lines)%list.
Proof.
  unfold config_limits. simpl.
  by destruct (match split_tab (str_strip raw) with
               | [category; l; _] => (λ v, (category, v)) <$> py_float l
               | _ => None
               end).
Qed.

Lemma read_config_lines_limits cfg lines d lims d' lims' :
  read_config_lines limit re_compiles py_float cfg lines (d, lims)
  = Ok (d', lims') →
  lims' = foldl (λ d kv, dict_set kv.1 kv.2 d) lims (config_limits py_float lines).
Proof.
  revert d lims. induction lines as [|raw lines IH]; intros d lims.
  - by intros [= _ <-].
  - rewrite read_config_lines_cons.
    destruct (read_config_line limit re_compiles py_float cfg raw (d, lims))
      as [[d1 lims1]|] eqn:Hline; [|done].
    cbn [rbind]. intros Hrest. apply read_config_line_ok_limits in Hline as ->.
    rewrite (IH _ _ Hrest), (config_limits_cons raw lines).
    by rewrite foldl_app.
Qed.

Lemma config_limits_categories (lines : list string) (c : string) (v : limit) :
  (c, v) ∈ config_limits py_float lines →
  ∃ raw l r, raw ∈ lines ∧ split_tab (str_strip raw) = [c; l; r]
             ∧ py_float l = Some v.
Proof.
  unfold config_limits. intros (raw & Hraw & Hcv)%list_elem_of_omap.
  destruct (split_tab (str_strip raw)) as [|f0 [|f1 [|f2 [|f3 fs]]]] eqn:Hs;
    try done.
  destruct (py_float f1) as [x|] eqn:Hx; [|done]. simpl in Hcv.
  injection Hcv as -> ->. by exists raw, f1, f2.
Qed.

End registered.

Lemma last_value_elem {K V : Type} `{EqDecision K} (k : K) (kvs : list (K * V))
    (v : V) :
  last_value k kvs = Some v → (k, v) ∈ kvs.
Proof.
  unfold last_value.
  destruct (last (filter (λ kv, kv.1 = k) kvs)) as [[k' v']|] eqn:Hl; [|done].
  simpl. intros [= <-]. apply last_Some_elem_of in Hl.
  apply list_elem_of_filter in Hl as [Hk Hin]. simpl in Hk. by subst.
Qed.

(** X12: in the rules that [read_config] returns every pattern is there
    once, with the category of the last line of the configuration that has
    this pattern. *)
Theorem read_config_rules_last_line {limit : Type}
    (re_compiles : string → bool) (py_float : string → option limit)
    (cfg : string) (total : limit) (lines : list string)
    (rcd : list (string * string)) (lims : list (string * limit)) :
  read_config limit re_compiles py_float cfg total lines = Ok (rcd, lims) →
  NoDup (dict_keys rcd)
  ∧ ∀ regex, dict_get regex rcd = last_value regex (config_rules lines).
Proof.
  unfold read_config.
  destruct (read_config_lines _ _ _ _ _ _) as [[d l]|] eqn:Hlines; [|done].
  simpl. intros [= <- <-].
  apply read_config_lines_rules in Hlines as [-> _]. split.
  - apply foldl_dict_set_NoDup. constructor.
  - intros regex. rewrite foldl_dict_set_get_last.
    by destruct (last_value regex (config_rules lines)).
Qed.

Lemma read_config_rules_last_line_witness :
  dict_get "FOO" [("FOO", "C"); ("BAR", "B")]
  = last_value "FOO" (config_rules repeated_regex_config).
Proof.
  apply (read_config_rules_last_line Fragment.compiles Fragment.float_digits
           "cfg" 100%N repeated_regex_config [("FOO", "C"); ("BAR", "B")]
           [("A", 1); ("B", 1); ("C", 1); ("Total", 100)]%N).
  reflexivity.
Defined.

(** X13: the limits that [read_config] returns hold the given total limit
    under "Total", never a limit for "Misc", and for any other category the
    limit of the last line of exactly three fields that has this category;
    every category is there at most once. *)
Theorem read_config_limits {limit : Type}
    (re_compiles : string → bool) (py_float : string → option limit)
    (cfg : string) (total : limit) (lines : list string)
    (rcd : list (string * string)) (lims : list (string * limit)) :
  read_config limit re_compiles py_float cfg total lines = Ok (rcd, lims) →
  dict_get "Total" lims = Some total
  ∧ dict_get "Misc" lims = None
  ∧ NoDup (dict_keys lims)
  ∧ (∀ c, c ≠ "Total" →
          dict_get c lims = last_value c (config_limits py_float lines))
  ∧ (∀ c v, c ≠ "Total" → dict_get c lims = Some v →
            ∃ raw l r, raw ∈ lines ∧ split_tab (str_strip raw) = [c; l; r]
                       ∧ py_float l = Some v).
Proof.
  unfold read_config.
  destruct (read_config_lines _ _ _ _ _ _) as [[d l]|] eqn:Hlines; [|done].
  simpl. intros [= <- <-].
  pose proof (read_config_lines_limits _ _ _ _ _ _ _ _ Hlines) as ->.
  apply read_config_lines_rules in Hlines as [_ Hres].
  assert (Hget : ∀ c, c ≠ "Total" →
            dict_get c
              (dict_set "Total" total
                 (foldl (λ d kv, dict_set kv.1 kv.2 d) []
                    (config_limits py_float lines)))
            = last_value c (config_limits py_float lines)).
  { intros c Hc. rewrite dict_get_set_ne by done.
    rewrite foldl_dict_set_get_last.
    by destruct (last_value c (config_limits py_float lines)). }
  assert (Hfrom : ∀ c v, c ≠ "Total" →
            last_value c (config_limits py_float lines) = Some v →
            ∃ raw l r, raw ∈ lines ∧ split_tab (str_strip raw) = [c; l; r]
                       ∧ py_float l = Some v).
  { intros c v _ Hlast. apply last_value_elem in Hlast.
    by apply config_limits_categories in Hlast. }
  split; [apply dict_get_set_eq|]. split; [|split; [|split]].
  - rewrite Hget by done.
    destruct (last_value "Misc" (config_limits py_float lines)) as [v|] eqn:Hl;
      [|done].
    exfalso. destruct (Hfrom "Misc" v) as (raw & l & r & Hin & Hsplit & _);
      [done..|].
    rewrite Forall_forall in Hres. destruct (Hres (r, "Misc")) as [_ Hmisc];
      [|done].
    unfold config_rules. apply list_elem_of_omap. exists raw.
    split; [done|]. by rewrite Hsplit.
  - apply dict_set_NoDup, foldl_dict_set_NoDup. constructor.
  - done.
  - intros c v Hc Hv. rewrite Hget in Hv by done. by apply Hfrom.
Qed.

Lemma read_config_limits_witness :
  dict_get "Misc" [("Food", 50); ("Bar", 20); ("Total", 100)]%N = None.
Proof.
  destruct (read_config_limits Fragment.compiles Fragment.float_digits
              "cfg" 100%N food_bar_config [("FOO.*", "Food"); (".*BAR", "Bar")]
              [("Food", 50); ("Bar", 20); ("Total", 100)]%N)
    as (_ & Hmisc & _).
  - reflexivity.
  - exact Hmisc.
Defined.

(** ** The cursor over the date range *)

Lemma advance_from_find (ds : list string) (date : string) (i : nat) :
  advance_from ds date i
  = match list_find (λ d, d = date) ds with
    | Some (k, _) => Ok (i + k)%nat
    | None => Raise IndexError
    end.
Proof.
  revert i. induction ds as [|d ds IH]; intros i; [done|].
  simpl. destruct (decide (d ≠ date)) as [Hne|Heq].
  - rewrite decide_False by done. rewrite IH.
    destruct (list_find (λ d, d = date) ds) as [[k x]|]; simpl; [|done].
    f_equal. lia.
  - apply dec_stable in Heq. rewrite decide_True by done. simpl.
    f_equal. lia.
Qed.

Lemma advance_ok (self_dates : list string) (date : string) (i j : nat) :
  advance self_dates date i = Ok j ↔
  (i ≤ j)%nat ∧ self_dates !! j = Some date
  ∧ ∀ k, (i ≤ k < j)%nat → self_dates !! k ≠ Some date.
Proof.
  unfold advance. rewrite advance_from_find.
  destruct (list_find (λ d, d = date) (drop i self_dates)) as [[k x]|] eqn:Hf.
  - apply list_find_Some in Hf as (Hk & -> & Hbefore).
    rewrite lookup_drop in Hk. split.
    + intros [= <-]. split; [lia|]. split; [done|].
      intros k' [Hk1 Hk2] Hk'.
      apply (Hbefore (k' - i)%nat date); [|lia|done].
      rewrite lookup_drop. by replace (i + (k' - i))%nat with k' by lia.
    + intros (Hij & Hj & Hmin). f_equal.
      destruct (decide (i + k < j)%nat) as [Hlt|Hge].
      * exfalso. apply (Hmin (i + k)%nat); [lia|done].
      * destruct (decide (j < i + k)%nat) as [Hlt|]; [|lia].
        exfalso. apply (Hbefore (j - i)%nat date); [|lia|done].
        rewrite lookup_drop. by replace (i + (j - i))%nat with j by lia.
  - apply list_find_None in Hf. rewrite Forall_forall in Hf. split; [done|].
    intros (Hij & Hj & _). exfalso. apply (Hf date); [|done].
    apply list_elem_of_lookup. exists (j - i)%nat.
    rewrite lookup_drop. by replace (i + (j - i))%nat with j by lia.
Qed.

(** X14: the loop that moves the cursor over the date range stops at the
    first index, from the cursor on, that holds the date; when the date is
    not there from the cursor on, even if it is before it, the loop runs off
    the end of the list and raises [IndexError]. *)
Theorem advance_first_from_cursor (self_dates : list string) (date : string)
    (i : nat) :
  (∀ j, advance self_dates date i = Ok j ↔
        (i ≤ j)%nat ∧ self_dates !! j = Some date
        ∧ ∀ k, (i ≤ k < j)%nat → self_dates !! k ≠ Some date)
  ∧ (date ∉ drop i self_dates ↔ advance self_dates date i = Raise IndexError)
  ∧ (∀ e, advance self_dates date i = Raise e → e = IndexError).
Proof.
  split; [apply advance_ok|].
  unfold advance. rewrite advance_from_find.
  destruct (list_find (λ d, d = date) (drop i self_dates)) as [[k x]|] eqn:Hf.
  - apply list_find_Some in Hf as (Hk & -> & _). split; [|done].
    split; [|done]. intros Hnin. exfalso. apply Hnin.
    by eapply list_elem_of_lookup_2.
  - apply list_find_None in Hf. rewrite Forall_forall in Hf.
    split; [|by intros e [= <-]]. split; [done|].
    intros _ Hin. by apply (Hf date).
Qed.

Lemma advance_first_from_cursor_witness :
  advance ["2023_01"; "2023_02"; "2023_03"] "2023_01" 1 = Raise IndexError.
Proof.
  apply (advance_first_from_cursor ["2023_01"; "2023_02"; "2023_03"]
           "2023_01" 1).
  apply (bool_decide_unpack _). vm_compute. exact I.
Defined.

(** ** What a categorization puts in the buckets and in the reports *)

Section categorize_contents.
Context {A : Type} `{Number A} {limit : Type}.
Variable re_search : string → string → bool.
Implicit Types (ce : list (string * list A)) (uncat : gset string).

Lemma records_where_cons (keep : string → Prop) `{∀ d, Decision (keep d)}
    (acc : account A) (a_idx : nat) (a_idxs : list nat) :
  records_where keep acc (a_idx :: a_idxs)
  = (match dates acc !! a_idx, expenses acc !! a_idx with
     | Some date, Some month => if decide (keep date) then month else []
     | _, _ => []
     end ++ records_where keep acc a_idxs)%list.
Proof. reflexivity. Qed.

Lemma bucket_amounts_app rcd c (l1 l2 : list (A * string)) :
  bucket_amounts re_search rcd c (l1 ++ l2)
  = (bucket_amounts re_search rcd c l1 ++ bucket_amounts re_search rcd c l2)%list.
Proof. unfold bucket_amounts. by rewrite filter_app, fmap_app. Qed.

Lemma collision_text_app cfg rcd (l1 l2 : list (A * string)) :
  collision_text re_search cfg rcd (l1 ++ l2)
  = collision_text re_search cfg rcd l1 +:+ collision_text re_search cfg rcd l2.
Proof.
  unfold collision_text. induction l1 as [|r l1 IH]; [done|].
  cbn [app foldr]. by rewrite IH, string_app_assoc.
Qed.

Lemma unmatched_locations_app rcd (l1 l2 : list (A * string)) :
  unmatched_locations re_search rcd (l1 ++ l2)
  = unmatched_locations re_search rcd l1 ∪ unmatched_locations re_search rcd l2.
Proof.
  unfold unmatched_locations.
  by rewrite fmap_app, filter_app, list_to_set_app_L.
Qed.

Lemma categorize_month_contents cfg rcd i month ce uncat fs ce' uncat' fs' :
  categorize_month re_search cfg rcd i month (ce, uncat) fs
  = (Ok (ce', uncat'), fs') →
  fs' = OutFiles
          (regex_collisions_txt fs +:+ collision_text re_search cfg rcd month)
          (uncategorized_txt fs)
  ∧ uncat' = unmatched_locations re_search rcd month ∪ uncat
  ∧ ("Total" ∉ dict_values rcd →
     ∀ c m,
       bucket_at ce' c m
       = if decide (m = i)
         then foldl nadd (bucket_at ce c m)
                (bucket_amounts re_search rcd c month)
         else bucket_at ce c m).
Proof.
  revert ce uncat fs.
  induction month as [|[e loc] month IH]; intros ce uncat fs Hrun.
  - simpl in Hrun. unfold mret in Hrun. injection Hrun as <- <- <-.
    split; [|split].
    + destruct fs as [t1 t2]. simpl. by rewrite string_app_nil_r.
    + unfold unmatched_locations. simpl. by rewrite (left_id_L ∅ (∪)).
    + intros _ c m. by destruct (decide (m = i)).
  - simpl in Hrun.
    apply mbindM_ok in Hrun as ([ce1 uncat1] & fs1 & Hrec & Hrest).
    destruct (IH _ _ _ Hrest) as (-> & -> & Hb).
    pose proof (categorize_record_buckets re_search _ _ _ _ _ _ _ _ _ _ _
                  Hrec) as Hbuckets.
    apply categorize_record_ok in Hrec as (_ & _ & _ & -> & ->).
    split; [|split].
    + change (collision_text re_search cfg rcd ((e, loc) :: month))
        with ((if decide (1 < length (matched_categories re_search rcd loc))%nat
               then collision_entry cfg loc
                      (matched_categories re_search rcd loc)
               else EmptyString)
              +:+ collision_text re_search cfg rcd month).
      destruct (decide (1 < length _)%nat); simpl.
      * by rewrite string_app_assoc.
      * done.
    + unfold unmatched_locations. rewrite fmap_cons, filter_cons. simpl.
      destruct (matched_categories re_search rcd loc) as [|c0 cats] eqn:Hm.
      * rewrite decide_True by done. rewrite list_to_set_cons.
        apply set_eq. intros x. rewrite !elem_of_union. tauto.
      * by rewrite decide_False.
    + intros Hrcd c m.
      destruct (Hbuckets Hrcd) as (cat & Hcat & _ & _ & Hb1).
      rewrite (Hb Hrcd), Hb1. unfold bucket_amounts, category_of.
      rewrite filter_cons. simpl. rewrite <- Hcat.
      destruct (decide (m = i)) as [->|Hm]; [|by rewrite decide_False by tauto].
      destruct (decide (c = cat ∨ c = "Total")) as [Hc|Hc].
      * by rewrite decide_True by done.
      * by rewrite decide_False by tauto.
Qed.

Lemma categorize_months_contents (self : analyzer A limit) (acc : account A)
    a_idxs ce uncat i fs ce' uncat' fs' :
  categorize_months limit re_search self acc (list_to_set (a_dates self))
    a_idxs (ce, uncat) i fs = (Ok (ce', uncat'), fs') →
  let processed := records_where (λ date, date ∈ a_dates self) acc a_idxs in
  fs' = OutFiles
          (regex_collisions_txt fs
           +:+ collision_text re_search (config_path self)
                 (regex_category_dict self) processed)
          (uncategorized_txt fs)
  ∧ uncat' = unmatched_locations re_search (regex_category_dict self) processed
             ∪ uncat
  ∧ (NoDup (a_dates self) →
     "Total" ∉ dict_values (regex_category_dict self) →
     ∀ c j d, a_dates self !! j = Some d →
       bucket_at ce' c j
       = foldl nadd (bucket_at ce c j)
           (bucket_amounts re_search (regex_category_dict self) c
              (records_where (λ date, date = d) acc a_idxs))).
Proof.
  revert ce uncat i fs.
  induction a_idxs as [|a_idx a_idxs IH]; intros ce uncat i fs Hrun processed.
  - simpl in Hrun. unfold mret in Hrun. injection Hrun as <- <- <-.
    split; [|split].
    + destruct fs as [t1 t2]. simpl. by rewrite string_app_nil_r.
    + unfold unmatched_locations. simpl. by rewrite (left_id_L ∅ (∪)).
    + done.
  - simpl in Hrun.
    apply mbindM_ok in Hrun as (date & fs1 & [Hd ->]%mlift_ok & Hrun).
    unfold py_index in Hd.
    destruct (dates acc !! a_idx) as [date'|] eqn:Hdate; [|done].
    injection Hd as ->.
    subst processed. rewrite !records_where_cons.
    setoid_rewrite records_where_cons. rewrite Hdate.
    destruct (decide (date ∉ list_to_set (a_dates self))) as [Hout|Hin].
    + rewrite elem_of_list_to_set in Hout.
      destruct (IH _ _ _ _ Hrun) as (-> & -> & Hb).
      assert (Hnil : (match expenses acc !! a_idx with
                      | Some month =>
                          if decide (date ∈ a_dates self) then month else []
                      | None => []
                      end) = []).
      { destruct (expenses acc !! a_idx); [|done]. by rewrite decide_False. }
      rewrite Hnil. split; [done|]. split; [done|].
      intros Hnd Hrcd c j d Hj. rewrite (Hb Hnd Hrcd c j d Hj).
      assert (Hnil' : (match expenses acc !! a_idx with
                       | Some month => if decide (date = d) then month else []
                       | None => []
                       end) = []).
      { destruct (expenses acc !! a_idx); [|done].
        rewrite decide_False; [done|]. intros ->. apply Hout.
        by eapply list_elem_of_lookup_2. }
      by rewrite Hnil'.
    + apply dec_stable in Hin. rewrite elem_of_list_to_set in Hin.
      apply mbindM_ok in Hrun as (i' & fs2 & [Hi ->]%mlift_ok & Hrun).
      apply mbindM_ok in Hrun as (month & fs3 & [Hm ->]%mlift_ok & Hrun).
      apply mbindM_ok in Hrun as ([ce1 uncat1] & fs4 & Hmonth & Hrun).
      unfold py_index in Hm.
      destruct (expenses acc !! a_idx) as [month'|] eqn:Hexp; [|done].
      injection Hm as ->.
      apply advance_ok in Hi as (_ & Hi' & _).
      destruct (categorize_month_contents _ _ _ _ _ _ _ _ _ _ Hmonth)
        as (-> & -> & Hb1).
      destruct (IH _ _ _ _ Hrun) as (-> & -> & Hb).
      rewrite decide_True by done. simpl.
      split; [|split].
      * by rewrite collision_text_app, string_app_assoc.
      * rewrite unmatched_locations_app.
        apply set_eq. intros x. rewrite !elem_of_union. tauto.
      * intros Hnd Hrcd c j d Hj.
        rewrite (Hb Hnd Hrcd c j d Hj), (Hb1 Hrcd), bucket_amounts_app.
        rewrite foldl_app.
        destruct (decide (j = i')) as [->|Hne].
        -- assert (d = date) as -> by congruence.
           by rewrite decide_True by done.
        -- rewrite decide_False; [done|]. intros ->. apply Hne.
           by eapply NoDup_lookup.
Qed.

(** the cursor never goes back: a run that returns has found the dates of
    the months it went through at or after the cursor *)
Lemma categorize_months_cursor (self : analyzer A limit) (acc : account A)
    a_idxs st i fs st' fs' :
  categorize_months limit re_search self acc (list_to_set (a_dates self))
    a_idxs st i fs = (Ok st', fs') →
  NoDup (a_dates self) →
  ∀ p a d j, a_idxs !! p = Some a → dates acc !! a = Some d →
             a_dates self !! j = Some d → (i ≤ j)%nat.
Proof.
  intros Hrun Hnd. revert st i fs Hrun.
  induction a_idxs as [|a_idx a_idxs IH]; intros st i fs Hrun p a d j Hp Ha Hj;
    [done|].
  simpl in Hrun.
  apply mbindM_ok in Hrun as (date & fs1 & [Hd ->]%mlift_ok & Hrun).
  unfold py_index in Hd.
  destruct (dates acc !! a_idx) as [date'|] eqn:Hdate; [|done].
  injection Hd as ->.
  destruct (decide (date ∉ list_to_set (a_dates self))) as [Hout|Hin].
  - destruct p as [|p]; [|by eapply IH].
    simpl in Hp. injection Hp as ->. exfalso. apply Hout.
    rewrite elem_of_list_to_set. assert (d = date) as -> by congruence.
    by eapply list_elem_of_lookup_2.
  - apply mbindM_ok in Hrun as (i' & fs2 & [Hi ->]%mlift_ok & Hrun).
    apply mbindM_ok in Hrun as (month & fs3 & [Hm ->]%mlift_ok & Hrun).
    apply mbindM_ok in Hrun as (st1 & fs4 & Hmonth & Hrun).
    apply advance_ok in Hi as (Hle & Hi' & _).
    destruct p as [|p].
    + simpl in Hp. injection Hp as ->. assert (d = date) as -> by congruence.
      by rewrite (NoDup_lookup _ _ _ _ Hnd Hj Hi').
    + simpl in Hp. pose proof (IH _ _ _ Hrun p a d j Hp Ha Hj). lia.
Qed.

Lemma categorize_months_in_order (self : analyzer A limit) (acc : account A)
    a_idxs st i fs st' fs' :
  categorize_months limit re_search self acc (list_to_set (a_dates self))
    a_idxs st i fs = (Ok st', fs') →
  NoDup (a_dates self) →
  ∀ p1 p2 a1 a2 d1 d2 j1 j2,
    (p1 < p2)%nat → a_idxs !! p1 = Some a1 → a_idxs !! p2 = Some a2 →
    dates acc !! a1 = Some d1 → dates acc !! a2 = Some d2 →
    a_dates self !! j1 = Some d1 → a_dates self !! j2 = Some d2 →
    (j1 ≤ j2)%nat.
Proof.
  intros Hrun Hnd. revert st i fs Hrun.
  induction a_idxs as [|a_idx a_idxs IH];
    intros st i fs Hrun p1 p2 a1 a2 d1 d2 j1 j2 Hlt Hp1 Hp2 Ha1 Ha2 Hj1 Hj2;
    [done|].
  destruct p2 as [|p2]; [lia|]. simpl in Hp2.
  simpl in Hrun.
  apply mbindM_ok in Hrun as (date & fs1 & [Hd ->]%mlift_ok & Hrun).
  unfold py_index in Hd.
  destruct (dates acc !! a_idx) as [date'|] eqn:Hdate; [|done].
  injection Hd as ->.
  destruct (decide (date ∉ list_to_set (a_dates self))) as [Hout|Hin].
  - destruct p1 as [|p1].
    + simpl in Hp1. injection Hp1 as ->. exfalso. apply Hout.
      rewrite elem_of_list_to_set. assert (d1 = date) as -> by congruence.
      by eapply list_elem_of_lookup_2.
    + simpl in Hp1.
      apply (IH _ _ _ Hrun p1 p2 a1 a2 d1 d2 j1 j2); [lia|done..].
  - apply mbindM_ok in Hrun as (i' & fs2 & [Hi ->]%mlift_ok & Hrun).
    apply mbindM_ok in Hrun as (month & fs3 & [Hm ->]%mlift_ok & Hrun).
    apply mbindM_ok in Hrun as (st1 & fs4 & Hmonth & Hrun).
    apply advance_ok in Hi as (Hle & Hi' & _).
    destruct p1 as [|p1].
    + simpl in Hp1. injection Hp1 as ->.
      assert (d1 = date) as -> by congruence.
      rewrite (NoDup_lookup _ _ _ _ Hnd Hj1 Hi').
      by eapply (categorize_months_cursor _ _ _ _ _ _ _ _ Hrun Hnd p2 a2 d2 j2).
    + simpl in Hp1.
      apply (IH _ _ _ Hrun p1 p2 a1 a2 d1 d2 j1 j2); [lia|done..].
Qed.

Lemma categorize_history_with_ok (self : analyzer A limit) (acc : account A)
    fs ce uncat fs' :
  categorize_history_with limit re_search self acc fs = (Ok (ce, uncat), fs') →
  ∃ fs1,
    categorize_months limit re_search self acc (list_to_set (a_dates self))
      (seq 0 (length (dates acc)))
      (empty_buckets (categories self) (length (a_dates self)), ∅) 0 fs
    = (Ok (ce, uncat), fs1)
    ∧ fs' = OutFiles (regex_collisions_txt fs1)
              (uncategorized_txt fs1
               +:+ String.concat EmptyString (line_of <$> elements uncat)).
Proof.
  unfold categorize_history_with. intros Hrun.
  apply mbindM_ok in Hrun as ([ce1 uncat1] & fs1 & Hmonths & Hrun).
  apply mbindM_ok in Hrun as ([] & fs2 & Happ & Hret).
  unfold mret in Hret. injection Hret as <- <- <-.
  unfold append_uncategorized in Happ. injection Happ as <-.
  by exists fs1.
Qed.

Lemma categorize_history_ok (self : analyzer A limit) (acc : account A)
    fs ce fs' :
  categorize_history limit re_search self acc fs = (Ok ce, fs') →
  ∃ uncat,
    categorize_history_with limit re_search self acc fs = (Ok (ce, uncat), fs').
Proof.
  unfold categorize_history. intros Hrun.
  apply mbindM_ok in Hrun as ([ce1 uncat1] & fs1 & Hwith & Hret).
  unfold mret in Hret. injection Hret as <- <-. by exists uncat1.
Qed.

Lemma bucket_at_empty (cats : list string) (n : nat) (c : string) (j : nat) :
  bucket_at (empty_buckets (A:=A) cats n) c j = nzero.
Proof.
  pose proof (empty_buckets_replicate (A:=A) cats n) as Hall.
  unfold bucket_at.
  destruct (dict_get c (empty_buckets cats n)) as [l|] eqn:Hl; [|done].
  apply (dict_get_Forall _ _ _ _ Hall) in Hl. simpl in Hl. subst l.
  simpl. apply replicate_zero_lookup.
Qed.

Lemma categorize_history_contents (self : analyzer A limit) (acc : account A)
    fs ce fs' :
  categorize_history limit re_search self acc fs = (Ok ce, fs') →
  NoDup (a_dates self) →
  "Total" ∉ dict_values (regex_category_dict self) →
  ∀ c j d, a_dates self !! j = Some d →
    bucket_at ce c j
    = foldl nadd nzero
        (bucket_amounts re_search (regex_category_dict self) c
           (records_of_date acc d)).
Proof.
  intros (uncat & Hwith)%categorize_history_ok Hnd Hrcd c j d Hj.
  apply categorize_history_with_ok in Hwith as (fs1 & Hmonths & _).
  apply categorize_months_contents in Hmonths as (_ & _ & Hb).
  rewrite (Hb Hnd Hrcd c j d Hj). by rewrite bucket_at_empty.
Qed.

End categorize_contents.

Section history_facts.
Context {A : Type} `{Number A} {limit : Type}.
Variable re_search : string → string → bool.
Implicit Types (ce : list (string * list A)) (uncat : gset string).

Lemma concat_empty_cons (s : string) (l : list string) :
  String.concat EmptyString (s :: l) = s +:+ String.concat EmptyString l.
Proof. destruct l; [by rewrite string_app_nil_r|done]. Qed.

Lemma elements_unmatched_listing (self : analyzer A limit) (acc : account A) :
  unmatched_listing re_search self acc
    (elements (unmatched_locations re_search (regex_category_dict self)
                 (processed_records (a_dates self) acc))).
Proof.
  split; [apply NoDup_elements|]. intros location. unfold unmatched_locations.
  rewrite elem_of_elements, elem_of_list_to_set, list_elem_of_filter. tauto.
Qed.

Lemma categorize_history_reports_eq (self : analyzer A limit) (acc : account A)
    fs ce fs' :
  categorize_history limit re_search self acc fs = (Ok ce, fs') →
  fs' = OutFiles
          (regex_collisions_txt fs +:+ account_collisions re_search self acc)
          (uncategorized_txt fs
           +:+ location_lines
                 (elements
                    (unmatched_locations re_search (regex_category_dict self)
                       (processed_records (a_dates self) acc)))).
Proof.
  intros (uncat & Hwith)%categorize_history_ok.
  apply categorize_history_with_ok in Hwith as (fs1 & Hmonths & ->).
  apply categorize_months_contents in Hmonths as (-> & -> & _).
  simpl. unfold account_collisions, location_lines, processed_records.
  by rewrite (right_id_L ∅ (∪)).
Qed.

Lemma categorize_accounts_reports (self : analyzer A limit)
    (accs : list (account A)) dat fs dat' fs' :
  categorize_accounts limit re_search self accs dat fs = (Ok dat', fs') →
  ∃ written : list (list string),
    Forall2 (unmatched_listing re_search self) accs written
    ∧ fs' = OutFiles
              (regex_collisions_txt fs
               +:+ String.concat EmptyString
                     (account_collisions re_search self <$> accs))
              (uncategorized_txt fs
               +:+ String.concat EmptyString (location_lines <$> written)).
Proof.
  revert dat fs. induction accs as [|acc accs IH]; intros dat fs Hrun.
  - simpl in Hrun. unfold mret in Hrun. injection Hrun as <- <-.
    exists []. split; [constructor|].
    destruct fs as [t1 t2]. simpl. by rewrite !string_app_nil_r.
  - simpl in Hrun. apply mbindM_ok in Hrun as (ce & fs1 & Hhist & Hrun).
    apply categorize_history_reports_eq in Hhist as ->.
    apply IH in Hrun as (written & Hall & ->).
    eexists (_ :: written). split.
    + constructor; [apply elements_unmatched_listing|done].
    + cbn [regex_collisions_txt uncategorized_txt].
      rewrite !fmap_cons, !concat_empty_cons. by rewrite !string_app_assoc.
Qed.

Lemma categorize_accounts_each (self : analyzer A limit)
    (accs : list (account A)) dat fs dat' fs' (acc : account A) :
  categorize_accounts limit re_search self accs dat fs = (Ok dat', fs') →
  acc ∈ accs →
  ∃ fs1 ce fs2,
    categorize_history limit re_search self acc fs1 = (Ok ce, fs2).
Proof.
  revert dat fs. induction accs as [|acc0 accs IH]; intros dat fs Hrun Hin;
    [by apply elem_of_nil in Hin|].
  simpl in Hrun. apply mbindM_ok in Hrun as (ce & fs1 & Hhist & Hrun).
  apply elem_of_cons in Hin as [->|Hin]; [by eexists _, _, _|].
  by eapply IH.
Qed.

Lemma categorize_accounts_data (self : analyzer A limit)
    (P : account A → list (string * list A) → Prop)
    (accs : list (account A)) dat fs dat' fs' :
  (∀ acc fs ce fs',
     categorize_history limit re_search self acc fs = (Ok ce, fs') → P acc ce) →
  categorize_accounts limit re_search self accs dat fs = (Ok dat', fs') →
  dict_keys dat'
  = foldl (λ seen r, if decide (r ∈ seen) then seen else (seen ++ [r])%list)
      (dict_keys dat) (label <$> accs)
  ∧ ∀ l ce, dict_get l dat' = Some ce →
      match last (filter (λ a, label a = l) accs) with
      | Some acc => P acc ce
      | None => dict_get l dat = Some ce
      end.
Proof.
  intros HP. revert dat fs. induction accs as [|acc accs IH]; intros dat fs Hrun.
  - simpl in Hrun. unfold mret in Hrun. by injection Hrun as <- <-.
  - simpl in Hrun. apply mbindM_ok in Hrun as (d & fs1 & Hhist & Hrun).
    destruct (IH _ _ Hrun) as [Hkeys Hvals]. split.
    + rewrite Hkeys. simpl. by rewrite dict_set_keys_step.
    + intros l ce Hl. specialize (Hvals l ce Hl). rewrite filter_cons.
      destruct (decide (label acc = l)) as [<-|Hne].
      * destruct (filter (λ a, label a = label acc) accs) as [|a0 rest].
        -- simpl in *. rewrite dict_get_set_eq in Hvals.
           injection Hvals as <-. by eapply HP.
        -- change (last (acc :: a0 :: rest)) with (last (a0 :: rest)).
           destruct (last (a0 :: rest)) eqn:Hlast; [done|].
           by apply last_None in Hlast.
      * destruct (last (filter (λ a, label a = l) accs)); [done|].
        by rewrite dict_get_set_ne in Hvals.
Qed.

Lemma ascending_NoDup (l : list string) : ascending l → NoDup l.
Proof.
  intros Hasc. apply NoDup_alt. intros i j x Hi Hj.
  destruct (decide (i = j)) as [|Hne]; [done|]. exfalso.
  assert (Hirr : String.ltb x x = true).
  { destruct (decide (i < j)%nat).
    - by eapply (Hasc i j).
    - eapply (Hasc j i); [done..|lia]. }
  by eapply ltb_asym.
Qed.

Lemma record_keeps_keys rcd (keys : list string) :
  kept_by_records re_search rcd (λ ce, dict_keys ce = keys).
Proof.
  intros cfg i [e loc] [ce uncat] fs [ce' uncat'] fs' Hstep Hkeys.
  simpl in Hkeys |- *.
  apply categorize_record_ok in Hstep as (ce1 & Hadd1 & Hadd2 & _ & _).
  by rewrite (bucket_add_keys _ _ _ _ _ Hadd2), (bucket_add_keys _ _ _ _ _ Hadd1).
Qed.

Lemma empty_buckets_keys (cats : list string) (n : nat) :
  dict_keys (empty_buckets (A:=A) cats n) = first_appearance cats.
Proof.
  unfold empty_buckets, first_appearance.
  assert (Hgen : ∀ d : list (string * list A),
            dict_keys (foldl (λ ce c, dict_set c (replicate n nzero) ce) d cats)
            = foldl (λ seen r,
                       if decide (r ∈ seen) then seen else (seen ++ [r])%list)
                (dict_keys d) cats).
  { induction cats as [|c cats IH]; intros d; simpl; [done|].
    by rewrite IH, dict_set_keys_step. }
  apply (Hgen []).
Qed.

Lemma empty_buckets_lengths (cats : list string) (n : nat) :
  Forall (λ cl : string * list A, length cl.2 = n) (empty_buckets cats n).
Proof.
  eapply Forall_impl; [apply empty_buckets_replicate|].
  intros [c l] ->. simpl. by rewrite length_replicate.
Qed.

End history_facts.

Section init_facts.
Context {A : Type} `{Number A} {limit : Type}.
Variable re_compiles : string → bool.
Variable re_search : string → string → bool.
Variable py_float : string → option limit.

Lemma init_inv lines cfg lbl total intersect
    (accs : list (string * account A)) fs self fs' :
  ExpenseHistoryAnalyzer_init limit re_compiles re_search py_float
    lines cfg lbl total intersect accs fs = (Ok self, fs') →
  ∃ cats lims ds dat,
    read_config limit re_compiles py_float cfg total lines = Ok (cats, lims)
    ∧ (if intersect then find_date_range_intersection accs
       else Ok (find_date_range_union accs)) = Ok ds
    ∧ self = Analyzer lbl cfg total accs cats lims
               (dict_values cats ++ ["Misc"; "Total"])%list ds dat
    ∧ categorize_accounts limit re_search
        (Analyzer lbl cfg total accs cats lims
           (dict_values cats ++ ["Misc"; "Total"])%list ds [])
        (dict_values accs) []
        (OutFiles (regex_collisions_txt fs)
           (line_of ("Using config file: " +:+ cfg)))
      = (Ok dat, fs').
Proof.
  unfold ExpenseHistoryAnalyzer_init. intros Hinit.
  apply mbindM_ok in Hinit as ([cats lims] & fs0 & [Hrc ->]%mlift_ok & Hinit).
  apply mbindM_ok in Hinit as (ds & fs1 & [Hds ->]%mlift_ok & Hinit).
  apply mbindM_ok in Hinit as ([] & fs2 & Htrunc & Hinit).
  apply mbindM_ok in Hinit as (dat & fs3 & Hdat & Hret).
  unfold mret in Hret. injection Hret as <- <-.
  unfold truncate_uncategorized in Htrunc. injection Htrunc as <-.
  by exists cats, lims, ds, dat.
Qed.

Lemma reconciled_ascending (intersect : bool)
    (accs : list (string * account A)) (ds : list string) :
  (if intersect then find_date_range_intersection accs
   else Ok (find_date_range_union accs)) = Ok ds →
  ascending ds.
Proof.
  destruct intersect.
  - unfold find_date_range_intersection.
    destruct (dict_values accs); [done|]. intros [= <-].
    apply sorted_list_ascending.
  - intros [= <-]. apply sorted_list_ascending.
Qed.

End init_facts.

(** X15: the aggregate that [categorize_history] returns holds, for a date
    range without repeated dates and rules that do not name "Total", at every
    month of the date range and for every category, the amounts of the
    account's records of that month that are counted under the category,
    all of them for "Total", added from zero in the order of the file. *)
Theorem categorize_history_buckets {A : Type} `{Number A} {limit : Type}
    (re_search : string → string → bool)
    (self : analyzer A limit) (acc : account A) (fs fs' : out_files)
    (ce : list (string * list A)) :
  categorize_history limit re_search self acc fs = (Ok ce, fs') →
  NoDup (a_dates self) →
  "Total" ∉ dict_values (regex_category_dict self) →
  ∀ c j d, a_dates self !! j = Some d →
    bucket_at ce c j
    = foldl nadd nzero
        (bucket_amounts re_search (regex_category_dict self) c
           (records_of_date acc d)).
Proof.
  intros (uncat & Hwith)%categorize_history_ok Hnd Hrcd c j d Hj.
  apply categorize_history_with_ok in Hwith as (fs1 & Hmonths & _).
  apply categorize_months_contents in Hmonths as (_ & _ & Hb).
  rewrite (Hb Hnd Hrcd c j d Hj). by rewrite bucket_at_empty.
Qed.

Lemma categorize_history_buckets_witness :
  bucket_at
    [("Food", [0x1.2666666666667p+1]); ("Bar", [0x1.999999999999ap-3]);
     ("Misc", [0]); ("Total", [0x1.4p+1])]%float "Food" 0
  = (0 + 0x1.999999999999ap-4 + 0x1.199999999999ap+1)%float.
Proof.
  assert (Hrun : categorize_history N Fragment.search
                   (food_bar_analyzer float_account ["2023_01"])
                   float_account_A no_files
                 = (Ok [("Food", [0x1.2666666666667p+1]);
                        ("Bar", [0x1.999999999999ap-3]);
                        ("Misc", [0]); ("Total", [0x1.4p+1])]%float,
                    no_files))
    by (vm_compute; reflexivity).
  assert (Hnd : NoDup (a_dates (food_bar_analyzer float_account ["2023_01"])))
    by apply NoDup_singleton.
  assert (Htotal : "Total" ∉ dict_values
                     (regex_category_dict
                        (food_bar_analyzer float_account ["2023_01"])))
    by (apply (bool_decide_unpack _); vm_compute; exact I).
  rewrite (categorize_history_buckets Fragment.search _ _ _ _ _
             Hrun Hnd Htotal "Food" 0%nat "2023_01" eq_refl).
  vm_compute. reflexivity.
Defined.

(** X16: a [categorize_history] that returns has appended to the collision
    report one entry for every record, of the months of the account that are
    in the date range, whose location more than one rule finds, in the order
    of the files and of their lines, and has appended to the report of
    uncategorized locations one line for every location of those records
    that no rule finds, once however many records have it, in some order:
    the order in which the set is gone through is not stated.  What the two
    reports held before is kept. *)
Theorem categorize_history_reports {A : Type} `{Number A} {limit : Type}
    (re_search : string → string → bool)
    (self : analyzer A limit) (acc : account A) (fs fs' : out_files)
    (ce : list (string * list A)) :
  categorize_history limit re_search self acc fs = (Ok ce, fs') →
  regex_collisions_txt fs'
  = regex_collisions_txt fs +:+ account_collisions re_search self acc
  ∧ ∃ locations,
      unmatched_listing re_search self acc locations
      ∧ uncategorized_txt fs'
        = uncategorized_txt fs +:+ location_lines locations.
Proof.
  intros ->%categorize_history_reports_eq. simpl.
  split; [done|]. eexists. split; [apply elements_unmatched_listing|done].
Qed.

Lemma categorize_history_reports_witness :
  ∃ locations,
    unmatched_listing Fragment.search
      (food_bar_analyzer two_accounts ["2023_01"; "2023_02"]) whole_account_A
      locations
    ∧ line_of "XYZ" = EmptyString +:+ location_lines locations.
Proof.
  assert (Hrun : categorize_history N Fragment.search
                   (food_bar_analyzer two_accounts ["2023_01"; "2023_02"])
                   whole_account_A no_files
                 = (Ok [("Food", [5; 1]); ("Bar", [0; 0]); ("Misc", [7; 2]);
                        ("Total", [12; 3])]%Z,
                    OutFiles (collision_entry "cfg" "FOOBAR" ["Food"; "Bar"])
                      (line_of "XYZ")))
    by (vm_compute; reflexivity).
  destruct (categorize_history_reports Fragment.search _ _ _ _ _ Hrun)
    as (_ & locations & Hlisting & Hu).
  exists locations. split; [exact Hlisting|exact Hu].
Defined.

(** X17: the aggregate that [categorize_history] returns has the categories
    of the analyzer as its keys, each once and in their order, and every one
    of its buckets has one entry per month of the date range, whatever the
    amounts are. *)
Theorem categorize_history_shape {A : Type} `{Number A} {limit : Type}
    (re_search : string → string → bool)
    (self : analyzer A limit) (acc : account A) (fs fs' : out_files)
    (ce : list (string * list A)) :
  categorize_history limit re_search self acc fs = (Ok ce, fs') →
  dict_keys ce = first_appearance (categories self)
  ∧ Forall (λ cl, length cl.2 = length (a_dates self)) ce.
Proof.
  intros Hrun.
  apply (categorize_history_kept re_search self acc
           (λ ce, dict_keys ce = first_appearance (categories self)
                  ∧ Forall (λ cl, length cl.2 = length (a_dates self)) ce)
           fs ce fs'); [|split|done].
  - intros cfg i rec st fs1 st' fs1' Hstep [Hkeys Hlen]. split.
    + by eapply (record_keeps_keys re_search (regex_category_dict self)).
    + by eapply (record_keeps_lengths re_search (regex_category_dict self)).
  - apply empty_buckets_keys.
  - apply empty_buckets_lengths.
Qed.

Lemma categorize_history_shape_witness :
  dict_keys [("Food", [0x1.2666666666667p+1]); ("Bar", [0x1.999999999999ap-3]);
             ("Misc", [0]); ("Total", [0x1.4p+1])]%float
  = ["Food"; "Bar"; "Misc"; "Total"].
Proof.
  assert (Hrun : categorize_history N Fragment.search
                   (food_bar_analyzer float_account ["2023_01"])
                   float_account_A no_files
                 = (Ok [("Food", [0x1.2666666666667p+1]);
                        ("Bar", [0x1.999999999999ap-3]);
                        ("Misc", [0]); ("Total", [0x1.4p+1])]%float,
                    no_files))
    by (vm_compute; reflexivity).
  destruct (categorize_history_shape Fragment.search _ _ _ _ _ Hrun)
    as [Hkeys _].
  rewrite Hkeys. vm_compute. reflexivity.
Defined.

(** X18: an analyzer that [__init__] returns holds one aggregate per label
    of its accounts, in the order in which the labels first appear; under a
    label it holds the aggregate of the last account given with that label.
    At every month of the date range and for every category the bucket is
    the amounts of that account's records of the month that are counted under
    the category, added from zero in the order of the file. *)
Theorem init_data_by_label {A : Type} `{Number A} {limit : Type}
    (re_compiles : string → bool) (re_search : string → string → bool)
    (py_float : string → option limit)
    (lines : list string) (cfg lbl : string) (total : limit) (intersect : bool)
    (accs : list (string * account A)) (fs fs' : out_files)
    (self : analyzer A limit) :
  ExpenseHistoryAnalyzer_init limit re_compiles re_search py_float
    lines cfg lbl total intersect accs fs = (Ok self, fs') →
  dict_keys (data self) = first_appearance (label <$> dict_values accs)
  ∧ ∀ l ce, dict_get l (data self) = Some ce →
      ∃ acc,
        last (filter (λ a, label a = l) (dict_values accs)) = Some acc
        ∧ ∀ c j d, a_dates self !! j = Some d →
            bucket_at ce c j
            = foldl nadd nzero
                (bucket_amounts re_search (regex_category_dict self) c
                   (records_of_date acc d)).
Proof.
  intros (cats & lims & ds & dat & Hrc & Hds & -> & Hdat)%init_inv.
  destruct (read_config_rules _ _ _ _ _ _ _ Hrc) as (Htotal & _ & _).
  apply reconciled_ascending, ascending_NoDup in Hds.
  eapply (categorize_accounts_data re_search _
            (λ acc ce, ∀ c j d, ds !! j = Some d →
               bucket_at ce c j
               = foldl nadd nzero
                   (bucket_amounts re_search cats c (records_of_date acc d))))
    in Hdat as [Hkeys Hvals].
  - split; [done|]. simpl. intros l ce Hl. specialize (Hvals l ce Hl).
    destruct (last (filter (λ a, label a = l) (dict_values accs))) as [acc|];
      [by exists acc|done].
  - intros acc fs1 ce fs2 Hrun.
    by apply (categorize_history_contents re_search _ _ _ _ _ Hrun).
Qed.

Lemma init_data_by_label_witness :
  dict_keys [("A", [("Food", [0; 0]); ("Bar", [3; 0]); ("Misc", [0; 0]);
                    ("Total", [3; 0])]%Z)]
  = ["A"].
Proof.
  assert (Hrun : ExpenseHistoryAnalyzer_init (A:=Z) N Fragment.compiles
                   Fragment.search Fragment.float_digits food_bar_config
                   "cfg" "an" 100%N true same_label_accounts no_files
                 = (Ok (Analyzer "an" "cfg" 100%N same_label_accounts
                          [("FOO.*", "Food"); (".*BAR", "Bar")]
                          [("Food", 50); ("Bar", 20); ("Total", 100)]%N
                          ["Food"; "Bar"; "Misc"; "Total"]
                          ["2023_01"; "2023_02"]
                          [("A", [("Food", [0; 0]); ("Bar", [3; 0]);
                                  ("Misc", [0; 0]); ("Total", [3; 0])]%Z)]),
                    OutFiles
                      (collision_entry "cfg" "FOOBAR" ["Food"; "Bar"])
                      (line_of "Using config file: cfg" +:+ line_of "XYZ")))
    by (vm_compute; reflexivity).
  destruct (init_data_by_label _ _ _ _ _ _ _ _ _ _ _ _ Hrun) as [Hkeys _].
  simpl in Hkeys. rewrite Hkeys. vm_compute. reflexivity.
Defined.

(** X19: [__init__] leaves in the collision report what it held and appends
    to it the entries of its accounts, one account after the other; it
    starts the report of uncategorized locations again, whatever it held,
    with the line that names the configuration, followed by the unmatched
    locations of its accounts, one account after the other, so that a
    location is written once for every account that has it.  The order of
    the unmatched locations of one account is that in which the set is gone
    through, which is not stated. *)
Theorem init_reports {A : Type} `{Number A} {limit : Type}
    (re_compiles : string → bool) (re_search : string → string → bool)
    (py_float : string → option limit)
    (lines : list string) (cfg lbl : string) (total : limit) (intersect : bool)
    (accs : list (string * account A)) (fs fs' : out_files)
    (self : analyzer A limit) :
  ExpenseHistoryAnalyzer_init limit re_compiles re_search py_float
    lines cfg lbl total intersect accs fs = (Ok self, fs') →
  regex_collisions_txt fs'
  = regex_collisions_txt fs
    +:+ String.concat EmptyString
          (account_collisions re_search self <$> dict_values accs)
  ∧ ∃ written : list (list string),
      Forall2 (unmatched_listing re_search self) (dict_values accs) written
      ∧ uncategorized_txt fs'
        = line_of ("Using config file: " +:+ cfg)
          +:+ String.concat EmptyString (location_lines <$> written).
Proof.
  intros (cats & lims & ds & dat & Hrc & Hds & -> & Hdat)%init_inv.
  apply categorize_accounts_reports in Hdat as (written & Hall & ->).
  split; [done|]. by exists written.
Qed.

Lemma init_reports_witness :
  ∃ written : list (list string),
    Forall2
      (unmatched_listing Fragment.search
         (Analyzer "an" "cfg" 100%N two_accounts
            [("FOO.*", "Food"); (".*BAR", "Bar")]
            [("Food", 50); ("Bar", 20); ("Total", 100)]%N
            ["Food"; "Bar"; "Misc"; "Total"]
            ["2023_01"; "2023_02"; "2023_03"]
            [("A", [("Food", [5; 1; 0]); ("Bar", [0; 0; 0]);
                    ("Misc", [7; 2; 0]); ("Total", [12; 3; 0])]);
             ("B", [("Food", [0; 5; 1]); ("Bar", [0; 0; 0]);
                    ("Misc", [0; 7; 2]); ("Total", [0; 12; 3])])]%Z))
      (dict_values two_accounts) written
    ∧ line_of "Using config file: cfg" +:+ line_of "XYZ" +:+ line_of "XYZ"
      = line_of ("Using config file: " +:+ "cfg")
        +:+ String.concat EmptyString (location_lines <$> written).
Proof.
  assert (Hrun : ExpenseHistoryAnalyzer_init (A:=Z) N Fragment.compiles
                   Fragment.search Fragment.float_digits food_bar_config
                   "cfg" "an" 100%N false two_accounts
                   (OutFiles "old" "old")
                 = (Ok (Analyzer "an" "cfg" 100%N two_accounts
                          [("FOO.*", "Food"); (".*BAR", "Bar")]
                          [("Food", 50); ("Bar", 20); ("Total", 100)]%N
                          ["Food"; "Bar"; "Misc"; "Total"]
                          ["2023_01"; "2023_02"; "2023_03"]
                          [("A", [("Food", [5; 1; 0]); ("Bar", [0; 0; 0]);
                                  ("Misc", [7; 2; 0]); ("Total", [12; 3; 0])]);
                           ("B", [("Food", [0; 5; 1]); ("Bar", [0; 0; 0]);
                                  ("Misc", [0; 7; 2]);
                                  ("Total", [0; 12; 3])])]%Z),
                    OutFiles
                      ("old"
                       +:+ collision_entry "cfg" "FOOBAR" ["Food"; "Bar"]
                       +:+ collision_entry "cfg" "FOOBAR" ["Food"; "Bar"])
                      (line_of "Using config file: cfg" +:+ line_of "XYZ"
                       +:+ line_of "XYZ")))
    by (vm_compute; reflexivity).
  destruct (init_reports _ _ _ _ _ _ _ _ _ _ _ _ Hrun)
    as (_ & written & Hall & Hu).
  exists written. split; [exact Hall|exact Hu].
Defined.

(** X20: [__init__] returns only if every account has the months of the
    date range in ascending order: of two months of an account that are both
    in the date range, the one that comes later in the account is the same
    month or a later one. *)
Theorem init_needs_sorted_accounts {A : Type} `{Number A} {limit : Type}
    (re_compiles : string → bool) (re_search : string → string → bool)
    (py_float : string → option limit)
    (lines : list string) (cfg lbl : string) (total : limit) (intersect : bool)
    (accs : list (string * account A)) (fs fs' : out_files)
    (self : analyzer A limit) :
  ExpenseHistoryAnalyzer_init limit re_compiles re_search py_float
    lines cfg lbl total intersect accs fs = (Ok self, fs') →
  ∀ acc a1 a2 d1 d2,
    acc ∈ dict_values accs → (a1 < a2)%nat →
    dates acc !! a1 = Some d1 → dates acc !! a2 = Some d2 →
    d1 ∈ a_dates self → d2 ∈ a_dates self →
    d1 = d2 ∨ String.ltb d1 d2 = true.
Proof.
  intros (cats & lims & ds & dat & Hrc & Hds & -> & Hdat)%init_inv
    acc a1 a2 d1 d2 Hacc Hlt Ha1 Ha2 Hd1 Hd2. simpl in Hd1, Hd2.
  apply reconciled_ascending in Hds.
  pose proof (ascending_NoDup _ Hds) as Hnd.
  destruct (categorize_accounts_each _ _ _ _ _ _ _ acc Hdat Hacc)
    as (fs1 & ce & fs2 & Hrun).
  apply categorize_history_ok in Hrun as (uncat & Hrun).
  apply categorize_history_with_ok in Hrun as (fs3 & Hmonths & _).
  apply list_elem_of_lookup in Hd1 as [j1 Hj1].
  apply list_elem_of_lookup in Hd2 as [j2 Hj2].
  assert (Hle : (j1 ≤ j2)%nat).
  { apply (categorize_months_in_order _ _ _ _ _ _ _ _ _ Hmonths Hnd
             a1 a2 a1 a2 d1 d2 j1 j2); try done.
    - apply lookup_seq. split; [done|]. by eapply lookup_lt_Some.
    - apply lookup_seq. split; [done|]. by eapply lookup_lt_Some. }
  destruct (decide (j1 = j2)) as [->|Hne].
  - left. congruence.
  - right. eapply (Hds j1 j2); [done..|lia].
Qed.

Lemma init_needs_sorted_accounts_witness :
  "2023_01" = "2023_02" ∨ String.ltb "2023_01" "2023_02" = true.
Proof.
  assert (Hrun : ExpenseHistoryAnalyzer_init (A:=Z) N Fragment.compiles
                   Fragment.search Fragment.float_digits food_bar_config
                   "cfg" "an" 100%N false two_accounts no_files
                 = (Ok (Analyzer "an" "cfg" 100%N two_accounts
                          [("FOO.*", "Food"); (".*BAR", "Bar")]
                          [("Food", 50); ("Bar", 20); ("Total", 100)]%N
                          ["Food"; "Bar"; "Misc"; "Total"]
                          ["2023_01"; "2023_02"; "2023_03"]
                          [("A", [("Food", [5; 1; 0]); ("Bar", [0; 0; 0]);
                                  ("Misc", [7; 2; 0]); ("Total", [12; 3; 0])]);
                           ("B", [("Food", [0; 5; 1]); ("Bar", [0; 0; 0]);
                                  ("Misc", [0; 7; 2]);
                                  ("Total", [0; 12; 3])])]%Z),
                    OutFiles
                      (collision_entry "cfg" "FOOBAR" ["Food"; "Bar"]
                       +:+ collision_entry "cfg" "FOOBAR" ["Food"; "Bar"])
                      (line_of "Using config file: cfg" +:+ line_of "XYZ"
                       +:+ line_of "XYZ")))
    by (vm_compute; reflexivity).
  apply (init_needs_sorted_accounts _ _ _ _ _ _ _ _ _ _ _ _ Hrun
           whole_account_A 0%nat 1%nat).
  - vm_compute. left.
  - lia.
  - reflexivity.
  - reflexivity.
  - apply (bool_decide_unpack _). vm_compute. exact I.
  - apply (bool_decide_unpack _). vm_compute. exact I.
Defined.

(** an account with two months of the date range in descending order: the
    cursor is past the earlier month when it is looked for *)
Example unsorted_account_raises :
  Fragment.init (A:=Z) food_bar_config "cfg" "an" 100%N true
    [("u", unsorted_account)] no_files
  = (Raise IndexError,
     OutFiles EmptyString (line_of "Using config file: cfg")).
Proof. vm_compute. reflexivity. Qed.

(** X21: the date range does not depend on the order in which the accounts
    are given: accounts given in another order have the same intersection
    and the same union of their dates. *)
Theorem date_range_order_independent {A : Type}
    (accs accs' : list (string * account A)) :
  dict_values accs ≡ₚ dict_values accs' →
  find_date_range_intersection accs = find_date_range_intersection accs'
  ∧ find_date_range_union accs = find_date_range_union accs'.
Proof.
  intros Hperm. split.
  - unfold find_date_range_intersection.
    destruct (dict_values accs) as [|acc rest] eqn:Hv;
      destruct (dict_values accs') as [|acc' rest'] eqn:Hv'.
    + done.
    + by apply Permutation_nil_cons in Hperm.
    + symmetry in Hperm. by apply Permutation_nil_cons in Hperm.
    + do 2 f_equal. apply set_eq. intros d.
      rewrite !elem_of_foldl_intersection. unfold date_set_of.
      rewrite !elem_of_list_to_set. split.
      * intros [Hacc Hrest].
        assert (Hall : ∀ a, a ∈ acc' :: rest' → d ∈ dates a).
        { intros a Ha. rewrite <- Hperm in Ha.
          apply elem_of_cons in Ha as [->|Ha]; auto. }
        split; [apply Hall; by left|]. intros a Ha. apply Hall. by right.
      * intros [Hacc Hrest].
        assert (Hall : ∀ a, a ∈ acc :: rest → d ∈ dates a).
        { intros a Ha. rewrite Hperm in Ha.
          apply elem_of_cons in Ha as [->|Ha]; auto. }
        split; [apply Hall; by left|]. intros a Ha. apply Hall. by right.
  - unfold find_date_range_union. f_equal. apply set_eq. intros d.
    rewrite !elem_of_foldl_union. split.
    + intros [?|(a & Ha & Hd)]; [by left|]. right. exists a.
      by rewrite <- Hperm.
    + intros [?|(a & Ha & Hd)]; [by left|]. right. exists a.
      by rewrite Hperm.
Qed.

Lemma date_range_order_independent_witness :
  find_date_range_intersection two_accounts
  = find_date_range_intersection (reverse two_accounts).
Proof.
  apply (date_range_order_independent two_accounts (reverse two_accounts)).
  unfold dict_values. rewrite fmap_reverse. symmetry. apply reverse_Permutation.
Defined.

(** ** The series of the graphs *)

Lemma dict_get_elem {K V : Type} `{EqDecision K} (d : list (K * V)) (k : K)
    (v : V) :
  NoDup (dict_keys d) → (k, v) ∈ d → dict_get k d = Some v.
Proof.
  unfold dict_keys. induction d as [|[k' v'] d IH]; intros Hnd Hin;
    [by apply elem_of_nil in Hin|].
  simpl in Hnd. apply NoDup_cons in Hnd as [Hk' Hnd]. simpl.
  apply elem_of_cons in Hin as [[= -> ->]|Hin].
  - by rewrite decide_True.
  - rewrite decide_False; [by apply IH|].
    intros ->. apply Hk'. apply list_elem_of_fmap. by exists (k', v).
Qed.

Lemma dict_keys_values_get {K V : Type} `{EqDecision K} (d : list (K * V)) :
  NoDup (dict_keys d) →
  Forall2 (λ k v, dict_get k d = Some v) (dict_keys d) (dict_values d).
Proof.
  intros Hnd. unfold dict_keys, dict_values.
  apply Forall2_fmap, Forall_Forall2_diag, Forall_forall.
  intros [k v] Hin. by apply dict_get_elem.
Qed.

Lemma first_appearance_step_elem (seen l : list string) (c : string) :
  c ∈ foldl (λ seen r, if decide (r ∈ seen) then seen else (seen ++ [r])%list)
        seen l
  ↔ c ∈ seen ∨ c ∈ l.
Proof.
  revert seen. induction l as [|x l IH]; intros seen; simpl.
  - split; [by left|]. by intros [?|?%elem_of_nil].
  - rewrite IH. destruct (decide (x ∈ seen)) as [Hx|Hx].
    + rewrite elem_of_cons. split; [tauto|].
      intros [?|[->|?]]; tauto.
    + rewrite elem_of_app, (elem_of_cons l), list_elem_of_singleton. tauto.
Qed.

Lemma elem_of_first_appearance (l : list string) (c : string) :
  c ∈ first_appearance l ↔ c ∈ l.
Proof.
  unfold first_appearance. rewrite first_appearance_step_elem.
  split; [by intros [?%elem_of_nil|?]|by right].
Qed.

Lemma first_appearance_step_NoDup (seen l : list string) :
  NoDup seen →
  NoDup (foldl (λ seen r, if decide (r ∈ seen) then seen else (seen ++ [r])%list)
           seen l).
Proof.
  revert seen. induction l as [|x l IH]; intros seen Hnd; simpl; [done|].
  apply IH. destruct (decide (x ∈ seen)); [done|].
  apply NoDup_app. split; [done|]. split; [|apply NoDup_singleton].
  intros y Hy ?%list_elem_of_singleton. by subst.
Qed.

Section graph_facts.
Context {A : Type} `{Number A}.
Variable np_add : list A → list A → result (list A).
Hypothesis np_add_same_length :
  ∀ x y, length x = length y → np_add x y = Ok (zip_with nadd x y).
Variable n : nat.
Implicit Types (dat : list (string * list (string * list A)))
  (slice : list (string * list A)) (ce : list (string * list A)).




End graph_facts.


Section graph_init_facts.
Context {A : Type} `{Number A} {limit : Type}.
Variable re_compiles : string → bool.
Variable re_search : string → string → bool.
Variable py_float : string → option limit.

(** the data of an analyzer that [__init__] returns: one aggregate per
    label, each with a bucket of one entry per month for every category *)
Lemma init_data_shape lines cfg lbl total intersect
    (accs : list (string * account A)) fs self fs' :
  ExpenseHistoryAnalyzer_init limit re_compiles re_search py_float
    lines cfg lbl total intersect accs fs = (Ok self, fs') →
  NoDup (dict_keys (data self))
  ∧ Forall (λ ce, ∀ c, c ∈ categories self →
                  ∃ values, dict_get c ce = Some values
                            ∧ length values = length (a_dates self))
      (dict_values (data self)).
Proof.
  intros (cats & lims & ds & dat & Hrc & Hds & -> & Hdat)%init_inv. simpl.
  split.
  - eapply (categorize_accounts_data re_search _ (λ _ _, True)) in Hdat
      as [-> _]; [|done].
    apply first_appearance_step_NoDup. constructor.
  - eapply (categorize_accounts_kept re_search _ _
              (λ ce, dict_keys ce
                     = first_appearance (dict_values cats ++ ["Misc"; "Total"])
                     ∧ Forall (λ cl, length cl.2 = length ds) ce))
      in Hdat.
    + unfold dict_values at 1. apply Forall_fmap.
      eapply Forall_impl; [exact Hdat|]. intros [l ce] [Hkeys Hlen] c Hc.
      simpl in *.
      assert (Hin : c ∈ dict_keys ce)
        by (rewrite Hkeys; by apply elem_of_first_appearance).
      apply dict_get_is_Some in Hin as [values Hvalues].
      exists values. split; [done|].
      by apply (dict_get_Forall _ _ _ _ Hlen Hvalues).
    + simpl. intros cfg' i rec st fs1 st' fs1' Hstep [Hkeys Hlen]. split.
      * by eapply (record_keeps_keys re_search cats).
      * by eapply (record_keeps_lengths re_search cats).
    + simpl. split; [apply empty_buckets_keys|apply empty_buckets_lengths].
    + constructor.
Qed.

End graph_init_facts.



Section totals_facts.
Variable np_add : list float → list float → result (list float).
Hypothesis np_add_same_length :
  ∀ x y, length x = length y → np_add x y = Ok (zip_with PrimFloat.add x y).
Variable n : nat.

Lemma totals_accounts_spec (dat : list (string * list (string * list float)))
    (accounts : list string) (ces : list (list (string * list float)))
    (totals : list float) :
  Forall2 (λ account ce, dict_get account dat = Some ce) accounts ces →
  Forall (has_bucket n "Total") ces → length totals = n →
  ∃ totals',
    totals_accounts np_add dat accounts totals = Ok totals'
    ∧ length totals' = n
    ∧ ∀ j x, totals !! j = Some x →
        totals' !! j
        = Some (foldl PrimFloat.add x
                  ((λ ce, bucket_at ce "Total" j) <$> ces)).
Proof.
  intros Hall. revert totals.
  induction Hall as [|account ce accounts ces Hce Hall IH];
    intros totals Hces Hlen.
  - by exists totals.
  - apply Forall_cons in Hces as [(values & Hvalues & Hlenv) Hces].
    simpl. unfold dict_lookup. rewrite Hce. simpl. rewrite Hvalues. simpl.
    rewrite np_add_same_length by congruence. simpl.
    destruct (IH (zip_with PrimFloat.add totals values) Hces)
      as (totals' & Hrun & Hlen' & Hj').
    { rewrite length_zip_with. lia. }
    exists totals'. split; [done|]. split; [done|].
    intros j x Hx.
    destruct (lookup_lt_is_Some_2 values j) as [b Hb].
    { apply lookup_lt_Some in Hx. lia. }
    rewrite (Hj' j (PrimFloat.add x b)).
    + do 2 f_equal. unfold bucket_at. rewrite Hvalues. simpl. by rewrite Hb.
    + rewrite lookup_zip_with, Hx. simpl. by rewrite Hb.
Qed.

End totals_facts.

(** X23: for an analyzer of [float] amounts that [__init__] returns, the
    loop of [graph_against_total] that adds up [totals] raises nothing,
    given that [np.add] adds two sequences of the same length element by
    element; [totals] has one entry per month of the date range, the "Total"
    buckets of all the aggregates of the data added to the zero of
    [np.zeros], in binary64, in their order. *)
Theorem graph_totals_sum {limit : Type}
    (re_compiles : string → bool) (re_search : string → string → bool)
    (py_float : string → option limit)
    (np_add : list float → list float → result (list float))
    (lines : list string) (cfg lbl : string) (total : limit) (intersect : bool)
    (accs : list (string * account float)) (fs fs' : out_files)
    (self : analyzer float limit) :
  (∀ x y, length x = length y → np_add x y = Ok (zip_with PrimFloat.add x y)) →
  ExpenseHistoryAnalyzer_init limit re_compiles re_search py_float
    lines cfg lbl total intersect accs fs = (Ok self, fs') →
  ∃ totals,
    graph_totals np_add self = Ok totals
    ∧ length totals = length (a_dates self)
    ∧ ∀ j, (j < length (a_dates self))%nat →
        totals !! j
        = Some (foldl PrimFloat.add 0%float
                  ((λ lce, bucket_at lce.2 "Total" j) <$> data self)).
Proof.
  intros Hnp Hinit.
  destruct (init_data_shape _ _ _ _ _ _ _ _ _ _ _ _ Hinit) as [Hnd Hshape].
  assert (Htotal : "Total" ∈ categories self).
  { apply init_inv in Hinit
      as (cats & lims & ds & dat & _ & _ & -> & _). simpl.
    apply elem_of_app. right. right. left. }
  destruct (totals_accounts_spec np_add Hnp (length (a_dates self))
              (data self) (dict_keys (data self)) (dict_values (data self))
              (replicate (length (a_dates self)) 0%float))
    as (totals & Hrun & Hlen & Hj).
  - by apply dict_keys_values_get.
  - eapply Forall_impl; [exact Hshape|]. intros ce Hce. by apply Hce.
  - apply length_replicate.
  - exists totals. split; [done|]. split; [done|].
    intros j Hlt. rewrite (Hj j 0%float) by (by apply lookup_replicate_2).
    unfold dict_values. by rewrite <- list_fmap_compose.
Qed.

Lemma graph_totals_sum_witness :
  ∃ totals,
    graph_totals np_add_1d
      (Analyzer "an" "cfg" 100%N two_float_accounts
         [("FOO.*", "Food"); (".*BAR", "Bar")]
         [("Food", 50); ("Bar", 20); ("Total", 100)]%N
         ["Food"; "Bar"; "Misc"; "Total"]
         ["2023_01"]
         [("A", [("Food", [0x1.2666666666667p+1]);
                 ("Bar", [0x1.999999999999ap-3]);
                 ("Misc", [0]); ("Total", [0x1.4p+1])]);
          ("B", [("Food", [0x1.8p+0]); ("Bar", [0]);
                 ("Misc", [0]); ("Total", [0x1.8p+0])])]%float)
    = Ok totals
    ∧ totals !! 0%nat = Some (0 + 0x1.4p+1 + 0x1.8p+0)%float.
Proof.
  assert (Hrun : ExpenseHistoryAnalyzer_init (A:=float) N Fragment.compiles
                   Fragment.search Fragment.float_digits food_bar_config
                   "cfg" "an" 100%N true two_float_accounts no_files
                 = (Ok (Analyzer "an" "cfg" 100%N two_float_accounts
                          [("FOO.*", "Food"); (".*BAR", "Bar")]
                          [("Food", 50); ("Bar", 20); ("Total", 100)]%N
                          ["Food"; "Bar"; "Misc"; "Total"]
                          ["2023_01"]
                          [("A", [("Food", [0x1.2666666666667p+1]);
                                  ("Bar", [0x1.999999999999ap-3]);
                                  ("Misc", [0]); ("Total", [0x1.4p+1])]);
                           ("B", [("Food", [0x1.8p+0]); ("Bar", [0]);
                                  ("Misc", [0]);
                                  ("Total", [0x1.8p+0])])]%float),
                    OutFiles EmptyString
                      (line_of "Using config file: cfg")))
    by (vm_compute; reflexivity).
  assert (Hnp : ∀ x y : list float,
            length x = length y →
            np_add_1d x y = Ok (zip_with PrimFloat.add x y))
    by (intros x y Hlen; unfold np_add_1d; by rewrite decide_True).
  destruct (graph_totals_sum _ _ _ np_add_1d _ _ _ _ _ _ _ _ _ Hnp Hrun)
    as (totals & Htotals & _ & Hj).
  exists totals. split; [exact Htotals|].
  rewrite Hj by (simpl; lia). reflexivity.
Defined.

(** ** The failures of a configuration *)

Section config_failures.
Context {limit : Type}.
Variable re_compiles : string → bool.
Variable py_float : string → option limit.




End config_failures.


